(** * WisprTux / WhisperFlow: the streaming transcription engine

    A shallow embedding of [gui/transcription_engine.py] (both the
    [whisperflow] and the [wisprtux] package) and of the parts of
    [gui/window_tracker.py] the engine calls, followed by the properties
    of the streaming loop, the model-loading policy and the output routing.

    Conventions of the embedding.
    - Python [str] values are [string]s; a character is one [ascii], so a
      text ranges over code points below 256.
    - Unbounded Python [int]s that only count are [nat]; PCM samples are [Z].
    - The float expressions of the source only ever hold dyadic rationals
      that binary64 represents exactly; they are computed in [Q].
    - Everything the engine asks of its host (file system, torch, whisper,
      PyAudio, subprocesses) is answered by a [Host] record; every call that
      leaves the engine is recorded, in order, in a list of [action]s.
    - An exception is represented by its message ([str(exc)]); a call
      that an exception can leave has an [outcome]. *)

From Stdlib Require Import Ascii String QArith Qround.
From stdpp Require Import gmap strings list.

Local Open Scope Z_scope.
Local Open Scope nat_scope.

(** ** Python and library primitives *)

Module Py.

Definition exn := string.

(** How a call ends: it returns a value, or an exception leaves it. *)
Inductive outcome (A : Type) : Type :=
| Returns (a : A)
| Raises (e : exn).

Arguments Returns {A} a.
Arguments Raises {A} e.

(** The outcome of [f(x)] for a call [x] that may have raised and an [f]
    that does not raise. *)
Definition and_then {A B : Type} (f : A -> B) (o : outcome A) : outcome B :=
  match o with
  | Returns a => Returns (f a)
  | Raises e => Raises e
  end.

(** [bool(s)] for a [str]. *)
Definition truthy (s : string) : bool :=
  match s with
  | EmptyString => false
  | String _ _ => true
  end.

(** [chr(0) in s] *)
Fixpoint has_nul (s : string) : bool :=
  match s with
  | EmptyString => false
  | String c r => Ascii.eqb c Ascii.zero || has_nul r
  end.

(** [c.isspace()] for a code point below 256. *)
Definition isspace (c : ascii) : bool :=
  let n := nat_of_ascii c in
  ((9 <=? n) && (n <=? 13)) || ((28 <=? n) && (n <=? 32))
  || (n =? 133) || (n =? 160).

Fixpoint lstrip (s : string) : string :=
  match s with
  | EmptyString => EmptyString
  | String c r => if isspace c then lstrip r else s
  end.

Fixpoint rstrip (s : string) : string :=
  match s with
  | EmptyString => EmptyString
  | String c r =>
      match rstrip r with
      | EmptyString => if isspace c then EmptyString else String c EmptyString
      | r' => String c r'
      end
  end.

(** [s.strip()] *)
Definition strip (s : string) : string := rstrip (lstrip s).

Fixpoint startswith (p s : string) : bool :=
  match p, s with
  | EmptyString, _ => true
  | String a p', String b s' => if Ascii.eqb a b then startswith p' s' else false
  | String _ _, EmptyString => false
  end.

(** [s.replace(old, new)] for a non-empty [old]: occurrences are replaced
    from the left and do not overlap.  [skip] counts the characters of a
    match that are still to be dropped. *)
Fixpoint replace_from (old new : string) (skip : nat) (s : string) : string :=
  match s with
  | EmptyString => EmptyString
  | String c r =>
      match skip with
      | S k => replace_from old new k r
      | O =>
          if startswith old s
          then new +:+ replace_from old new (String.length old - 1) r
          else String c (replace_from old new 0 r)
      end
  end.

Definition replace (old new s : string) : string := replace_from old new 0 s.

(** [int(x)] for a float: truncation toward zero. *)
Definition int (x : Q) : Z := Z.quot (Qnum x) (Z.pos (Qden x)).

(** *** [os.path] (posixpath) *)

Definition is_slash (c : ascii) : bool := Ascii.eqb c "/"%char.

(** [p[: p.rfind('/') + 1]], or [None] when [p] holds no slash. *)
Fixpoint upto_last_slash (p : string) : option string :=
  match p with
  | EmptyString => None
  | String c r =>
      match upto_last_slash r with
      | Some h => Some (String c h)
      | None => if is_slash c then Some (String c EmptyString) else None
      end
  end.

(** [s.rstrip('/')] *)
Fixpoint rstrip_slash (s : string) : string :=
  match s with
  | EmptyString => EmptyString
  | String c r =>
      match rstrip_slash r with
      | EmptyString => if is_slash c then EmptyString else String c EmptyString
      | r' => String c r'
      end
  end.

(** [os.path.dirname]: the head up to the last slash, without its trailing
    slashes unless it consists of slashes only. *)
Definition dirname (p : string) : string :=
  let head := default EmptyString (upto_last_slash p) in
  match rstrip_slash head with
  | EmptyString => head
  | stripped => stripped
  end.

Fixpoint endswith_slash (s : string) : bool :=
  match s with
  | EmptyString => false
  | String c EmptyString => is_slash c
  | String _ r => endswith_slash r
  end.

(** [os.path.join(a, b)] *)
Definition join (a b : string) : string :=
  if startswith "/" b then b
  else if negb (truthy a) || endswith_slash a then a +:+ b
  else a +:+ "/" +:+ b.

(** *** [numpy] *)

Definition int16_of_bytes (lo hi : Byte.byte) : Z :=
  let u := (Z.of_N (Byte.to_N lo) + 256 * Z.of_N (Byte.to_N hi))%Z in
  if (32768 <=? u)%Z then (u - 65536)%Z else u.

(** [np.frombuffer(buf, np.int16)] on a little-endian host: [None] stands
    for the [ValueError] raised when the buffer size is not a multiple of
    the element size. *)
Fixpoint frombuffer_int16 (buf : list Byte.byte) : option (list Z) :=
  match buf with
  | [] => Some []
  | [_] => None
  | lo :: hi :: rest => cons (int16_of_bytes lo hi) <$> frombuffer_int16 rest
  end.

(** [.astype(np.float32) / 32768.0]: exact, a sample has 16 bits. *)
Definition normalize (samples : list Z) : list Q :=
  map (fun z => Qmake z 32768) samples.

End Py.


(** ** Types shared by both engine versions *)

(** The dict [{"is_partial": b, "data": {"text": t}}] handed to the
    transcript listener. *)
Record TranscriptEvent := { is_partial : bool; data_text : string }.

Definition partial_event (t : string) : TranscriptEvent :=
  {| is_partial := true; data_text := t |}.
Definition final_event (t : string) : TranscriptEvent :=
  {| is_partial := false; data_text := t |}.

Inductive device := cuda | cpu.

(** The two ways [whisper.load_model] is called. *)
Inductive weights :=
| LocalFile (local_path : string)
| ByName (model_size download_root : string).

Record Model := { model_weights : weights; model_device : device }.

(** What the host does with a command handed to [subprocess.run]: the
    process exits with a return code and its standard output, or the call
    raises one of the exceptions the callers catch ([TimeoutExpired],
    [FileNotFoundError], [OSError]).  Two exceptions that the callers do
    not catch are not part of this answer, see [WindowTracker._run]: the
    [ValueError] raised before anything is started when an argument holds
    a NUL, and the [UnicodeDecodeError] raised when captured output is not
    valid in the encoding of the locale.  What [xdotool] prints of its own
    (window ids, process ids, messages) is taken to be valid; the window
    title it relays need not be, see [title_error]. *)
Inductive cmd_outcome :=
| Exited (returncode : Z) (stdout : string)
| RunFails.

(** What [stream.read(1024, exception_on_overflow=False)] does. *)
Inductive read_result :=
| ReadOk (data : list Byte.byte)
| ReadRaises.

(** What [self._model.transcribe(...)] does: it returns a dict that may
    hold a ["text"] entry, or the [try] block raises. *)
Inductive infer_outcome :=
| Transcribed (text : option string)
| InferRaises.

Definition listener := nat.

Inductive action :=
| StatusCb (cb : listener) (text : string)
| TranscriptCb (cb : listener) (ev : TranscriptEvent)
| WhisperLoad (w : weights) (d : device)
| Transcribe (arr : list Q)
| PyAudioInit
| AudioOpen
| StreamStop
| StreamClose
| AudioTerminate
| Subprocess (argv : list string) (input : option string)
| ThreadStart (tid : nat).

Record Host := {
  module_file : string;                 (* [__file__] of the engine module *)
  path_exists : string -> bool;         (* [os.path.exists] *)
  torch_cuda : Py.exn + bool;           (* [import torch; torch.cuda.is_available()] *)
  whisper_load : weights -> device -> option Py.exn;
                                        (* [whisper.load_model(..).to(device)]:
                                           the exception it raises, if any *)
  pyaudio_import : bool;                (* [false]: [ImportError] *)
  audio_open : option Py.exn;           (* [audio.open(..)]: the exception, if any *)
  transcribe : nat -> list Q -> infer_outcome;
                                        (* the n-th inference call of the session *)
  which : string -> bool;               (* [shutil.which(..) is not None] *)
  subprocess_run : list string -> option string -> cmd_outcome;
  title_error : option Py.exn           (* the [UnicodeDecodeError] of decoding
                                           the title of the focused window,
                                           if that title is not valid in the
                                           encoding of the locale *)
}.

(** How a worker thread ends. *)
Inductive thread_end :=
| Returned
| Uncaught (e : Py.exn).

(** The locals of [_worker_loop] that live across iterations.  [cycles] is
    a ghost counter: the number of inference calls made so far. *)
Record Locals := {
  window : list (list Byte.byte);
  chunk_count : nat;
  prev_text : string;
  stable_cycles : nat;
  cycles : nat
}.

(** What one pass through the body of the [while] loop does: it reaches
    the next test of the stop event, or an exception leaves the loop. *)
Inductive body_end :=
| Next (s : Locals)
| Raised (e : Py.exn).

Definition fresh_locals : Locals :=
  {| window := []; chunk_count := 0; prev_text := ""; stable_cycles := 0;
     cycles := 0 |}.

(** The value bound to [text] by the [try] block around the inference call:
    [result.get("text", "").strip()], or [""] when anything in it raises. *)
Definition cycle_text (o : infer_outcome) : string :=
  match o with
  | Transcribed r => Py.strip (default "" r)
  | InferRaises => ""
  end.

(** ** [gui/window_tracker.py] *)

Module WindowTracker.

Definition truthy_id (window_id : option string) : bool :=
  match window_id with
  | Some s => Py.truthy s
  | None => false
  end.

Section WithHost.
Variable h : Host.

(** The command that prints the title of the focused window. *)
Definition prints_title (args : list string) : bool :=
  match args with
  | [a; b; c] =>
      String.eqb b "getactivewindow" && String.eqb c "getwindowname"
      && String.eqb a "xdotool"
  | _ => false
  end.

(** [_run].  The [except] clause catches [TimeoutExpired],
    [FileNotFoundError] and [OSError] only; two other exceptions of
    [subprocess.run] leave [_run].  When an argument holds a NUL,
    [subprocess.run] raises [ValueError] ("embedded null byte") while it
    prepares the arguments, before any process is started.  And as the
    output is captured with [text=True], [subprocess.run] decodes it when
    the process has exited, whatever the return code, and raises
    [UnicodeDecodeError] when it is not valid in the encoding of the
    locale; the one command of this module whose output is not [xdotool]'s
    own is the one that prints the window title.  The call is recorded in
    both cases. *)
Definition _run (args : list string)
  : Py.outcome (option string) * list action :=
  (if existsb Py.has_nul args then Py.Raises "embedded null byte"
   else
     match subprocess_run h args None,
           (if prints_title args then title_error h else None) with
     | Exited _ _, Some exc => Py.Raises exc
     | Exited 0 out, None => Py.Returns (Some (Py.strip out))
     | Exited _ _, None => Py.Returns None
     | RunFails, _ => Py.Returns None
     end,
   [Subprocess args None]).

Definition get_active_window : Py.outcome (option string) * list action :=
  _run ["xdotool"; "getactivewindow"].

Definition get_window_name (window_id : option string)
  : Py.outcome (option string) * list action :=
  if negb (truthy_id window_id) then (Py.Returns None, [])
  else _run ["xdotool"; "getactivewindow"; "getwindowname"].

Definition get_window_pid (window_id : option string)
  : Py.outcome (option string) * list action :=
  match window_id with
  | Some w => if Py.truthy w then _run ["xdotool"; "getwindowpid"; w]
              else (Py.Returns None, [])
  | None => (Py.Returns None, [])
  end.

Definition focus_window (window_id : option string)
  : Py.outcome bool * list action :=
  match window_id with
  | Some w =>
      if Py.truthy w then
        let '(result, tr) := _run ["xdotool"; "windowactivate"; "--sync"; w] in
        (Py.and_then (fun r => bool_decide (r <> None)) result, tr)
      else (Py.Returns false, [])
  | None => (Py.Returns false, [])
  end.

(** [type_text(text)] with the defaults [window_id=None, delay_ms=12]. *)
Definition type_text (text : string) : Py.outcome bool * list action :=
  if negb (Py.truthy text) then (Py.Returns false, [])
  else
    let '(result, tr) :=
      _run ["xdotool"; "type"; "--clearmodifiers"; "--delay"; "12"; "--"; text] in
    (Py.and_then (fun r => bool_decide (r <> None)) result, tr).

(** One round of the [for cmd in ...] loop of [set_clipboard]: [None]
    when the loop goes on to the next tool.  The commands are constants
    and hold no NUL; the text goes to the standard input of the tool. *)
Definition try_clipboard_tool (cmd : list string) (text : string)
  : option bool * list action :=
  if which h (default "" (head cmd)) then
    match subprocess_run h cmd (Some text) with
    | Exited 0 _ => (Some true, [Subprocess cmd (Some text)])
    | Exited _ _ => (None, [Subprocess cmd (Some text)])
    | RunFails => (None, [Subprocess cmd (Some text)])
    end
  else (None, []).

Fixpoint set_clipboard_from (cmds : list (list string)) (text : string)
  : bool * list action :=
  match cmds with
  | [] => (false, [])
  | cmd :: rest =>
      match try_clipboard_tool cmd text with
      | (Some b, tr) => (b, tr)
      | (None, tr) =>
          let '(b, tr') := set_clipboard_from rest text in (b, tr ++ tr')
      end
  end.

Definition set_clipboard (text : string) : bool * list action :=
  set_clipboard_from
    [["xclip"; "-selection"; "clipboard"]; ["xsel"; "--clipboard"; "--input"]]
    text.

Record WindowSnapshot := {
  window_id : option string;
  window_name : option string;
  window_pid : option string
}.

(** [WindowSnapshot()]: an exception that leaves one of the three queries
    leaves [__init__], and no object is made. *)
Definition WindowSnapshot_init : Py.outcome WindowSnapshot * list action :=
  match get_active_window with
  | (Py.Raises exc, tr1) => (Py.Raises exc, tr1)
  | (Py.Returns wid, tr1) =>
      match get_window_name wid with
      | (Py.Raises exc, tr2) => (Py.Raises exc, tr1 ++ tr2)
      | (Py.Returns name, tr2) =>
          match get_window_pid wid with
          | (Py.Raises exc, tr3) => (Py.Raises exc, tr1 ++ tr2 ++ tr3)
          | (Py.Returns pid, tr3) =>
              (Py.Returns {| window_id := wid; window_name := name;
                             window_pid := pid |},
               tr1 ++ tr2 ++ tr3)
          end
      end
  end.

Definition valid (w : WindowSnapshot) : bool :=
  bool_decide (window_id w <> None).

Definition restore_and_type (w : WindowSnapshot) (text : string)
  : Py.outcome bool * list action :=
  if negb (valid w) || negb (Py.truthy text) then (Py.Returns false, [])
  else
    match focus_window (window_id w) with
    | (Py.Raises exc, tr) => (Py.Raises exc, tr)
    | (Py.Returns focused, tr) =>
        if negb focused then (Py.Returns false, tr)
        else let '(typed, tr') := type_text text in (typed, tr ++ tr')
    end.

End WithHost.

End WindowTracker.

(** ** [wisprtux/gui/transcription_engine.py] *)

Module Wisprtux.

(** The engine imports [WindowSnapshot], [set_clipboard], [type_text] and
    [focus_window] from the [window_tracker] module of its package; the
    [window_tracker.py] of the source tree is the one embedded above. *)
Import WindowTracker.

Definition MODEL_FILES : gmap string string :=
  {[ "tiny.en" := "tiny.en.pt";
     "base.en" := "base.en.pt";
     "small.en" := "small.en.pt";
     "medium.en" := "medium.en.pt";
     "large" := "large.pt" ]}.

Definition MODELS_DIR (h : Host) : string :=
  Py.join (Py.dirname (Py.dirname (module_file h))) "models".

Record Engine := {
  _model : option Model;
  _model_name : string;
  _offline : bool;
  _recording : bool;
  _auto_clipboard : bool;
  _auto_type : bool;
  _status_cb : option listener;
  _transcript_cb : option listener;
  _audio_queue : nat;               (* identity of the queue object *)
  _stop_event : bool;
  _worker_thread : option nat;      (* identity of the thread object *)
  _origin_window : option WindowSnapshot
}.

Definition __init__ : Engine :=
  {| _model := None; _model_name := "tiny.en"; _offline := false;
     _recording := false; _auto_clipboard := false; _auto_type := false;
     _status_cb := None; _transcript_cb := None; _audio_queue := 0;
     _stop_event := false; _worker_thread := None; _origin_window := None |}.

Definition with_model (m : option Model) (e : Engine) : Engine :=
  {| _model := m; _model_name := _model_name e; _offline := _offline e;
     _recording := _recording e; _auto_clipboard := _auto_clipboard e;
     _auto_type := _auto_type e; _status_cb := _status_cb e;
     _transcript_cb := _transcript_cb e; _audio_queue := _audio_queue e;
     _stop_event := _stop_event e; _worker_thread := _worker_thread e;
     _origin_window := _origin_window e |}.

Definition with_recording (b : bool) (e : Engine) : Engine :=
  {| _model := _model e; _model_name := _model_name e; _offline := _offline e;
     _recording := b; _auto_clipboard := _auto_clipboard e;
     _auto_type := _auto_type e; _status_cb := _status_cb e;
     _transcript_cb := _transcript_cb e; _audio_queue := _audio_queue e;
     _stop_event := _stop_event e; _worker_thread := _worker_thread e;
     _origin_window := _origin_window e |}.

Definition connect_status (cb : listener) (e : Engine) : Engine :=
  {| _model := _model e; _model_name := _model_name e; _offline := _offline e;
     _recording := _recording e; _auto_clipboard := _auto_clipboard e;
     _auto_type := _auto_type e; _status_cb := Some cb;
     _transcript_cb := _transcript_cb e; _audio_queue := _audio_queue e;
     _stop_event := _stop_event e; _worker_thread := _worker_thread e;
     _origin_window := _origin_window e |}.

Definition connect_transcript (cb : listener) (e : Engine) : Engine :=
  {| _model := _model e; _model_name := _model_name e; _offline := _offline e;
     _recording := _recording e; _auto_clipboard := _auto_clipboard e;
     _auto_type := _auto_type e; _status_cb := _status_cb e;
     _transcript_cb := Some cb; _audio_queue := _audio_queue e;
     _stop_event := _stop_event e; _worker_thread := _worker_thread e;
     _origin_window := _origin_window e |}.

Definition _emit_status (e : Engine) (text : string) : list action :=
  match _status_cb e with
  | Some cb => [StatusCb cb text]
  | None => []
  end.

Definition _emit_transcript (e : Engine) (result : TranscriptEvent)
  : list action :=
  match _transcript_cb e with
  | Some cb => [TranscriptCb cb result]
  | None => []
  end.

Definition set_model (model_name : string) (e : Engine) : Engine :=
  {| _model := None; _model_name := model_name; _offline := _offline e;
     _recording := _recording e; _auto_clipboard := _auto_clipboard e;
     _auto_type := _auto_type e; _status_cb := _status_cb e;
     _transcript_cb := _transcript_cb e; _audio_queue := _audio_queue e;
     _stop_event := _stop_event e; _worker_thread := _worker_thread e;
     _origin_window := _origin_window e |}.

Definition set_offline (offline : bool) (e : Engine) : Engine :=
  {| _model := _model e; _model_name := _model_name e; _offline := offline;
     _recording := _recording e; _auto_clipboard := _auto_clipboard e;
     _auto_type := _auto_type e; _status_cb := _status_cb e;
     _transcript_cb := _transcript_cb e; _audio_queue := _audio_queue e;
     _stop_event := _stop_event e; _worker_thread := _worker_thread e;
     _origin_window := _origin_window e |}.

Definition set_auto_clipboard (enabled : bool) (e : Engine) : Engine :=
  {| _model := _model e; _model_name := _model_name e; _offline := _offline e;
     _recording := _recording e; _auto_clipboard := enabled;
     _auto_type := _auto_type e; _status_cb := _status_cb e;
     _transcript_cb := _transcript_cb e; _audio_queue := _audio_queue e;
     _stop_event := _stop_event e; _worker_thread := _worker_thread e;
     _origin_window := _origin_window e |}.

Definition set_auto_type (enabled : bool) (e : Engine) : Engine :=
  {| _model := _model e; _model_name := _model_name e; _offline := _offline e;
     _recording := _recording e; _auto_clipboard := _auto_clipboard e;
     _auto_type := enabled; _status_cb := _status_cb e;
     _transcript_cb := _transcript_cb e; _audio_queue := _audio_queue e;
     _stop_event := _stop_event e; _worker_thread := _worker_thread e;
     _origin_window := _origin_window e |}.

(** [_load_model]: the engine afterwards, what it did, and what it
    returned. *)
Definition _load_model (h : Host) (e : Engine) : Engine * list action * bool :=
  let tr0 := _emit_status e "Loading model..." in
  let file_name := default "tiny.en.pt" (MODEL_FILES !! _model_name e) in
  let local_path := Py.join (MODELS_DIR h) file_name in
  match torch_cuda h with
  | inl exc => (e, tr0 ++ _emit_status e ("Model load failed: " +:+ exc), false)
  | inr cuda_available =>
      let device := if cuda_available then cuda else cpu in
      if path_exists h local_path then
        let w := LocalFile local_path in
        match whisper_load h w device with
        | Some exc =>
            (e, tr0 ++ [WhisperLoad w device]
                  ++ _emit_status e ("Model load failed: " +:+ exc), false)
        | None =>
            (with_model (Some {| model_weights := w; model_device := device |}) e,
             tr0 ++ [WhisperLoad w device] ++ _emit_status e "Model loaded", true)
        end
      else if negb (_offline e) then
        let model_size := Py.replace ".en" "" (_model_name e) in
        let w := ByName model_size (MODELS_DIR h) in
        match whisper_load h w device with
        | Some exc =>
            (e, tr0 ++ [WhisperLoad w device]
                  ++ _emit_status e ("Model load failed: " +:+ exc), false)
        | None =>
            (with_model (Some {| model_weights := w; model_device := device |}) e,
             tr0 ++ [WhisperLoad w device] ++ _emit_status e "Model loaded", true)
        end
      else (e, tr0 ++ _emit_status e "Model not available offline", false)
  end.

(** [start_recording]; [tid] and [qid] are the identities of the thread
    and queue objects it creates.  It returns the engine it leaves; when
    [WindowSnapshot()] raises, the exception leaves [start_recording]
    before any field is assigned. *)
Definition start_recording (h : Host) (tid qid : nat) (e : Engine)
  : Py.outcome Engine * list action :=
  if _recording e then (Py.Returns e, [])
  else
    match WindowSnapshot_init h with
    | (Py.Raises exc, tr) => (Py.Raises exc, tr)
    | (Py.Returns snapshot, tr) =>
        (Py.Returns
           {| _model := _model e; _model_name := _model_name e;
              _offline := _offline e; _recording := true;
              _auto_clipboard := _auto_clipboard e; _auto_type := _auto_type e;
              _status_cb := _status_cb e; _transcript_cb := _transcript_cb e;
              _audio_queue := qid; _stop_event := false;
              _worker_thread := Some tid; _origin_window := Some snapshot |},
         tr ++ [ThreadStart tid])
    end.

Definition stop_recording (e : Engine) : Engine * list action :=
  if negb (_recording e) then (e, [])
  else
    ({| _model := _model e; _model_name := _model_name e;
        _offline := _offline e; _recording := false;
        _auto_clipboard := _auto_clipboard e; _auto_type := _auto_type e;
        _status_cb := _status_cb e; _transcript_cb := _transcript_cb e;
        _audio_queue := _audio_queue e; _stop_event := true;
        _worker_thread := _worker_thread e;
        _origin_window := _origin_window e |},
     _emit_status e "Ready").

(** [_route_final_text]; the [log.info] calls have no effect here.  What
    [set_clipboard], [focus_window] and [type_text] return is not used; an
    exception that leaves [focus_window] or [type_text] leaves
    [_route_final_text]. *)
Definition _route_final_text (h : Host) (e : Engine) (text : string)
  : Py.outcome unit * list action :=
  if negb (Py.truthy text) then (Py.Returns tt, [])
  else
    let tr_clip := if _auto_clipboard e then snd (set_clipboard h text) else [] in
    match _origin_window e with
    | Some w =>
        if _auto_type e && valid w then
          match focus_window h (window_id w) with
          | (Py.Raises exc, tr_focus) => (Py.Raises exc, tr_clip ++ tr_focus)
          | (Py.Returns _, tr_focus) =>
              let '(typed, tr_type) := type_text h text in
              (Py.and_then (fun _ => tt) typed, tr_clip ++ tr_focus ++ tr_type)
          end
        else (Py.Returns tt, tr_clip)
    | None => (Py.Returns tt, tr_clip)
    end.

Definition transcribe_interval : Q := 1 # 2.

(** [int(16000 * transcribe_interval / 1024)] *)
Definition chunks_per_interval : Z :=
  Py.int (16000 * transcribe_interval / 1024)%Q.

(** Lines 257-275 without their calls: the locals after the block, when
    it is run to its end, and the event it hands to [_emit_transcript], if
    any. *)
Definition classify (s : Locals) (text : string)
  : Locals * option TranscriptEvent :=
  if Py.truthy text then
    let stable := if String.eqb text (prev_text s)
                  then stable_cycles s + 1 else 0 in
    let prev := if String.eqb text (prev_text s) then prev_text s else text in
    if 2 <=? stable then
      ({| window := []; chunk_count := chunk_count s; prev_text := "";
          stable_cycles := 0; cycles := cycles s |},
       Some (final_event text))
    else
      ({| window := window s; chunk_count := chunk_count s; prev_text := prev;
          stable_cycles := stable; cycles := cycles s |},
       Some (partial_event text))
  else (s, None).

(** One pass through the body of the [while] loop.  Two calls in it are
    outside every [try]: [np.frombuffer], and [_route_final_text]; an
    exception raised there leaves the loop, in the second case after the
    final event was emitted and before the window is reset. *)
Definition loop_body (h : Host) (e : Engine) (s : Locals) (r : read_result)
  : list action * body_end :=
  match r with
  | ReadRaises => ([], Next s)
  | ReadOk data =>
      let window1 := window s ++ [data] in
      let chunk_count1 := chunk_count s + 1 in
      if (chunks_per_interval <=? Z.of_nat chunk_count1)%Z
         && bool_decide (window1 <> [])
      then
        let tr1 := _emit_status e "Transcribing..." in
        match Py.frombuffer_int16 (concat window1) with
        | None => (tr1, Raised "buffer size must be a multiple of element size")
        | Some samples =>
            let arr := Py.normalize samples in
            let text := cycle_text (transcribe h (cycles s) arr) in
            let s1 := {| window := window1; chunk_count := 0;
                         prev_text := prev_text s;
                         stable_cycles := stable_cycles s;
                         cycles := cycles s + 1 |} in
            let '(s2, ev) := classify s1 text in
            match ev with
            | Some ev =>
                if is_partial ev then
                  (tr1 ++ [Transcribe arr] ++ _emit_transcript e ev
                       ++ _emit_status e "Recording...",
                   Next s2)
                else
                  match _route_final_text h e text with
                  | (Py.Returns _, tr_route) =>
                      (tr1 ++ [Transcribe arr] ++ _emit_transcript e ev
                           ++ tr_route ++ _emit_status e "Recording...",
                       Next s2)
                  | (Py.Raises exc, tr_route) =>
                      (tr1 ++ [Transcribe arr] ++ _emit_transcript e ev
                           ++ tr_route,
                       Raised exc)
                  end
            | None =>
                (tr1 ++ [Transcribe arr] ++ _emit_status e "Recording...",
                 Next s2)
            end
        end
      else
        ([], Next {| window := window1; chunk_count := chunk_count1;
                     prev_text := prev_text s;
                     stable_cycles := stable_cycles s; cycles := cycles s |})
  end.

(** The [while not self._stop_event.is_set()] loop: [reads] are the
    results of the frame reads made until the stop event is seen set. *)
Fixpoint run_loop (h : Host) (e : Engine) (s : Locals) (reads : list read_result)
  : list action * body_end :=
  match reads with
  | [] => ([], Next s)
  | r :: rest =>
      match loop_body h e s r with
      | (tr, Next s') =>
          let '(tr', fin) := run_loop h e s' rest in (tr ++ tr', fin)
      | (tr, Raised exc) => (tr, Raised exc)
      end
  end.

(** Lines 194-282 of [_worker_loop]: what follows the [if self._model is
    None] block when that block has not returned. *)
Definition capture (h : Host) (reads : list read_result) (e : Engine)
  : Engine * list action * thread_end :=
  let tr_rec := _emit_status e "Recording..." in
  if negb (pyaudio_import h) then
    (with_recording false e,
     tr_rec ++ _emit_status e "PyAudio not installed", Returned)
  else
    match audio_open h with
    | Some exc =>
        (with_recording false e,
         tr_rec ++ [PyAudioInit; AudioOpen]
           ++ _emit_status e ("Audio error: " +:+ exc) ++ [AudioTerminate],
         Returned)
    | None =>
        let '(tr_loop, fin) := run_loop h e fresh_locals reads in
        (e,
         tr_rec ++ [PyAudioInit; AudioOpen] ++ tr_loop
           ++ [StreamStop; StreamClose; AudioTerminate]
           ++ _emit_status e "Ready",
         match fin with
         | Next _ => Returned
         | Raised exc => Uncaught exc
         end)
    end.

Definition _worker_loop (h : Host) (reads : list read_result) (e : Engine)
  : Engine * list action * thread_end :=
  match _model e with
  | None =>
      let '(e1, tr_load, loaded) := _load_model h e in
      if negb loaded then (with_recording false e1, tr_load, Returned)
      else
        let '(e2, tr, fin) := capture h reads e1 in (e2, tr_load ++ tr, fin)
  | Some _ => capture h reads e
  end.

End Wisprtux.

(** ** [whisperflow/gui/transcription_engine.py] *)

Module Whisperflow.

Definition MODEL_FILES : gmap string string :=
  {[ "tiny.en" := "tiny.en.pt";
     "base.en" := "base.en.pt";
     "small.en" := "small.en.pt";
     "medium.en" := "medium.en.pt";
     "large" := "large.pt" ]}.

Definition MODELS_DIR (h : Host) : string :=
  Py.join (Py.dirname (Py.dirname (module_file h))) "models".

Record Engine := {
  _model : option Model;
  _model_name : string;
  _offline : bool;
  _recording : bool;
  _status_cb : option listener;
  _transcript_cb : option listener;
  _audio_queue : nat;
  _stop_event : bool;
  _worker_thread : option nat
}.

Definition __init__ : Engine :=
  {| _model := None; _model_name := "tiny.en"; _offline := false;
     _recording := false; _status_cb := None; _transcript_cb := None;
     _audio_queue := 0; _stop_event := false; _worker_thread := None |}.

Definition with_model (m : option Model) (e : Engine) : Engine :=
  {| _model := m; _model_name := _model_name e; _offline := _offline e;
     _recording := _recording e; _status_cb := _status_cb e;
     _transcript_cb := _transcript_cb e; _audio_queue := _audio_queue e;
     _stop_event := _stop_event e; _worker_thread := _worker_thread e |}.

Definition with_recording (b : bool) (e : Engine) : Engine :=
  {| _model := _model e; _model_name := _model_name e; _offline := _offline e;
     _recording := b; _status_cb := _status_cb e;
     _transcript_cb := _transcript_cb e; _audio_queue := _audio_queue e;
     _stop_event := _stop_event e; _worker_thread := _worker_thread e |}.

Definition _emit_status (e : Engine) (text : string) : list action :=
  match _status_cb e with
  | Some cb => [StatusCb cb text]
  | None => []
  end.

Definition _emit_transcript (e : Engine) (result : TranscriptEvent)
  : list action :=
  match _transcript_cb e with
  | Some cb => [TranscriptCb cb result]
  | None => []
  end.

Definition set_model (model_name : string) (e : Engine) : Engine :=
  {| _model := None; _model_name := model_name; _offline := _offline e;
     _recording := _recording e; _status_cb := _status_cb e;
     _transcript_cb := _transcript_cb e; _audio_queue := _audio_queue e;
     _stop_event := _stop_event e; _worker_thread := _worker_thread e |}.

Definition set_offline (offline : bool) (e : Engine) : Engine :=
  {| _model := _model e; _model_name := _model_name e; _offline := offline;
     _recording := _recording e; _status_cb := _status_cb e;
     _transcript_cb := _transcript_cb e; _audio_queue := _audio_queue e;
     _stop_event := _stop_event e; _worker_thread := _worker_thread e |}.

Definition _load_model (h : Host) (e : Engine) : Engine * list action * bool :=
  let tr0 := _emit_status e "Loading model..." in
  let file_name := default "tiny.en.pt" (MODEL_FILES !! _model_name e) in
  let local_path := Py.join (MODELS_DIR h) file_name in
  match torch_cuda h with
  | inl exc => (e, tr0 ++ _emit_status e ("Model load failed: " +:+ exc), false)
  | inr cuda_available =>
      let device := if cuda_available then cuda else cpu in
      if path_exists h local_path then
        let w := LocalFile local_path in
        match whisper_load h w device with
        | Some exc =>
            (e, tr0 ++ [WhisperLoad w device]
                  ++ _emit_status e ("Model load failed: " +:+ exc), false)
        | None =>
            (with_model (Some {| model_weights := w; model_device := device |}) e,
             tr0 ++ [WhisperLoad w device] ++ _emit_status e "Model loaded", true)
        end
      else if negb (_offline e) then
        let model_size := Py.replace ".en" "" (_model_name e) in
        let w := ByName model_size (MODELS_DIR h) in
        match whisper_load h w device with
        | Some exc =>
            (e, tr0 ++ [WhisperLoad w device]
                  ++ _emit_status e ("Model load failed: " +:+ exc), false)
        | None =>
            (with_model (Some {| model_weights := w; model_device := device |}) e,
             tr0 ++ [WhisperLoad w device] ++ _emit_status e "Model loaded", true)
        end
      else (e, tr0 ++ _emit_status e "Model not available offline", false)
  end.

Definition start_recording (tid qid : nat) (e : Engine) : Engine * list action :=
  if _recording e then (e, [])
  else
    ({| _model := _model e; _model_name := _model_name e;
        _offline := _offline e; _recording := true;
        _status_cb := _status_cb e; _transcript_cb := _transcript_cb e;
        _audio_queue := qid; _stop_event := false;
        _worker_thread := Some tid |},
     [ThreadStart tid]).

Definition stop_recording (e : Engine) : Engine * list action :=
  if negb (_recording e) then (e, [])
  else
    ({| _model := _model e; _model_name := _model_name e;
        _offline := _offline e; _recording := false;
        _status_cb := _status_cb e; _transcript_cb := _transcript_cb e;
        _audio_queue := _audio_queue e; _stop_event := true;
        _worker_thread := _worker_thread e |},
     _emit_status e "Ready").

Definition transcribe_interval : Q := 1 # 2.

Definition chunks_per_interval : Z :=
  Py.int (16000 * transcribe_interval / 1024)%Q.

(** Lines 193-211 without their calls. *)
Definition classify (s : Locals) (text : string)
  : Locals * option TranscriptEvent :=
  if Py.truthy text then
    let stable := if String.eqb text (prev_text s)
                  then stable_cycles s + 1 else 0 in
    let prev := if String.eqb text (prev_text s) then prev_text s else text in
    if 2 <=? stable then
      ({| window := []; chunk_count := chunk_count s; prev_text := "";
          stable_cycles := 0; cycles := cycles s |},
       Some (final_event text))
    else
      ({| window := window s; chunk_count := chunk_count s; prev_text := prev;
          stable_cycles := stable; cycles := cycles s |},
       Some (partial_event text))
  else (s, None).

Definition loop_body (h : Host) (e : Engine) (s : Locals) (r : read_result)
  : list action * body_end :=
  match r with
  | ReadRaises => ([], Next s)
  | ReadOk data =>
      let window1 := window s ++ [data] in
      let chunk_count1 := chunk_count s + 1 in
      if (chunks_per_interval <=? Z.of_nat chunk_count1)%Z
         && bool_decide (window1 <> [])
      then
        let tr1 := _emit_status e "Transcribing..." in
        match Py.frombuffer_int16 (concat window1) with
        | None => (tr1, Raised "buffer size must be a multiple of element size")
        | Some samples =>
            let arr := Py.normalize samples in
            let text := cycle_text (transcribe h (cycles s) arr) in
            let s1 := {| window := window1; chunk_count := 0;
                         prev_text := prev_text s;
                         stable_cycles := stable_cycles s;
                         cycles := cycles s + 1 |} in
            let '(s2, ev) := classify s1 text in
            (tr1 ++ [Transcribe arr]
                 ++ match ev with
                    | Some ev => _emit_transcript e ev
                    | None => []
                    end
                 ++ _emit_status e "Recording...",
             Next s2)
        end
      else
        ([], Next {| window := window1; chunk_count := chunk_count1;
                     prev_text := prev_text s;
                     stable_cycles := stable_cycles s; cycles := cycles s |})
  end.

Fixpoint run_loop (h : Host) (e : Engine) (s : Locals) (reads : list read_result)
  : list action * body_end :=
  match reads with
  | [] => ([], Next s)
  | r :: rest =>
      match loop_body h e s r with
      | (tr, Next s') =>
          let '(tr', fin) := run_loop h e s' rest in (tr ++ tr', fin)
      | (tr, Raised exc) => (tr, Raised exc)
      end
  end.

(** Lines 127-218 of [_worker_loop]: what follows the [if self._model is
    None] block when that block has not returned. *)
Definition capture (h : Host) (reads : list read_result) (e : Engine)
  : Engine * list action * thread_end :=
  let tr_rec := _emit_status e "Recording..." in
  if negb (pyaudio_import h) then
    (with_recording false e,
     tr_rec ++ _emit_status e "PyAudio not installed", Returned)
  else
    match audio_open h with
    | Some exc =>
        (with_recording false e,
         tr_rec ++ [PyAudioInit; AudioOpen]
           ++ _emit_status e ("Audio error: " +:+ exc) ++ [AudioTerminate],
         Returned)
    | None =>
        let '(tr_loop, fin) := run_loop h e fresh_locals reads in
        (e,
         tr_rec ++ [PyAudioInit; AudioOpen] ++ tr_loop
           ++ [StreamStop; StreamClose; AudioTerminate]
           ++ _emit_status e "Ready",
         match fin with
         | Next _ => Returned
         | Raised exc => Uncaught exc
         end)
    end.

Definition _worker_loop (h : Host) (reads : list read_result) (e : Engine)
  : Engine * list action * thread_end :=
  match _model e with
  | None =>
      let '(e1, tr_load, loaded) := _load_model h e in
      if negb loaded then (with_recording false e1, tr_load, Returned)
      else
        let '(e2, tr, fin) := capture h reads e1 in (e2, tr_load ++ tr, fin)
  | Some _ => capture h reads e
  end.

End Whisperflow.

(** ** Observations used in the statements *)

Definition is_final (o : option TranscriptEvent) : bool :=
  match o with
  | Some ev => negb (is_partial ev)
  | None => false
  end.

(** The classification step run over the texts of successive inference
    cycles: the locals at the end and what each cycle emitted. *)
Fixpoint run_cycles (s : Locals) (texts : list string)
  : Locals * list (option TranscriptEvent) :=
  match texts with
  | [] => (s, [])
  | t :: rest =>
      let '(s1, ev) := Wisprtux.classify s t in
      let '(s2, evs) := run_cycles s1 rest in
      (s2, ev :: evs)
  end.

(** The texts that were classified (so, the non-empty ones) since the last
    final event, oldest first; [acc] holds those seen before [texts]. *)
Fixpoint pending_from (s : Locals) (acc : list string) (texts : list string)
  : list string :=
  match texts with
  | [] => acc
  | t :: rest =>
      let '(s1, ev) := Wisprtux.classify s t in
      pending_from s1
        (match ev with
         | Some ev => if is_partial ev then acc ++ [t] else []
         | None => acc
         end)
        rest
  end.

Definition pending (texts : list string) : list string :=
  pending_from fresh_locals [] texts.

(** How [prev_text] and [stable_cycles] follow the pending texts: nothing
    pending, the last pending text seen once in a row, or seen twice. *)
Inductive tracks (s : Locals) : list string -> Prop :=
| tracks_none :
    prev_text s = "" -> stable_cycles s = 0 -> tracks s []
| tracks_once older :
    prev_text s <> "" -> stable_cycles s = 0 ->
    (forall o, older <> o ++ [prev_text s]) ->
    tracks s (older ++ [prev_text s])
| tracks_twice older :
    prev_text s <> "" -> stable_cycles s = 1 ->
    tracks s (older ++ [prev_text s; prev_text s]).

Definition scenario_c : list string := [""; "hi"; ""; "hi"; "hi"; "hi"].

Definition nonempty_texts (texts : list string) : list string :=
  filter (fun t => Is_true (Py.truthy t)) texts.

(** The arrays handed to the inference calls recorded in a trace. *)
Definition transcribed (tr : list action) : list (list Q) :=
  omap (fun a => match a with Transcribe arr => Some arr | _ => None end) tr.

(** A host on which nothing is cached and every subprocess fails to start,
    with CPU-only torch, a working microphone, and a model that hears "hi"
    in every cycle. *)
Definition bare_host : Host :=
  {| module_file := "/opt/wisprtux/gui/transcription_engine.py";
     path_exists := fun _ => false;
     torch_cuda := inr false;
     whisper_load := fun _ _ => None;
     pyaudio_import := true;
     audio_open := None;
     transcribe := fun _ _ => Transcribed (Some " hi");
     which := fun _ => false;
     subprocess_run := fun _ _ => RunFails;
     title_error := None |}.

(** An engine with both listeners connected. *)
Definition listening : Wisprtux.Engine :=
  Wisprtux.connect_transcript 2 (Wisprtux.connect_status 1 Wisprtux.__init__).

(** One frame holding the two samples 1 and -1. *)
Definition frame : list Byte.byte := [Byte.x01; Byte.x00; Byte.xff; Byte.xff].

(** Whether a command was run and exited with 0. *)
Definition exits_ok (o : cmd_outcome) : bool :=
  match o with
  | Exited 0 _ => true
  | Exited _ _ => false
  | RunFails => false
  end.

(** What [_run] returns for an outcome of the command. *)
Definition stdout_of (o : cmd_outcome) : option string :=
  match o with
  | Exited 0 out => Some (Py.strip out)
  | Exited _ _ => None
  | RunFails => None
  end.

(** The exception that leaves the query of the window title, if any: the
    title is decoded once [xdotool] has exited. *)
Definition title_fails (h : Host) : option Py.exn :=
  match subprocess_run h ["xdotool"; "getactivewindow"; "getwindowname"] None with
  | Exited _ _ => title_error h
  | RunFails => None
  end.

(** Whether a window id holds a NUL. *)
Definition nul_id (window_id : option string) : bool :=
  match window_id with
  | Some w => Py.has_nul w
  | None => false
  end.

(** Whether [_route_final_text] reaches the typing path on [text], and
    whether one of the two [xdotool] commands of that path then gets an
    argument with a NUL. *)
Definition types_text (e : Wisprtux.Engine) (text : string) : bool :=
  Py.truthy text
  && match Wisprtux._origin_window e with
     | Some w => Wisprtux._auto_type e && WindowTracker.valid w
     | None => false
     end.

Definition route_raises (e : Wisprtux.Engine) (text : string) : bool :=
  types_text e text
  && (match Wisprtux._origin_window e with
      | Some w => nul_id (WindowTracker.window_id w)
      | None => false
      end
      || Py.has_nul text).

(** Whether the cycle that hears [text] with the locals [s] is left by an
    exception of the routing. *)
Definition cycle_fails (e : Wisprtux.Engine) (s : Locals) (text : string) : bool :=
  is_final (snd (Wisprtux.classify s text)) && route_raises e text.

(** No text the model returns makes the routing raise. *)
Definition routes_quietly (h : Host) (e : Wisprtux.Engine) : Prop :=
  forall n arr,
    fst (Wisprtux._route_final_text h e (cycle_text (transcribe h n arr)))
    = Py.Returns tt.

(** The calls [_route_final_text] makes are all subprocess calls. *)
Definition is_routing (a : action) : bool :=
  match a with
  | Subprocess _ _ => true
  | _ => false
  end.

(** [n] successful reads of [frame]. *)
Definition frames (n : nat) : list read_result := replicate n (ReadOk frame).

(** The locals after a read that only accumulates, and the locals a cycle
    started by that read hands to the classification step. *)
Definition accumulated (s : Locals) (data : list Byte.byte) : Locals :=
  {| window := window s ++ [data]; chunk_count := chunk_count s + 1;
     prev_text := prev_text s; stable_cycles := stable_cycles s;
     cycles := cycles s |}.

Definition at_cycle (s : Locals) (data : list Byte.byte) : Locals :=
  {| window := window s ++ [data]; chunk_count := 0;
     prev_text := prev_text s; stable_cycles := stable_cycles s;
     cycles := cycles s + 1 |}.

(** The text of the cycle that transcribes [samples] from the locals [s]. *)
Definition heard (h : Host) (s : Locals) (samples : list Z) : string :=
  cycle_text (transcribe h (cycles s) (Py.normalize samples)).

(** The texts of the final events a trace delivers to the transcript
    listener. *)
Definition final_texts (tr : list action) : list string :=
  omap (fun a => match a with
                 | TranscriptCb _ ev =>
                     if is_partial ev then None else Some (data_text ev)
                 | _ => None
                 end) tr.

(** The locals the [while] loop of a session can hold at its test. *)
Inductive reachable (h : Host) (e : Wisprtux.Engine) : Locals -> Prop :=
| reach_fresh : reachable h e fresh_locals
| reach_body s r tr s' :
    reachable h e s ->
    Wisprtux.loop_body h e s r = (tr, Next s') ->
    reachable h e s'.

(** The path [_load_model] looks for the weights of a model name at. *)
Definition local_weights_path (h : Host) (model_name : string) : string :=
  Py.join (Wisprtux.MODELS_DIR h)
    (default "tiny.en.pt" (Wisprtux.MODEL_FILES !! model_name)).

Definition device_of (cuda_available : bool) : device :=
  if cuda_available then cuda else cpu.

(** The [whisper.load_model] calls recorded in a trace. *)
Definition whisper_loads (tr : list action) : list (weights * device) :=
  omap (fun a => match a with WhisperLoad w d => Some (w, d) | _ => None end) tr.

(** The loading policy in the words of the specification: a local weights
    file is loaded whatever the offline flag; else, online, the weights are
    fetched; else loading is refused. *)
Inductive load_branch := LoadLocal | FetchRemote | UnavailableOffline.

Definition policy (local_exists offline : bool) : load_branch :=
  if local_exists then LoadLocal
  else if negb offline then FetchRemote
  else UnavailableOffline.

Definition known_models : list string :=
  ["tiny.en"; "base.en"; "small.en"; "medium.en"; "large"].

(** A host as [bare_host], with the tiny.en weights cached. *)
Definition tiny_cached_host : Host :=
  {| module_file := "/opt/wisprtux/gui/transcription_engine.py";
     path_exists := fun p => String.eqb p "/opt/wisprtux/models/tiny.en.pt";
     torch_cuda := inr false;
     whisper_load := fun _ _ => None;
     pyaudio_import := true;
     audio_open := None;
     transcribe := fun _ _ => Transcribed (Some " hi");
     which := fun _ => false;
     subprocess_run := fun _ _ => RunFails;
     title_error := None |}.

(** A host as [bare_host] whose model raises in every inference call. *)
Definition deaf_host : Host :=
  {| module_file := "/opt/wisprtux/gui/transcription_engine.py";
     path_exists := fun _ => false;
     torch_cuda := inr false;
     whisper_load := fun _ _ => None;
     pyaudio_import := true;
     audio_open := None;
     transcribe := fun _ _ => InferRaises;
     which := fun _ => false;
     subprocess_run := fun _ _ => RunFails;
     title_error := None |}.

(** The locals after six frames of a fresh session. *)
Definition six_frames_in : Locals :=
  {| window := replicate 6 frame; chunk_count := 6; prev_text := "";
     stable_cycles := 0; cycles := 0 |}.

(** A host on which the window "123" is gone ([xdotool windowactivate]
    exits with 1), typing works, and only [xsel] is installed and works. *)
Definition closed_window_host : Host :=
  {| module_file := "/opt/wisprtux/gui/transcription_engine.py";
     path_exists := fun _ => false;
     torch_cuda := inr false;
     whisper_load := fun _ _ => None;
     pyaudio_import := true;
     audio_open := None;
     transcribe := fun _ _ => Transcribed (Some " hi");
     which := fun tool => String.eqb tool "xsel";
     subprocess_run := fun argv _ =>
       match argv with
       | "xdotool" :: "windowactivate" :: _ => Exited 1 ""
       | _ => Exited 0 ""
       end;
     title_error := None |}.

Definition editor_window : WindowTracker.WindowSnapshot :=
  {| WindowTracker.window_id := Some "123";
     WindowTracker.window_name := Some "editor";
     WindowTracker.window_pid := Some "42" |}.

(** The engine [e] with the thread [tid], the queue [qid], a clear stop
    event and a snapshot without a window, as [start_recording] leaves
    these fields where no window could be found. *)
Definition started (tid qid : nat) (e : Wisprtux.Engine) : Wisprtux.Engine :=
  {| Wisprtux._model := Wisprtux._model e;
     Wisprtux._model_name := Wisprtux._model_name e;
     Wisprtux._offline := Wisprtux._offline e;
     Wisprtux._recording := Wisprtux._recording e;
     Wisprtux._auto_clipboard := Wisprtux._auto_clipboard e;
     Wisprtux._auto_type := Wisprtux._auto_type e;
     Wisprtux._status_cb := Wisprtux._status_cb e;
     Wisprtux._transcript_cb := Wisprtux._transcript_cb e;
     Wisprtux._audio_queue := qid; Wisprtux._stop_event := false;
     Wisprtux._worker_thread := Some tid;
     Wisprtux._origin_window :=
       Some {| WindowTracker.window_id := None;
               WindowTracker.window_name := None;
               WindowTracker.window_pid := None |} |}.

(** A recording engine that captured [editor_window], with the given
    routing flags. *)
Definition routing_engine (auto_clipboard auto_type : bool) : Wisprtux.Engine :=
  {| Wisprtux._model := None; Wisprtux._model_name := "tiny.en";
     Wisprtux._offline := false; Wisprtux._recording := true;
     Wisprtux._auto_clipboard := auto_clipboard;
     Wisprtux._auto_type := auto_type;
     Wisprtux._status_cb := Some 1; Wisprtux._transcript_cb := Some 2;
     Wisprtux._audio_queue := 1; Wisprtux._stop_event := false;
     Wisprtux._worker_thread := Some 7;
     Wisprtux._origin_window := Some editor_window |}.

Definition focus_call (w : string) : action :=
  Subprocess ["xdotool"; "windowactivate"; "--sync"; w] None.

Definition type_call (text : string) : action :=
  Subprocess ["xdotool"; "type"; "--clearmodifiers"; "--delay"; "12"; "--"; text]
    None.

Definition clipboard_tools : list (list string) :=
  [["xclip"; "-selection"; "clipboard"]; ["xsel"; "--clipboard"; "--input"]].

(** A call of the typing path: an [xdotool] command. *)
Definition is_typing (a : action) : bool :=
  match a with
  | Subprocess ("xdotool" :: _) _ => true
  | _ => false
  end.

(** A call of the clipboard path: a clipboard tool fed the text. *)
Definition is_clipboard (text : string) (a : action) : Prop :=
  exists cmd, cmd ∈ clipboard_tools /\ a = Subprocess cmd (Some text).

(** The text "hi" followed by a NUL. *)
Definition hi_nul : string :=
  String "h" (String "i" (String Ascii.zero EmptyString)).

(** A host as [bare_host] on which every command exits with 0 and the
    model hears [hi_nul] in every cycle. *)
Definition nul_host : Host :=
  {| module_file := "/opt/wisprtux/gui/transcription_engine.py";
     path_exists := fun _ => false;
     torch_cuda := inr false;
     whisper_load := fun _ _ => None;
     pyaudio_import := true;
     audio_open := None;
     transcribe := fun _ _ => Transcribed (Some hi_nul);
     which := fun _ => false;
     subprocess_run := fun _ _ => Exited 0 "";
     title_error := None |}.

(** The [whisperflow] engine with the fields both versions have. *)
Definition forget (e : Wisprtux.Engine) : Whisperflow.Engine :=
  {| Whisperflow._model := Wisprtux._model e;
     Whisperflow._model_name := Wisprtux._model_name e;
     Whisperflow._offline := Wisprtux._offline e;
     Whisperflow._recording := Wisprtux._recording e;
     Whisperflow._status_cb := Wisprtux._status_cb e;
     Whisperflow._transcript_cb := Wisprtux._transcript_cb e;
     Whisperflow._audio_queue := Wisprtux._audio_queue e;
     Whisperflow._stop_event := Wisprtux._stop_event e;
     Whisperflow._worker_thread := Wisprtux._worker_thread e |}.

(** The events a trace delivers to the transcript listener. *)
Definition transcript_events (tr : list action) : list TranscriptEvent :=
  omap (fun a => match a with TranscriptCb _ ev => Some ev | _ => None end) tr.

(** A trace without, and reduced to, its routing calls. *)
Definition without_routing (tr : list action) : list action :=
  filter (fun a => is_routing a = false) tr.

Definition routing_only (tr : list action) : list action :=
  filter (fun a => is_routing a = true) tr.

(** The locals with which the loop of a session stands after [reads]
    ([fresh_locals] if an exception has ended it before). *)
Definition locals_after (h : Host) (e : Wisprtux.Engine) (reads : list read_result)
  : Locals :=
  match snd (Wisprtux.run_loop h e fresh_locals reads) with
  | Next s => s
  | Raised _ => fresh_locals
  end.

(** ** Observations of a whole worker *)

Definition is_audio (a : action) : bool :=
  match a with
  | PyAudioInit | AudioOpen | StreamStop | StreamClose | AudioTerminate => true
  | _ => false
  end.

(** The PyAudio calls of a trace, in order. *)
Definition audio_actions (tr : list action) : list action :=
  filter (fun a => is_audio a = true) tr.

(** The actions the body of the [while] loop can record. *)
Definition is_loop_action (a : action) : bool :=
  match a with
  | StatusCb _ _ | TranscriptCb _ _ | Transcribe _ | Subprocess _ _ => true
  | _ => false
  end.

(** Whether a worker started on [e] has a model once the
    [if self._model is None] block is over. *)
Definition has_model (h : Host) (e : Wisprtux.Engine) : bool :=
  match Wisprtux._model e with
  | Some _ => true
  | None => snd (Wisprtux._load_model h e)
  end.

(** Whether it goes on to open the input stream, and whether it enters the
    [while] loop. *)
Definition opens_audio (h : Host) (e : Wisprtux.Engine) : bool :=
  has_model h e && pyaudio_import h.

Definition enters_loop (h : Host) (e : Wisprtux.Engine) : bool :=
  opens_audio h e && bool_decide (audio_open h = None).

(** A host as [bare_host] whose microphone delivers a frame of three
    bytes. *)
Definition odd_frame : list Byte.byte := [Byte.x01; Byte.x00; Byte.xff].

(** The frames of the reads that did not raise, in order. *)
Definition ok_data (reads : list read_result) : list (list Byte.byte) :=
  omap (fun r => match r with ReadOk data => Some data | ReadRaises => None end)
    reads.

(** A frame of whole 16-bit samples. *)
Definition whole_samples (data : list Byte.byte) : Prop :=
  Nat.even (length data) = true.

(** A normalized sample lies in the range Whisper expects. *)
Definition in_unit_range (q : Q) : Prop := (-1 <= q)%Q /\ (q < 1)%Q.

(** Every final event comes right after two partial events with its text. *)
Definition announced (evs : list TranscriptEvent) : Prop :=
  forall pre t post,
    evs = pre ++ final_event t :: post ->
    t <> "" /\ exists pre', pre = pre' ++ [partial_event t; partial_event t].

(** How the locals follow the events delivered so far. *)
Definition follows (s : Locals) (evs : list TranscriptEvent) : Prop :=
  (prev_text s = "" /\ stable_cycles s = 0)
  \/ (prev_text s <> "" /\ stable_cycles s = 0
      /\ exists p, evs = p ++ [partial_event (prev_text s)])
  \/ (prev_text s <> "" /\ stable_cycles s = 1
      /\ exists p, evs = p ++ [partial_event (prev_text s);
                               partial_event (prev_text s)]).

(** ** Observations of [window_tracker] *)

(** Whether a clipboard tool is installed and exits with 0 when fed
    [text]. *)
Definition tool_works (h : Host) (cmd : list string) (text : string) : bool :=
  which h (default "" (head cmd))
  && match subprocess_run h cmd (Some text) with
     | Exited 0 _ => true
     | Exited _ _ => false
     | RunFails => false
     end.

Definition xclip : list string := ["xclip"; "-selection"; "clipboard"].
Definition xsel : list string := ["xsel"; "--clipboard"; "--input"].

(** A host on which the focused window is "77" and every [xdotool] call
    works, printing its answer with a newline. *)
Definition desktop_host : Host :=
  {| module_file := "/opt/wisprtux/gui/transcription_engine.py";
     path_exists := fun _ => false;
     torch_cuda := inr false;
     whisper_load := fun _ _ => None;
     pyaudio_import := true;
     audio_open := None;
     transcribe := fun _ _ => Transcribed (Some " hi");
     which := fun tool => String.eqb tool "xclip";
     subprocess_run := fun argv _ =>
       match argv with
       | ["xdotool"; "getactivewindow"] => Exited 0 "77
"
       | ["xdotool"; "getactivewindow"; "getwindowname"] => Exited 0 "editor
"
       | ["xdotool"; "getwindowpid"; _] => Exited 0 "4242
"
       | "xclip" :: _ => Exited 1 ""
       | _ => Exited 0 ""
       end;
     title_error := None |}.

(** A host as [desktop_host] on which the title of the focused window is
    in Latin-1, under a UTF-8 locale. *)
Definition latin_title : Py.exn :=
  "'utf-8' codec can't decode byte 0xe9 in position 1: invalid continuation byte".

Definition latin_title_host : Host :=
  {| module_file := module_file desktop_host;
     path_exists := path_exists desktop_host;
     torch_cuda := torch_cuda desktop_host;
     whisper_load := whisper_load desktop_host;
     pyaudio_import := pyaudio_import desktop_host;
     audio_open := audio_open desktop_host;
     transcribe := transcribe desktop_host;
     which := which desktop_host;
     subprocess_run := subprocess_run desktop_host;
     title_error := Some latin_title |}.

(** ** [wisprtux/gui/global_hotkey.py] *)

Module GlobalHotkey.

(** A [pynput] key: a member of the enum [keyboard.Key], named by its
    attribute, or a [keyboard.KeyCode] with its [char]. *)
Inductive pynput_key :=
| Key (attr : string)
| KeyCode (char : option string).

(** What the module finds at import time: whether [pynput] is there, and
    which attributes [keyboard.Key] has on this platform. *)
Record Keyboard := {
  PYNPUT_AVAILABLE : bool;
  key_has : string -> bool
}.

(** [c.lower()] for a code point below 256. *)
Definition lower_char (c : ascii) : ascii :=
  let n := nat_of_ascii c in
  if ((65 <=? n) && (n <=? 90))
     || ((192 <=? n) && (n <=? 222) && negb (n =? 215))
  then ascii_of_nat (n + 32) else c.

Fixpoint lower (s : string) : string :=
  match s with
  | EmptyString => EmptyString
  | String c r => String (lower_char c) (lower r)
  end.

Definition special_keys : list (string * string) :=
  [("F1", "f1"); ("F2", "f2"); ("F3", "f3"); ("F4", "f4"); ("F5", "f5");
   ("F6", "f6"); ("F7", "f7"); ("F8", "f8"); ("F9", "f9"); ("F10", "f10");
   ("F11", "f11"); ("F12", "f12"); ("Escape", "esc"); ("Return", "enter");
   ("space", "space"); ("Tab", "tab"); ("BackSpace", "backspace");
   ("Delete", "delete"); ("Home", "home"); ("End", "end");
   ("Page_Up", "page_up"); ("Page_Down", "page_down"); ("Insert", "insert");
   ("Pause", "pause"); ("Scroll_Lock", "scroll_lock");
   ("Print", "print_screen"); ("Caps_Lock", "caps_lock");
   ("Num_Lock", "num_lock")].

Definition _SPECIAL_KEYS : gmap string string := list_to_map special_keys.

Definition _gdk_name_to_pynput (kb : Keyboard) (key_name : string)
  : option pynput_key :=
  if negb (PYNPUT_AVAILABLE kb) then None
  else
    match _SPECIAL_KEYS !! key_name with
    | Some attr => if key_has kb attr then Some (Key attr) else None
    | None =>
        if String.length key_name =? 1
        then Some (KeyCode (Some (lower key_name)))
        else None
    end.

(** A [GlobalHotkey] object; a listener and a callback are known by their
    identity. *)
Record Hotkey := {
  _listener : option nat;
  _target_key : option pynput_key;
  _callback : option nat
}.

Definition __init__ : Hotkey :=
  {| _listener := None; _target_key := None; _callback := None |}.

Inductive hk_action :=
| ListenerStart (lid : nat)
| ListenerStop (lid : nat)
| Callback (cb : nat).

(** [start]; [lid] is the identity of the listener it may create. *)
Definition start (kb : Keyboard) (lid : nat) (g : Hotkey) : Hotkey * list hk_action :=
  if negb (PYNPUT_AVAILABLE kb) then (g, [])
  else
    match _listener g with
    | Some _ => (g, [])
    | None =>
        ({| _listener := Some lid; _target_key := _target_key g;
            _callback := _callback g |},
         [ListenerStart lid])
    end.

Definition stop (g : Hotkey) : Hotkey * list hk_action :=
  match _listener g with
  | Some l =>
      ({| _listener := None; _target_key := _target_key g;
          _callback := _callback g |},
       [ListenerStop l])
  | None => (g, [])
  end.

Definition set_hotkey (kb : Keyboard) (gdk_key_name : string)
    (callback : option nat) (lid : nat) (g : Hotkey) : Hotkey * list hk_action :=
  let g1 := {| _listener := _listener g;
               _target_key := _gdk_name_to_pynput kb gdk_key_name;
               _callback := callback |} in
  let '(g2, tr1) := stop g1 in
  let '(g3, tr2) := start kb lid g2 in
  (g3, tr1 ++ tr2).

(** The comparison of [_on_press]; the pressed key is [None] when
    [pynput] does not know it. *)
Definition key_matches (target : pynput_key) (key : option pynput_key) : bool :=
  match target with
  | Key a =>
      match key with
      | Some (Key b) => String.eqb a b
      | _ => false
      end
  | KeyCode target_char =>
      match key with
      | Some (KeyCode (Some c)) =>
          if Py.truthy c then bool_decide (Some c = target_char) else false
      | _ => false
      end
  end.

(** [_on_press]: an exception of the callback is logged and goes no
    further, so the call is all that is recorded. *)
Definition _on_press (g : Hotkey) (key : option pynput_key) : list hk_action :=
  match _target_key g, _callback g with
  | Some target, Some callback =>
      if key_matches target key then [Callback callback] else []
  | _, _ => []
  end.

(** The calls on a [GlobalHotkey] object. *)
Inductive hk_op :=
| OpStart (lid : nat)
| OpStop
| OpSetHotkey (gdk_key_name : string) (callback : option nat) (lid : nat).

Definition run_op (kb : Keyboard) (g : Hotkey) (op : hk_op)
  : Hotkey * list hk_action :=
  match op with
  | OpStart lid => start kb lid g
  | OpStop => stop g
  | OpSetHotkey name cb lid => set_hotkey kb name cb lid g
  end.

Fixpoint run_ops (kb : Keyboard) (g : Hotkey) (ops : list hk_op)
  : Hotkey * list hk_action :=
  match ops with
  | [] => (g, [])
  | op :: rest =>
      let '(g1, tr1) := run_op kb g op in
      let '(g2, tr2) := run_ops kb g1 rest in
      (g2, tr1 ++ tr2)
  end.

(** The listener that is running after a trace, given the one running
    before; [None] when the trace starts a listener while another runs or
    stops one that does not run. *)
Fixpoint running_after (cur : option nat) (tr : list hk_action)
  : option (option nat) :=
  match tr with
  | [] => Some cur
  | ListenerStart l :: rest =>
      match cur with
      | None => running_after (Some l) rest
      | Some _ => None
      end
  | ListenerStop l :: rest =>
      match cur with
      | Some l' => if l =? l' then running_after None rest else None
      | None => None
      end
  | Callback _ :: rest => running_after cur rest
  end.

End GlobalHotkey.

(** A Linux keyboard: [pynput] with every key of the table. *)
Definition xorg_keyboard : GlobalHotkey.Keyboard :=
  {| GlobalHotkey.PYNPUT_AVAILABLE := true;
     GlobalHotkey.key_has := fun _ => true |}.

(** ** [whisperflow/gui/recording.py]

    The recording view as far as its state decides what it does: the
    recording flag, the placeholder, the status indicator and the record
    button.  The text of the transcript with its marks and tags
    ([append_transcript], [_on_clear_clicked]) is left to GTK. *)

Module RecordingView.

(** [needle in hay] for two [str]. *)
Fixpoint contains (needle hay : string) : bool :=
  Py.startswith needle hay
  || match hay with
     | EmptyString => false
     | String _ rest => contains needle rest
     end.

Record Button := {
  icon_name : string;
  button_classes : gset string;
  tooltip_text : string
}.

Record View := {
  _is_recording : bool;
  _has_placeholder : bool;
  text_buffer : string;
  status_label : string;
  status_classes : gset string;      (* the CSS classes of [status_icon] *)
  record_button : Button
}.

Definition placeholder_text : string :=
  "Press the record button or your hotkey to begin transcription...".

(** The view [__init__] and [_build_ui] leave. *)
Definition __init__ : View :=
  {| _is_recording := false;
     _has_placeholder := true;
     text_buffer := placeholder_text;
     status_label := "Ready";
     status_classes := {[ "status-icon"; "status-idle" ]};
     record_button :=
       {| icon_name := "media-record-symbolic";
          button_classes := {[ "record-button"; "circular"; "suggested-action" ]};
          tooltip_text := "Start recording" |} |}.

Definition _update_record_button (is_recording : bool) (b : Button) : Button :=
  if is_recording then
    {| icon_name := "media-playback-stop-symbolic";
       button_classes :=
         (button_classes b ∖ {[ "suggested-action" ]}) ∪ {[ "destructive-action" ]};
       tooltip_text := "Stop recording" |}
  else
    {| icon_name := "media-record-symbolic";
       button_classes :=
         (button_classes b ∖ {[ "destructive-action" ]}) ∪ {[ "suggested-action" ]};
       tooltip_text := "Start recording" |}.

Definition _start_recording (tid qid : nat) (v : View) (e : Whisperflow.Engine)
  : View * Whisperflow.Engine * list action :=
  let '(e', tr) := Whisperflow.start_recording tid qid e in
  ({| _is_recording := true;
      _has_placeholder := false;
      text_buffer := if _has_placeholder v then "" else text_buffer v;
      status_label := status_label v;
      status_classes := status_classes v;
      record_button := _update_record_button true (record_button v) |},
   e', tr).

Definition _stop_recording (v : View) (e : Whisperflow.Engine)
  : View * Whisperflow.Engine * list action :=
  let '(e', tr) := Whisperflow.stop_recording e in
  ({| _is_recording := false;
      _has_placeholder := _has_placeholder v;
      text_buffer := text_buffer v;
      status_label := status_label v;
      status_classes := status_classes v;
      record_button := _update_record_button false (record_button v) |},
   e', tr).

(** [_on_record_clicked], which is also [toggle_recording]. *)
Definition toggle_recording (tid qid : nat) (v : View) (e : Whisperflow.Engine)
  : View * Whisperflow.Engine * list action :=
  if _is_recording v then _stop_recording v e else _start_recording tid qid v e.

Definition status_class (status : string) : string :=
  if contains "recording" (GlobalHotkey.lower status) then "status-recording"
  else if contains "processing" (GlobalHotkey.lower status)
          || contains "transcribing" (GlobalHotkey.lower status)
       then "status-processing"
       else "status-idle".

Definition set_status (status : string) (v : View) : View :=
  {| _is_recording := _is_recording v;
     _has_placeholder := _has_placeholder v;
     text_buffer := text_buffer v;
     status_label := status;
     status_classes :=
       (status_classes v ∖ {[ "status-idle" ]} ∖ {[ "status-recording" ]}
          ∖ {[ "status-processing" ]})
       ∪ {[ status_class status ]};
     record_button := record_button v |}.

(** The window hands every status of the engine to [set_status], in
    order ([_on_status_changed]). *)
Definition show_statuses (tr : list action) (v : View) : View :=
  foldl (fun v a => match a with
                    | StatusCb _ text => set_status text v
                    | _ => v
                    end) v tr.

End RecordingView.

Definition status_kinds : gset string :=
  {[ "status-idle"; "status-recording"; "status-processing" ]}.

(** ** [wisprtux/gui/settings.py]

    The settings as a dict, their file, and the handlers that change
    them; the widgets are left to GTK. *)

Module Settings.

(** A JSON value. *)
#[local] Unset Elimination Schemes.
Inductive jvalue :=
| JNull
| JBool (b : bool)
| JNum (n : Z)
| JStr (s : string)
| JArr (items : list jvalue)
| JObj (fields : list (string * jvalue)).
#[local] Set Elimination Schemes.

(** What opening and decoding [CONFIG_FILE] gives: [FileNotFoundError],
    [json.JSONDecodeError], or a JSON object.  A file holding another JSON
    document, and other I/O errors, are outside this model. *)
Inductive config_file :=
| Missing
| Undecodable
| Holds (saved : gmap string jvalue).

Definition default_items : list (string * jvalue) :=
  [("hotkey", JStr "F9"); ("model", JStr "tiny.en"); ("offline_mode", JBool false);
   ("theme", JStr "system"); ("auto_clipboard", JBool false);
   ("auto_type", JBool false)].

Definition DEFAULT_SETTINGS : gmap string jvalue := list_to_map default_items.

Definition THEME_OPTIONS : list (string * string) :=
  [("system", "System Default"); ("light", "Light"); ("dark", "Dark")].

Inductive color_scheme := DEFAULT | FORCE_LIGHT | FORCE_DARK.

Definition _SCHEME_MAP : gmap string color_scheme :=
  list_to_map [("system", DEFAULT); ("light", FORCE_LIGHT); ("dark", FORCE_DARK)].

(** [merged = dict(DEFAULT_SETTINGS); merged.update(saved)] *)
Definition _load_settings (f : config_file) : gmap string jvalue :=
  match f with
  | Holds saved => saved ∪ DEFAULT_SETTINGS
  | Missing => DEFAULT_SETTINGS
  | Undecodable => DEFAULT_SETTINGS
  end.

Inductive settings_action :=
| SaveFile (content : gmap string jvalue)
| SetColorScheme (scheme : color_scheme).

(** [apply_theme] on a [str]. *)
Definition apply_theme (theme_id : string) : list settings_action :=
  [SetColorScheme (default DEFAULT (_SCHEME_MAP !! theme_id))].

(** The panel: the dict, the label of the hotkey row, the file and the
    engine it configures. *)
Record Panel := {
  settings : gmap string jvalue;
  hotkey_label : string;
  disk : config_file;
  engine : Wisprtux.Engine
}.

(** [self.settings[key] = value; self._save_settings()] *)
Definition store (key : string) (value : jvalue) (p : Panel) : Panel :=
  {| settings := <[key := value]> (settings p);
     hotkey_label := hotkey_label p;
     disk := Holds (<[key := value]> (settings p));
     engine := engine p |}.

Definition with_engine (e : Wisprtux.Engine) (p : Panel) : Panel :=
  {| settings := settings p; hotkey_label := hotkey_label p; disk := disk p;
     engine := e |}.

Definition _on_theme_changed (idx : nat) (p : Panel) : Panel * list settings_action :=
  match THEME_OPTIONS !! idx with
  | Some (theme_id, _) =>
      let p' := store "theme" (JStr theme_id) p in
      (p', SaveFile (settings p') :: apply_theme theme_id)
  | None => (p, [])
  end.

(** [_on_hotkey_apply]; [engine.set_hotkey] is a placeholder. *)
Definition _on_hotkey_apply (key_name : string) (p : Panel)
  : Panel * list settings_action :=
  let p' := store "hotkey" (JStr key_name) p in
  ({| settings := settings p'; hotkey_label := key_name; disk := disk p';
      engine := engine p' |},
   [SaveFile (settings p')]).

Definition _on_clipboard_toggled (active : bool) (p : Panel)
  : Panel * list settings_action :=
  let p' := store "auto_clipboard" (JBool active) p in
  (with_engine (Wisprtux.set_auto_clipboard active (engine p)) p',
   [SaveFile (settings p')]).

Definition _on_auto_type_toggled (active : bool) (p : Panel)
  : Panel * list settings_action :=
  let p' := store "auto_type" (JBool active) p in
  (with_engine (Wisprtux.set_auto_type active (engine p)) p',
   [SaveFile (settings p')]).

Definition _on_model_toggled (active : bool) (model_id : string) (p : Panel)
  : Panel * list settings_action :=
  if active then
    let p' := store "model" (JStr model_id) p in
    (with_engine (Wisprtux.set_model model_id (engine p)) p',
     [SaveFile (settings p')])
  else (p, []).

Definition _on_offline_toggled (active : bool) (p : Panel)
  : Panel * list settings_action :=
  let p' := store "offline_mode" (JBool active) p in
  (with_engine (Wisprtux.set_offline active (engine p)) p',
   [SaveFile (settings p')]).

(** What the user does to the panel. *)
Inductive event :=
| ThemeChanged (idx : nat)
| HotkeyApplied (key_name : string)
| ClipboardToggled (active : bool)
| AutoTypeToggled (active : bool)
| ModelToggled (active : bool) (model_id : string)
| OfflineToggled (active : bool).

Definition handle (p : Panel) (ev : event) : Panel * list settings_action :=
  match ev with
  | ThemeChanged idx => _on_theme_changed idx p
  | HotkeyApplied key_name => _on_hotkey_apply key_name p
  | ClipboardToggled active => _on_clipboard_toggled active p
  | AutoTypeToggled active => _on_auto_type_toggled active p
  | ModelToggled active model_id => _on_model_toggled active model_id p
  | OfflineToggled active => _on_offline_toggled active p
  end.

Fixpoint handle_all (p : Panel) (evs : list event) : Panel * list settings_action :=
  match evs with
  | [] => (p, [])
  | ev :: rest =>
      let '(p1, tr1) := handle p ev in
      let '(p2, tr2) := handle_all p1 rest in
      (p2, tr1 ++ tr2)
  end.

(** The dict, the file and the engine say the same. *)
Definition synced (p : Panel) : Prop :=
  _load_settings (disk p) = settings p
  /\ settings p !! "model" = Some (JStr (Wisprtux._model_name (engine p)))
  /\ settings p !! "offline_mode" = Some (JBool (Wisprtux._offline (engine p)))
  /\ settings p !! "auto_clipboard"
     = Some (JBool (Wisprtux._auto_clipboard (engine p)))
  /\ settings p !! "auto_type" = Some (JBool (Wisprtux._auto_type (engine p))).

(** The panel of a first start: no file, a new engine. *)
Definition first_start : Panel :=
  {| settings := _load_settings Missing; hotkey_label := "F9"; disk := Missing;
     engine := Wisprtux.__init__ |}.

End Settings.

(** * Properties *)

(** ** The primitives on examples *)

Example strip_ex : Py.strip "  hello world
 " = "hello world".
Proof. reflexivity. Qed.

Example replace_ex :
  Py.replace ".en" "" "tiny.en" = "tiny" /\ Py.replace ".en" "" "large" = "large"
  /\ Py.replace "aa" "b" "aaa" = "ba".
Proof. repeat split. Qed.

Example dirname_ex :
  Py.dirname (Py.dirname "/opt/wisprtux/gui/transcription_engine.py") = "/opt/wisprtux"
  /\ Py.dirname "/x" = "/" /\ Py.dirname "x" = "" /\ Py.dirname "a//b" = "a".
Proof. repeat split. Qed.

Example join_ex :
  Py.join "/opt/wisprtux" "models" = "/opt/wisprtux/models"
  /\ Py.join "" "models" = "models" /\ Py.join "/opt/" "m" = "/opt/m"
  /\ Py.join "/opt" "/m" = "/m".
Proof. repeat split. Qed.

Example frombuffer_ex :
  Py.frombuffer_int16 [Byte.x01; Byte.x00; Byte.xff; Byte.xff; Byte.x00; Byte.x80]
  = Some [1; -1; -32768]%Z
  /\ Py.frombuffer_int16 [Byte.x01; Byte.x00; Byte.xff] = None.
Proof. split; reflexivity. Qed.

Example scenario_a :
  snd (run_cycles fresh_locals ["hello"; "hello"; "hello"])
  = [Some (partial_event "hello"); Some (partial_event "hello");
     Some (final_event "hello")].
Proof. reflexivity. Qed.

Example scenario_b :
  snd (run_cycles fresh_locals ["hello"; "hello world"; "hello world"; "hello world"])
  = [Some (partial_event "hello"); Some (partial_event "hello world");
     Some (partial_event "hello world"); Some (final_event "hello world")].
Proof. reflexivity. Qed.

Example scenario_c_events :
  snd (run_cycles fresh_locals scenario_c)
  = [None; Some (partial_event "hi"); None; Some (partial_event "hi");
     Some (final_event "hi"); Some (partial_event "hi")].
Proof. reflexivity. Qed.

(** ** The stability heuristic *)

Lemma truthy_true (t : string) : Py.truthy t = true <-> t <> "".
Proof. destruct t; simpl; split; intros; congruence. Qed.

Lemma truthy_false (t : string) : Py.truthy t = false <-> t = "".
Proof. destruct t; simpl; split; intros; congruence. Qed.

Lemma classify_empty (s : Locals) : Wisprtux.classify s "" = (s, None).
Proof. reflexivity. Qed.

(** The three shapes of a classified, not yet final text. *)
Lemma classify_cases (s : Locals) (t : string) :
  t <> "" ->
  (t <> prev_text s /\
   Wisprtux.classify s t
   = ({| window := window s; chunk_count := chunk_count s; prev_text := t;
         stable_cycles := 0; cycles := cycles s |}, Some (partial_event t)))
  \/ (t = prev_text s /\ stable_cycles s = 0 /\
      Wisprtux.classify s t
      = ({| window := window s; chunk_count := chunk_count s; prev_text := t;
            stable_cycles := 1; cycles := cycles s |}, Some (partial_event t)))
  \/ (t = prev_text s /\ 1 <= stable_cycles s /\
      Wisprtux.classify s t
      = ({| window := []; chunk_count := chunk_count s; prev_text := "";
            stable_cycles := 0; cycles := cycles s |}, Some (final_event t))).
Proof.
  intros Ht. apply truthy_true in Ht. unfold Wisprtux.classify. rewrite Ht.
  destruct (String.eqb_spec t (prev_text s)) as [Heq | Hne].
  - right. destruct (stable_cycles s) as [| n] eqn:Hst.
    + left. simpl. subst t. auto.
    + right. replace (2 <=? S n + 1) with true
        by (symmetry; apply Nat.leb_le; lia).
      split; [done | split; [lia | done]].
  - left. simpl. auto.
Qed.

Lemma tracks_once_of (s : Locals) (older : list string) (p : string) :
  prev_text s = p -> p <> "" -> stable_cycles s = 0 ->
  (forall o, older <> o ++ [p]) -> tracks s (older ++ [p]).
Proof. intros <-. apply tracks_once. Qed.

Lemma tracks_twice_of (s : Locals) (older : list string) (p : string) :
  prev_text s = p -> p <> "" -> stable_cycles s = 1 ->
  tracks s (older ++ [p; p]).
Proof. intros <-. apply tracks_twice. Qed.

Lemma tracks_step (s : Locals) (acc : list string) (t : string) :
  tracks s acc ->
  tracks (fst (Wisprtux.classify s t))
    (match snd (Wisprtux.classify s t) with
     | Some ev => if is_partial ev then acc ++ [t] else []
     | None => acc
     end).
Proof.
  intros Htr. destruct (decide (t = "")) as [-> | Ht]; [exact Htr |].
  destruct (classify_cases s t Ht) as [(Hne & ->) | [(Heq & Hst & ->) | (Heq & Hst & ->)]];
    simpl.
  - apply tracks_once_of; simpl; [done | done | done |].
    intros o Ho. destruct Htr as [Hp _ | older Hp _ _ | older Hp _].
    + destruct o; discriminate.
    + apply app_inj_tail in Ho as [_ Ho]. congruence.
    + change (older ++ [prev_text s; prev_text s])
        with (older ++ [prev_text s] ++ [prev_text s]) in Ho.
      rewrite app_assoc in Ho. apply app_inj_tail in Ho as [_ Ho]. congruence.
  - destruct Htr as [Hp _ | older Hp _ _ | older _ Hst'].
    + congruence.
    + subst t. rewrite <- app_assoc. apply tracks_twice_of; simpl; done.
    + lia.
  - apply tracks_none; done.
Qed.

Lemma tracks_run (texts : list string) :
  forall s acc, tracks s acc ->
    tracks (fst (run_cycles s texts)) (pending_from s acc texts).
Proof.
  induction texts as [| t rest IH]; intros s acc Htr; simpl; [exact Htr |].
  pose proof (tracks_step s acc t Htr) as Hstep.
  destruct (Wisprtux.classify s t) as [s1 ev]. simpl in Hstep.
  specialize (IH s1 _ Hstep).
  destruct (run_cycles s1 rest) as [s2 evs]. exact IH.
Qed.

Lemma tracks_final_iff (s : Locals) (acc : list string) (t : string) :
  tracks s acc ->
  is_final (snd (Wisprtux.classify s t)) = true
  <-> t <> "" /\ exists older, acc = older ++ [t; t].
Proof.
  intros Htr. destruct (decide (t = "")) as [-> | Ht].
  { simpl. split; [discriminate | intros [? _]; done]. }
  destruct (classify_cases s t Ht) as [(Hne & ->) | [(Heq & Hst & ->) | (Heq & Hst & ->)]];
    simpl.
  - split; [discriminate |]. intros [_ [older ->]].
    change (older ++ [t; t]) with (older ++ [t] ++ [t]) in Htr.
    rewrite app_assoc in Htr.
    inversion Htr as [Hp Hs Hacc | o Hp Hs Hno Hacc | o Hp Hs Hacc].
    + destruct older; discriminate.
    + apply app_inj_tail in Hacc as [_ Hacc]. congruence.
    + change (o ++ [prev_text s; prev_text s])
        with (o ++ [prev_text s] ++ [prev_text s]) in Hacc.
      rewrite app_assoc in Hacc. apply app_inj_tail in Hacc as [_ Hacc]. congruence.
  - split; [discriminate |]. intros [_ [older ->]].
    inversion Htr as [Hp Hs Hacc | o Hp Hs Hno Hacc | o Hp Hs Hacc].
    + destruct older; discriminate.
    + change (older ++ [t; t]) with (older ++ [t] ++ [t]) in Hacc.
      rewrite app_assoc in Hacc. apply app_inj_tail in Hacc as [Hacc _].
      exfalso. apply (Hno older). rewrite Hacc. congruence.
    + lia.
  - split; [| done]. intros _. split; [done |].
    inversion Htr as [Hp Hs Hacc | o Hp Hs Hno Hacc | o Hp Hs Hacc].
    + congruence.
    + lia.
    + exists o. congruence.
Qed.

Lemma pending_from_suffix (texts : list string) :
  forall s acc, exists before,
    acc ++ nonempty_texts texts = before ++ pending_from s acc texts.
Proof.
  unfold nonempty_texts.
  induction texts as [| t rest IH]; intros s acc; simpl.
  { exists []. by rewrite app_nil_r. }
  destruct (decide (t = "")) as [-> | Ht].
  { rewrite classify_empty. rewrite filter_cons_False by (simpl; tauto). apply IH. }
  rewrite filter_cons_True by (apply Is_true_true, truthy_true, Ht).
  destruct (classify_cases s t Ht)
    as [(_ & ->) | [(_ & _ & ->) | (_ & _ & ->)]]; simpl.
  - destruct (IH {| window := window s; chunk_count := chunk_count s;
                    prev_text := t; stable_cycles := 0; cycles := cycles s |}
                (acc ++ [t])) as [before Hb].
    exists before. rewrite <- Hb, <- app_assoc. done.
  - destruct (IH {| window := window s; chunk_count := chunk_count s;
                    prev_text := t; stable_cycles := 1; cycles := cycles s |}
                (acc ++ [t])) as [before Hb].
    exists before. rewrite <- Hb, <- app_assoc. done.
  - destruct (IH {| window := []; chunk_count := chunk_count s;
                    prev_text := ""; stable_cycles := 0; cycles := cycles s |}
                []) as [before Hb].
    exists (acc ++ [t] ++ before). simpl in Hb. rewrite Hb, <- !app_assoc. done.
Qed.

Lemma tracks_fresh : tracks fresh_locals [].
Proof. by apply tracks_none. Qed.

(** C1 (amended).  Feeding the classification step the text [t] after the
    cycle texts [texts] emits a final event exactly when [t] is non-empty
    and is also the text of the two most recent non-empty cycles since the
    previous final event (or since the start of the session); the pending
    texts are the tail of the non-empty cycle texts, cycles with an empty
    text being skipped.  A final event carries the text of its cycle.  A
    cycle with an empty text emits nothing and changes neither [prev_text]
    nor the repeat counter nor the window.  On the cycle texts
    "", "hi", "", "hi", "hi", "hi" the empty cycles emit nothing, the final
    event for "hi" is emitted by the fifth cycle and the sixth cycle emits
    a partial event. *)
Theorem C1_final_iff_two_pending_repeats (texts : list string) (t : string) :
  let s := fst (run_cycles fresh_locals texts) in
  (is_final (snd (Wisprtux.classify s t)) = true
   <-> t <> "" /\ exists older, pending texts = older ++ [t; t])
  /\ (exists before, nonempty_texts texts = before ++ pending texts)
  /\ (is_final (snd (Wisprtux.classify s t)) = true ->
      snd (Wisprtux.classify s t) = Some (final_event t))
  /\ Wisprtux.classify s "" = (s, None)
  /\ snd (run_cycles fresh_locals scenario_c)
     = [None; Some (partial_event "hi"); None; Some (partial_event "hi");
        Some (final_event "hi"); Some (partial_event "hi")].
Proof.
  intros s. split; [| split; [| split; [| split]]].
  - apply tracks_final_iff, tracks_run, tracks_fresh.
  - apply (pending_from_suffix texts fresh_locals []).
  - destruct (decide (t = "")) as [-> | Ht]; [discriminate |].
    destruct (classify_cases s t Ht)
      as [(_ & ->) | [(_ & _ & ->) | (_ & _ & ->)]]; simpl; done.
  - reflexivity.
  - reflexivity.
Qed.

(** C1 as stated fails: on the cycle texts "", "hi", "", "hi", "hi", "hi"
    the final event is not held back until the sixth cycle, and an empty
    cycle does not reset the repeat counter. *)
Lemma C1_scenario_c_finalizes_at_fifth_cycle :
  ~ (forall n ev, snd (run_cycles fresh_locals scenario_c) !! n = Some (Some ev) ->
                  is_partial ev = false -> n = 5)
  /\ ~ (forall texts,
          stable_cycles (fst (run_cycles fresh_locals (texts ++ [""]))) = 0).
Proof.
  split.
  - intros H. specialize (H 4 (final_event "hi") eq_refl eq_refl). discriminate.
  - intros H. specialize (H ["hi"; "hi"]). discriminate.
Qed.

(** ** Traces of the helpers *)

Lemma run_routing (h : Host) (args : list string) :
  Forall (fun a => is_routing a = true) (snd (WindowTracker._run h args)).
Proof. repeat constructor. Qed.

Lemma focus_window_trace (h : Host) (w : option string) :
  snd (WindowTracker.focus_window h w)
  = match w with
    | Some w => if Py.truthy w then [focus_call w] else []
    | None => []
    end.
Proof.
  unfold WindowTracker.focus_window. destruct w as [w |]; [| done].
  by destruct (Py.truthy w).
Qed.

Lemma type_text_trace (h : Host) (text : string) :
  snd (WindowTracker.type_text h text)
  = if Py.truthy text then [type_call text] else [].
Proof. unfold WindowTracker.type_text. by destruct (Py.truthy text). Qed.

Lemma has_nul_empty (w : string) : Py.truthy w = false -> Py.has_nul w = false.
Proof. by destruct w. Qed.

(** [focus_window] raises exactly on an id with a NUL, [type_text] exactly
    on a text with a NUL. *)
Lemma focus_window_end (h : Host) (w : option string) :
  fst (WindowTracker.focus_window h w)
  = if nul_id w then Py.Raises "embedded null byte"
    else Py.Returns
           match w with
           | Some w =>
               Py.truthy w
               && exits_ok (subprocess_run h
                              ["xdotool"; "windowactivate"; "--sync"; w] None)
           | None => false
           end.
Proof.
  unfold WindowTracker.focus_window, WindowTracker._run, nul_id.
  destruct w as [w |]; [| done].
  destruct (Py.truthy w) eqn:Hw; [| by rewrite has_nul_empty].
  cbn. rewrite orb_false_r. destruct (Py.has_nul w); [done |]. cbn. f_equal.
  by destruct (subprocess_run h _ None) as [[| rc | rc] out |].
Qed.

Lemma type_text_end (h : Host) (text : string) :
  fst (WindowTracker.type_text h text)
  = if Py.has_nul text then Py.Raises "embedded null byte"
    else Py.Returns
           (Py.truthy text
            && exits_ok
                 (subprocess_run h
                    ["xdotool"; "type"; "--clearmodifiers"; "--delay"; "12"; "--"; text]
                    None)).
Proof.
  unfold WindowTracker.type_text, WindowTracker._run.
  destruct (Py.truthy text) eqn:Ht; [| by rewrite has_nul_empty].
  cbn. rewrite orb_false_r. destruct (Py.has_nul text); [done |]. cbn. f_equal.
  by destruct (subprocess_run h _ None) as [[| rc | rc] out |].
Qed.

Lemma focus_window_routing (h : Host) (w : option string) :
  Forall (fun a => is_routing a = true) (snd (WindowTracker.focus_window h w)).
Proof.
  rewrite focus_window_trace. destruct w as [w |]; [| constructor].
  destruct (Py.truthy w); repeat constructor.
Qed.

Lemma type_text_routing (h : Host) (text : string) :
  Forall (fun a => is_routing a = true) (snd (WindowTracker.type_text h text)).
Proof.
  rewrite type_text_trace. destruct (Py.truthy text); repeat constructor.
Qed.

Lemma set_clipboard_from_routing (h : Host) (text : string) (cmds : list (list string)) :
  Forall (fun a => is_routing a = true)
    (snd (WindowTracker.set_clipboard_from h cmds text)).
Proof.
  induction cmds as [| cmd rest IH]; simpl; [constructor |].
  unfold WindowTracker.try_clipboard_tool.
  destruct (which h _); simpl.
  - destruct (subprocess_run h cmd (Some text)) as [[| rc | rc] out |]; simpl;
      try (repeat constructor);
      destruct (WindowTracker.set_clipboard_from h rest text); simpl in *;
      repeat constructor; exact IH.
  - destruct (WindowTracker.set_clipboard_from h rest text); exact IH.
Qed.

(** The calls of [_route_final_text]: the clipboard calls, then the focus
    call, then, unless [focus_window] raised, the typing call. *)
Lemma route_calls (h : Host) (e : Wisprtux.Engine) (text : string) :
  snd (Wisprtux._route_final_text h e text)
  = (if Py.truthy text && Wisprtux._auto_clipboard e
     then snd (WindowTracker.set_clipboard h text) else [])
    ++ match Wisprtux._origin_window e with
       | Some w =>
           if types_text e text then
             snd (WindowTracker.focus_window h (WindowTracker.window_id w))
             ++ (if nul_id (WindowTracker.window_id w) then []
                 else [type_call text])
           else []
       | None => []
       end.
Proof.
  unfold Wisprtux._route_final_text, types_text.
  destruct (Py.truthy text) eqn:Ht; cbn [negb andb].
  2: { by destruct (Wisprtux._origin_window e). }
  destruct (Wisprtux._origin_window e) as [w |]; [| by rewrite app_nil_r].
  destruct (Wisprtux._auto_type e && WindowTracker.valid w);
    [| by rewrite app_nil_r].
  pose proof (focus_window_end h (WindowTracker.window_id w)) as Hend.
  pose proof (type_text_trace h text) as Htype. rewrite Ht in Htype.
  destruct (WindowTracker.focus_window h (WindowTracker.window_id w))
    as [focused tr_focus].
  destruct (WindowTracker.type_text h text) as [typed tr_type].
  cbn [fst snd] in *. subst tr_type.
  destruct (nul_id (WindowTracker.window_id w)); subst focused; cbn [snd].
  - by rewrite app_nil_r.
  - done.
Qed.

(** How [_route_final_text] ends: what it raises does not depend on the
    host. *)
Lemma route_end (h : Host) (e : Wisprtux.Engine) (text : string) :
  fst (Wisprtux._route_final_text h e text)
  = if route_raises e text then Py.Raises "embedded null byte"
    else Py.Returns tt.
Proof.
  unfold Wisprtux._route_final_text, route_raises, types_text.
  destruct (Py.truthy text) eqn:Ht; cbn [negb andb]; [| done].
  destruct (Wisprtux._origin_window e) as [w |]; [| done].
  destruct (Wisprtux._auto_type e && WindowTracker.valid w); cbn [andb]; [| done].
  pose proof (focus_window_end h (WindowTracker.window_id w)) as Hend.
  pose proof (type_text_end h text) as Htype.
  destruct (WindowTracker.focus_window h (WindowTracker.window_id w))
    as [focused tr_focus].
  destruct (WindowTracker.type_text h text) as [typed tr_type].
  cbn [fst snd] in *.
  destruct (nul_id (WindowTracker.window_id w)); subst focused; cbn [orb fst];
    [done |].
  subst typed. by destruct (Py.has_nul text).
Qed.

Lemma route_routing (h : Host) (e : Wisprtux.Engine) (text : string) :
  Forall (fun a => is_routing a = true)
    (snd (Wisprtux._route_final_text h e text)).
Proof.
  rewrite route_calls. apply Forall_app. split.
  - destruct (_ && _); [| constructor]. apply set_clipboard_from_routing.
  - destruct (Wisprtux._origin_window e) as [w |]; [| constructor].
    destruct (types_text e text); [| constructor].
    apply Forall_app. split; [apply focus_window_routing |].
    destruct (nul_id _); repeat constructor.
Qed.

(** With typing switched off, [_route_final_text] is [set_clipboard], if
    that, and returns. *)
Lemma route_without_typing (h : Host) (e : Wisprtux.Engine) (text : string) :
  Wisprtux._auto_type e = false ->
  Wisprtux._route_final_text h e text
  = (Py.Returns tt,
     if Py.truthy text && Wisprtux._auto_clipboard e
     then snd (WindowTracker.set_clipboard h text) else []).
Proof.
  intros Hty. rewrite (surjective_pairing (Wisprtux._route_final_text h e text)).
  rewrite route_end, route_calls. unfold route_raises, types_text. rewrite Hty.
  destruct (Wisprtux._origin_window e); rewrite ?andb_false_r;
    by rewrite app_nil_r.
Qed.

Lemma transcribed_app (a b : list action) :
  transcribed (a ++ b) = transcribed a ++ transcribed b.
Proof. apply omap_app. Qed.

Lemma transcribed_routing (tr : list action) :
  Forall (fun a => is_routing a = true) tr -> transcribed tr = [].
Proof.
  induction 1 as [| a tr Ha _ IH]; [done |].
  destruct a; try discriminate. exact IH.
Qed.

Lemma transcribed_status (e : Wisprtux.Engine) (text : string) :
  transcribed (Wisprtux._emit_status e text) = [].
Proof. unfold Wisprtux._emit_status. by destruct (Wisprtux._status_cb e). Qed.

Lemma transcribed_transcript (e : Wisprtux.Engine) (ev : TranscriptEvent) :
  transcribed (Wisprtux._emit_transcript e ev) = [].
Proof. unfold Wisprtux._emit_transcript. by destruct (Wisprtux._transcript_cb e). Qed.

(** ** The cycle trigger *)

Lemma trigger_iff (s : Locals) (data : list Byte.byte) :
  (Wisprtux.chunks_per_interval <=? Z.of_nat (chunk_count s + 1))%Z
  && bool_decide (window s ++ [data] <> []) = true
  <-> 7 <= chunk_count s + 1.
Proof.
  change Wisprtux.chunks_per_interval with 7%Z.
  rewrite andb_true_iff, bool_decide_eq_true, Z.leb_le.
  split; [lia |]. intros H. split; [lia |]. by destruct (window s).
Qed.

Lemma loop_body_accumulates (h : Host) (e : Wisprtux.Engine) (s : Locals)
    (data : list Byte.byte) :
  chunk_count s + 1 < 7 ->
  Wisprtux.loop_body h e s (ReadOk data) = ([], Next (accumulated s data)).
Proof.
  intros Hlt. unfold Wisprtux.loop_body.
  destruct (_ && _) eqn:Htrig; [| done].
  apply trigger_iff in Htrig. lia.
Qed.

Lemma loop_body_bad_buffer (h : Host) (e : Wisprtux.Engine) (s : Locals)
    (data : list Byte.byte) :
  7 <= chunk_count s + 1 ->
  Py.frombuffer_int16 (concat (window s ++ [data])) = None ->
  Wisprtux.loop_body h e s (ReadOk data)
  = (Wisprtux._emit_status e "Transcribing...",
     Raised "buffer size must be a multiple of element size").
Proof.
  intros Hge Hbuf. apply trigger_iff with (data := data) in Hge.
  unfold Wisprtux.loop_body. rewrite Hge, Hbuf. done.
Qed.

(** A cycle: the status, the inference call, the event [classify] decides
    on, the routing of a final text; then either the exception of the
    routing leaves the loop, or the status is set back and the locals are
    those [classify] gives. *)
Lemma loop_body_cycle (h : Host) (e : Wisprtux.Engine) (s : Locals)
    (data : list Byte.byte) (samples : list Z) :
  7 <= chunk_count s + 1 ->
  Py.frombuffer_int16 (concat (window s ++ [data])) = Some samples ->
  Wisprtux.loop_body h e s (ReadOk data)
  = if cycle_fails e (at_cycle s data) (heard h s samples) then
      (Wisprtux._emit_status e "Transcribing..."
         ++ [Transcribe (Py.normalize samples)]
         ++ Wisprtux._emit_transcript e (final_event (heard h s samples))
         ++ snd (Wisprtux._route_final_text h e (heard h s samples)),
       Raised "embedded null byte")
    else
      (Wisprtux._emit_status e "Transcribing..."
         ++ [Transcribe (Py.normalize samples)]
         ++ match snd (Wisprtux.classify (at_cycle s data) (heard h s samples)) with
            | Some ev =>
                Wisprtux._emit_transcript e ev
                ++ (if is_partial ev then []
                    else snd (Wisprtux._route_final_text h e (heard h s samples)))
            | None => []
            end
         ++ Wisprtux._emit_status e "Recording...",
       Next (fst (Wisprtux.classify (at_cycle s data) (heard h s samples)))).
Proof.
  intros Hge Hbuf. apply trigger_iff with (data := data) in Hge.
  unfold Wisprtux.loop_body. rewrite Hge, Hbuf.
  fold (heard h s samples). fold (at_cycle s data). unfold cycle_fails.
  generalize (heard h s samples) as text. intros text.
  destruct (decide (text = "")) as [-> | Ht]; [done |].
  pose proof (route_end h e text) as Hend.
  destruct (classify_cases (at_cycle s data) text Ht)
    as [(_ & ->) | [(_ & _ & ->) | (_ & _ & ->)]]; cbn [fst snd is_final];
    try (by rewrite <- !app_assoc).
  destruct (Wisprtux._route_final_text h e text) as [[[] | exc] tr_route].
  - cbn [fst snd] in *. destruct (route_raises e text); [discriminate |].
    cbn. by rewrite <- !app_assoc.
  - cbn [fst snd] in *. destruct (route_raises e text); [| discriminate].
    inversion Hend. done.
Qed.

(** A cycle that is not left by the routing. *)
Lemma loop_body_cycle_Next (h : Host) (e : Wisprtux.Engine) (s : Locals)
    (data : list Byte.byte) (samples : list Z) :
  7 <= chunk_count s + 1 ->
  Py.frombuffer_int16 (concat (window s ++ [data])) = Some samples ->
  cycle_fails e (at_cycle s data) (heard h s samples) = false ->
  Wisprtux.loop_body h e s (ReadOk data)
  = (Wisprtux._emit_status e "Transcribing..."
       ++ [Transcribe (Py.normalize samples)]
       ++ match snd (Wisprtux.classify (at_cycle s data) (heard h s samples)) with
          | Some ev =>
              Wisprtux._emit_transcript e ev
              ++ (if is_partial ev then []
                  else snd (Wisprtux._route_final_text h e (heard h s samples)))
          | None => []
          end
       ++ Wisprtux._emit_status e "Recording...",
     Next (fst (Wisprtux.classify (at_cycle s data) (heard h s samples)))).
Proof.
  intros Hge Hbuf Hok. by rewrite (loop_body_cycle h e s data samples Hge Hbuf), Hok.
Qed.

(** What a cycle records up to the end of the routing, whatever its end. *)
Lemma loop_body_cycle_trace (h : Host) (e : Wisprtux.Engine) (s : Locals)
    (data : list Byte.byte) (samples : list Z) :
  7 <= chunk_count s + 1 ->
  Py.frombuffer_int16 (concat (window s ++ [data])) = Some samples ->
  fst (Wisprtux.loop_body h e s (ReadOk data))
  = Wisprtux._emit_status e "Transcribing..."
      ++ [Transcribe (Py.normalize samples)]
      ++ match snd (Wisprtux.classify (at_cycle s data) (heard h s samples)) with
         | Some ev =>
             Wisprtux._emit_transcript e ev
             ++ (if is_partial ev then []
                 else snd (Wisprtux._route_final_text h e (heard h s samples)))
         | None => []
         end
      ++ (if cycle_fails e (at_cycle s data) (heard h s samples) then []
          else Wisprtux._emit_status e "Recording...").
Proof.
  intros Hge Hbuf. rewrite (loop_body_cycle h e s data samples Hge Hbuf).
  unfold cycle_fails.
  generalize (heard h s samples) as text. intros text.
  destruct (decide (text = "")) as [-> | Ht]; [done |].
  destruct (classify_cases (at_cycle s data) text Ht)
    as [(_ & ->) | [(_ & _ & ->) | (_ & _ & ->)]]; cbn [fst snd is_final];
    try done.
  destruct (route_raises e text); cbn [fst andb negb is_partial final_event];
    [by rewrite !app_nil_r | done].
Qed.

(** C2 (amended).  The number of accumulated frames that triggers an
    inference cycle is [int(interval_seconds * sample_rate / frame_size)],
    the quotient rounded down, which for 0.5 s, 16000 Hz and 1024 samples is
    7 frames, in both engine versions: a successful read makes an inference
    call exactly when it is at least the seventh since the last cycle (and
    the accumulated bytes form whole samples); from the start of a session
    six frames make no call and the seventh makes the first. *)
Theorem C2_cycle_every_seven_frames :
  Wisprtux.chunks_per_interval = Qfloor (16000 * (1 # 2) / 1024)
  /\ Wisprtux.chunks_per_interval = 7%Z
  /\ Whisperflow.chunks_per_interval = 7%Z
  /\ (forall h e s data,
        transcribed (fst (Wisprtux.loop_body h e s (ReadOk data)))
        = if decide (7 <= chunk_count s + 1)
          then match Py.frombuffer_int16 (concat (window s ++ [data])) with
               | Some samples => [Py.normalize samples]
               | None => []
               end
          else [])
  /\ transcribed (fst (Wisprtux.run_loop bare_host listening fresh_locals (frames 6))) = []
  /\ length (transcribed
               (fst (Wisprtux.run_loop bare_host listening fresh_locals (frames 7)))) = 1.
Proof.
  split; [reflexivity |]. split; [reflexivity |]. split; [reflexivity |].
  split; [| split; reflexivity].
  intros h e s data. destruct (decide (7 <= chunk_count s + 1)) as [Hge | Hlt].
  - destruct (Py.frombuffer_int16 (concat (window s ++ [data]))) as [samples |] eqn:Hbuf.
    + rewrite (loop_body_cycle_trace h e s data samples Hge Hbuf).
      assert (forall b : bool,
                transcribed (if b then [] else Wisprtux._emit_status e "Recording...")
                = []) as Htail
        by (intros []; [done | apply transcribed_status]).
      rewrite !transcribed_app, transcribed_status, Htail. simpl. f_equal.
      rewrite app_nil_r.
      destruct (snd (Wisprtux.classify _ _)) as [ev |]; [| done].
      rewrite transcribed_app, transcribed_transcript. simpl.
      destruct (is_partial ev); [done |].
      apply transcribed_routing, route_routing.
    + rewrite (loop_body_bad_buffer h e s data Hge Hbuf). simpl.
      apply transcribed_status.
  - rewrite loop_body_accumulates by lia. done.
Qed.

(** C2 as stated fails: the trigger count is not the quotient rounded up,
    and seven frames, not eight, already start the first inference cycle. *)
Lemma C2_seven_frames_not_eight :
  Wisprtux.chunks_per_interval <> Qceiling (16000 * (1 # 2) / 1024)
  /\ Qceiling (16000 * (1 # 2) / 1024) = 8%Z
  /\ transcribed (fst (Wisprtux.run_loop bare_host listening fresh_locals (frames 7)))
     <> [].
Proof. split; [| split]; vm_compute; congruence. Qed.

(** ** The window *)

Lemma loop_body_Next (h : Host) (e : Wisprtux.Engine) (s s' : Locals)
    (r : read_result) (tr : list action) :
  Wisprtux.loop_body h e s r = (tr, Next s') ->
  (r = ReadRaises /\ s' = s /\ tr = [])
  \/ (exists data, r = ReadOk data /\ chunk_count s + 1 < 7
                   /\ s' = accumulated s data /\ tr = [])
  \/ (exists data samples,
        r = ReadOk data /\ 7 <= chunk_count s + 1
        /\ Py.frombuffer_int16 (concat (window s ++ [data])) = Some samples
        /\ s' = fst (Wisprtux.classify (at_cycle s data) (heard h s samples))).
Proof.
  intros Hbody. destruct r as [data |].
  - destruct (decide (7 <= chunk_count s + 1)) as [Hge | Hlt].
    + right. right.
      destruct (Py.frombuffer_int16 (concat (window s ++ [data])))
        as [samples |] eqn:Hbuf.
      * exists data, samples. repeat split; try done.
        rewrite (loop_body_cycle h e s data samples Hge Hbuf) in Hbody.
        destruct (cycle_fails e _ _); [discriminate | congruence].
      * rewrite loop_body_bad_buffer in Hbody by done. discriminate.
    + right. left. exists data.
      rewrite loop_body_accumulates in Hbody by lia.
      repeat split; [lia | congruence | congruence].
  - left. simpl in Hbody. repeat split; congruence.
Qed.

Lemma final_texts_app (a b : list action) :
  final_texts (a ++ b) = final_texts a ++ final_texts b.
Proof. apply omap_app. Qed.

Lemma final_texts_status (e : Wisprtux.Engine) (text : string) :
  final_texts (Wisprtux._emit_status e text) = [].
Proof. unfold Wisprtux._emit_status. by destruct (Wisprtux._status_cb e). Qed.

Lemma final_texts_routing (tr : list action) :
  Forall (fun a => is_routing a = true) tr -> final_texts tr = [].
Proof.
  induction 1 as [| a tr Ha _ IH]; [done |].
  destruct a; try discriminate. exact IH.
Qed.

(** What the transcript listener sees of a cycle is what [classify]
    decided. *)
Lemma final_texts_cycle (h : Host) (e : Wisprtux.Engine) (cb : listener)
    (s : Locals) (data : list Byte.byte) (samples : list Z) :
  Wisprtux._transcript_cb e = Some cb ->
  7 <= chunk_count s + 1 ->
  Py.frombuffer_int16 (concat (window s ++ [data])) = Some samples ->
  final_texts (fst (Wisprtux.loop_body h e s (ReadOk data)))
  = if is_final (snd (Wisprtux.classify (at_cycle s data) (heard h s samples)))
    then [heard h s samples] else [].
Proof.
  intros Hcb Hge Hbuf.
  rewrite (loop_body_cycle_trace h e s data samples Hge Hbuf).
  generalize (heard h s samples) as text. intros text.
  assert (forall b : bool,
            final_texts (if b then [] else Wisprtux._emit_status e "Recording...")
            = []) as Htail
    by (intros []; [done | apply final_texts_status]).
  rewrite !final_texts_app, final_texts_status, Htail, app_nil_r. cbn [app].
  destruct (decide (text = "")) as [Ht | Ht].
  { rewrite Ht. done. }
  unfold Wisprtux._emit_transcript. rewrite Hcb.
  destruct (classify_cases (at_cycle s data) text Ht)
    as [(_ & ->) | [(_ & _ & ->) | (_ & _ & ->)]]; simpl; try done.
  rewrite final_texts_routing by apply route_routing. done.
Qed.

(** While a text is remembered, the window holds the audio it came from. *)
Lemma reachable_window (h : Host) (e : Wisprtux.Engine) (s : Locals) :
  reachable h e s -> prev_text s <> "" -> window s <> [].
Proof.
  induction 1 as [| s r tr s' _ IH Hbody]; [done |].
  apply loop_body_Next in Hbody
    as [(_ & -> & _) | [(data & _ & _ & -> & _) | (data & samples & _ & _ & _ & ->)]].
  - exact IH.
  - intros _. simpl. by destruct (window s).
  - generalize (heard h s samples) as text. intros text.
    destruct (decide (text = "")) as [Ht | Ht].
    + rewrite Ht. simpl. intros _. by destruct (window s).
    + destruct (classify_cases (at_cycle s data) text Ht)
        as [(_ & ->) | [(_ & _ & ->) | (_ & _ & ->)]];
        simpl; try done; intros _; by destruct (window s).
Qed.

Lemma run_loop_reachable (h : Host) (e : Wisprtux.Engine) (reads : list read_result) :
  forall s tr s',
    reachable h e s ->
    Wisprtux.run_loop h e s reads = (tr, Next s') ->
    reachable h e s'.
Proof.
  induction reads as [| r rest IH]; intros s tr s' Hs Hrun; simpl in Hrun.
  { congruence. }
  destruct (Wisprtux.loop_body h e s r) as [tr1 [s1 | exc]] eqn:Hbody;
    [| discriminate].
  destruct (Wisprtux.run_loop h e s1 rest) as [tr2 fin] eqn:Hrest.
  apply (IH s1 tr2 s'); [by eapply reach_body |]. congruence.
Qed.

Lemma no_carry_over (s : Locals) (texts : list string) (t : string) :
  prev_text s = "" -> stable_cycles s = 0 ->
  is_final (snd (Wisprtux.classify (fst (run_cycles s texts)) t)) = true ->
  t <> "" /\ exists older, nonempty_texts texts = older ++ [t; t].
Proof.
  intros Hp Hs Hfin.
  pose proof (tracks_run texts s [] (tracks_none s Hp Hs)) as Htr.
  apply (tracks_final_iff _ _ t Htr) in Hfin as [Ht [older Hpend]].
  split; [exact Ht |].
  destruct (pending_from_suffix texts s []) as [before Hb].
  exists (before ++ older). simpl in Hb. rewrite Hb, Hpend, app_assoc. done.
Qed.

Lemma three_in_a_row (s : Locals) (t : string) :
  prev_text s = "" -> stable_cycles s = 0 -> t <> "" ->
  snd (run_cycles s [t; t; t])
  = [Some (partial_event t); Some (partial_event t); Some (final_event t)].
Proof.
  intros Hp Hs Ht. simpl.
  destruct (classify_cases s t Ht) as [(_ & ->) | [(Heq & _) | (Heq & _)]];
    [| congruence | congruence].
  match goal with |- context [Wisprtux.classify ?s1 t] =>
    destruct (classify_cases s1 t Ht) as [(Hne & _) | [(_ & _ & ->) | (_ & Hst & _)]];
      [simpl in Hne; congruence | | simpl in Hst; lia]
  end.
  match goal with |- context [Wisprtux.classify ?s2 t] =>
    destruct (classify_cases s2 t Ht) as [(Hne & _) | [(_ & Hst & _) | (_ & _ & ->)]];
      [simpl in Hne; congruence | simpl in Hst; lia |]
  end.
  reflexivity.
Qed.

(** C3.  In every completed iteration of the worker loop, from locals the
    loop can reach and with a transcript listener connected: if the
    iteration emits no final event, the window before is a prefix of the
    window after; the window gets shorter exactly when a final event is
    emitted, and it is then empty, [prev_text] is the empty string and the
    repeat counter is 0; from there a further final event needs its text to
    be produced by three non-empty cycles in a row that all come after the
    earlier final event, and three such cycles do finalize again. *)
Theorem C3_window_grows_until_final (h : Host) (e : Wisprtux.Engine)
    (cb : listener) (s s' : Locals) (r : read_result) (tr : list action) :
  Wisprtux._transcript_cb e = Some cb ->
  reachable h e s ->
  Wisprtux.loop_body h e s r = (tr, Next s') ->
  (final_texts tr = [] -> window s `prefix_of` window s')
  /\ (length (window s') < length (window s) <-> final_texts tr <> [])
  /\ (final_texts tr <> [] ->
      window s' = [] /\ prev_text s' = "" /\ stable_cycles s' = 0
      /\ (forall texts t,
            is_final (snd (Wisprtux.classify (fst (run_cycles s' texts)) t)) = true ->
            t <> "" /\ exists older, nonempty_texts texts = older ++ [t; t])
      /\ (forall t, t <> "" ->
            snd (run_cycles s' [t; t; t])
            = [Some (partial_event t); Some (partial_event t);
               Some (final_event t)])).
Proof.
  intros Hcb Hreach Hbody.
  assert (tr = fst (Wisprtux.loop_body h e s r)) as Htr by (by rewrite Hbody).
  assert (forall l : list (list Byte.byte), forall d, length l < length (l ++ [d]))
    as Hgrow by (intros l d; rewrite length_app; simpl; lia).
  apply loop_body_Next in Hbody
    as [(-> & -> & _) | [(data & -> & Hlt & -> & _) | (data & samples & -> & Hge & Hbuf & ->)]].
  - simpl in Htr. subst tr. simpl.
    split; [done |]. split; [split; [lia | done] | done].
  - rewrite loop_body_accumulates in Htr by done. subst tr. simpl.
    split; [intros _; by eexists |].
    split; [split; [specialize (Hgrow (window s) data); lia | done] | done].
  - rewrite Htr, (final_texts_cycle h e cb s data samples Hcb Hge Hbuf).
    clear Htr. generalize (heard h s samples) as text. intros text.
    destruct (decide (text = "")) as [Ht | Ht].
    { rewrite Ht. simpl.
      split; [intros _; by eexists |].
      split; [split; [specialize (Hgrow (window s) data); lia | done] | done]. }
    destruct (classify_cases (at_cycle s data) text Ht)
      as [(_ & ->) | [(_ & _ & ->) | (Heq & _ & ->)]]; simpl.
    + split; [intros _; by eexists |].
      split; [split; [specialize (Hgrow (window s) data); lia | done] | done].
    + split; [intros _; by eexists |].
      split; [split; [specialize (Hgrow (window s) data); lia | done] | done].
    + split; [done |]. split.
      * split; [done | intros _].
        assert (window s <> []) as Hw
          by (apply (reachable_window h e s Hreach); simpl in Heq; congruence).
        destruct (window s); [done | simpl; lia].
      * intros _. split; [done |]. split; [done |]. split; [done |]. split.
        -- intros texts t. by apply no_carry_over.
        -- intros t Hne. by apply three_in_a_row.
Qed.

(** C3 at the iteration that ends the third cycle of a session hearing
    "hi" every time: 20 frames are in the window before, none after. *)
Lemma C3_witness_third_cycle :
  let s := locals_after bare_host listening (frames 20) in
  let body := Wisprtux.loop_body bare_host listening s (ReadOk frame) in
  length (window s) = 20
  /\ final_texts (fst body) = ["hi"]
  /\ exists s', snd body = Next s'
               /\ window s' = [] /\ prev_text s' = "" /\ stable_cycles s' = 0.
Proof.
  intros s body.
  assert (reachable bare_host listening s) as Hreach.
  { apply (run_loop_reachable bare_host listening (frames 20) fresh_locals
             (fst (Wisprtux.run_loop bare_host listening fresh_locals (frames 20))));
      [apply reach_fresh | vm_compute; reflexivity]. }
  assert (body = (fst body, Next (locals_after bare_host listening (frames 21))))
    as Hbody by (vm_compute; reflexivity).
  split; [vm_compute; reflexivity |]. split; [vm_compute; reflexivity |].
  exists (locals_after bare_host listening (frames 21)).
  split; [by rewrite Hbody |].
  destruct (C3_window_grows_until_final bare_host listening 2 s _
              (ReadOk frame) _ eq_refl Hreach Hbody) as (_ & _ & Hfin).
  destruct Hfin as (Hw & Hp & Hs & _).
  - rewrite Hbody. vm_compute. discriminate.
  - auto.
Defined.

(** ** Recording control *)

(** C4.  [start_recording] on an engine that is recording, and
    [stop_recording] on one that is not, return the engine unchanged in
    every field and do nothing: no thread is started, no listener called.
    This holds in both engine versions. *)
Theorem C4_start_stop_idempotent (h : Host) (tid qid : nat)
    (e : Wisprtux.Engine) (e0 : Whisperflow.Engine) :
  (Wisprtux._recording e = true ->
   Wisprtux.start_recording h tid qid e = (Py.Returns e, []))
  /\ (Wisprtux._recording e = false -> Wisprtux.stop_recording e = (e, []))
  /\ (Whisperflow._recording e0 = true ->
      Whisperflow.start_recording tid qid e0 = (e0, []))
  /\ (Whisperflow._recording e0 = false -> Whisperflow.stop_recording e0 = (e0, [])).
Proof.
  unfold Wisprtux.start_recording, Wisprtux.stop_recording,
    Whisperflow.start_recording, Whisperflow.stop_recording.
  repeat split; intros ->; reflexivity.
Qed.

(** C4 on a session started from the initial engine: the second start
    changes nothing although the first one started thread 7, and a stop
    of the initial engine changes nothing. *)
Lemma C4_witness_second_start :
  let e := Wisprtux.with_recording true (started 7 1 Wisprtux.__init__) in
  Wisprtux.start_recording bare_host 7 1 Wisprtux.__init__
  = (Py.Returns e, [Subprocess ["xdotool"; "getactivewindow"] None; ThreadStart 7])
  /\ Wisprtux._recording e = true
  /\ Wisprtux.start_recording bare_host 8 2 e = (Py.Returns e, [])
  /\ Wisprtux.stop_recording Wisprtux.__init__ = (Wisprtux.__init__, []).
Proof.
  intros e. split; [reflexivity |]. split; [reflexivity |].
  pose proof (C4_start_stop_idempotent bare_host 8 2 e Whisperflow.__init__)
    as (Hstart & _).
  pose proof (C4_start_stop_idempotent bare_host 8 2 Wisprtux.__init__
                Whisperflow.__init__) as (_ & Hstop & _).
  split; [apply Hstart | apply Hstop]; reflexivity.
Defined.

(** ** Model loading *)

Lemma whisper_loads_app (a b : list action) :
  whisper_loads (a ++ b) = whisper_loads a ++ whisper_loads b.
Proof. apply omap_app. Qed.

Lemma whisper_loads_status (e : Wisprtux.Engine) (text : string) :
  whisper_loads (Wisprtux._emit_status e text) = [].
Proof. unfold Wisprtux._emit_status. by destruct (Wisprtux._status_cb e). Qed.

Ltac loads_of_trace :=
  repeat (progress (rewrite ?whisper_loads_app, ?whisper_loads_status; simpl)).

(** C5.  [_load_model] follows the three-branch policy in order.  Once
    torch has answered which device to use: with the local weights file
    present the only [whisper.load_model] call is the one on that file,
    whatever the offline flag; else, with [offline] false, the only call is
    the one by model name with the models directory as download root; else
    no call is made, the engine is unchanged, [False] is returned and the
    status is "Model not available offline".  A successful call stores the
    model.  And in no case at all is the fetching call made when the local
    file exists or when [offline] is set. *)
Theorem C5_load_policy (h : Host) (e : Wisprtux.Engine) :
  let name := Wisprtux._model_name e in
  let local_path := local_weights_path h name in
  let e' := fst (fst (Wisprtux._load_model h e)) in
  let tr := snd (fst (Wisprtux._load_model h e)) in
  let ok := snd (Wisprtux._load_model h e) in
  (forall cuda_available, torch_cuda h = inr cuda_available ->
     let d := device_of cuda_available in
     match policy (path_exists h local_path) (Wisprtux._offline e) with
     | LoadLocal =>
         whisper_loads tr = [(LocalFile local_path, d)]
         /\ (ok = true <-> whisper_load h (LocalFile local_path) d = None)
         /\ (ok = true ->
             Wisprtux._model e'
             = Some {| model_weights := LocalFile local_path; model_device := d |})
     | FetchRemote =>
         let w := ByName (Py.replace ".en" "" name) (Wisprtux.MODELS_DIR h) in
         whisper_loads tr = [(w, d)]
         /\ (ok = true <-> whisper_load h w d = None)
         /\ (ok = true ->
             Wisprtux._model e' = Some {| model_weights := w; model_device := d |})
     | UnavailableOffline =>
         whisper_loads tr = [] /\ ok = false /\ e' = e
         /\ tr = Wisprtux._emit_status e "Loading model..."
                 ++ Wisprtux._emit_status e "Model not available offline"
     end)
  /\ (path_exists h local_path = true \/ Wisprtux._offline e = true ->
      forall size root d, (ByName size root, d) ∉ whisper_loads tr).
Proof.
  intros name local_path e' tr ok. subst e' tr ok.
  unfold Wisprtux._load_model. fold name. fold (local_weights_path h name).
  fold local_path. split.
  - intros c ->. unfold policy. fold (device_of c).
    destruct (path_exists h local_path).
    + destruct (whisper_load h (LocalFile local_path) (device_of c)); simpl;
        loads_of_trace; repeat split; done.
    + destruct (Wisprtux._offline e); simpl.
      * loads_of_trace. done.
      * destruct (whisper_load h _ (device_of c)); simpl;
          loads_of_trace; repeat split; done.
  - intros Hor size root d.
    destruct (torch_cuda h) as [exc | c]; simpl.
    { loads_of_trace. apply not_elem_of_nil. }
    fold (device_of c).
    destruct (path_exists h local_path).
    + destruct (whisper_load h (LocalFile local_path) (device_of c)); simpl;
        loads_of_trace; rewrite list_elem_of_singleton; congruence.
    + destruct Hor as [Hex | Hoff]; [done |]. rewrite Hoff. simpl.
      loads_of_trace. apply not_elem_of_nil.
Qed.

(** C5 on three engines: offline with tiny.en cached (loaded from the
    file), online with nothing cached (fetched by name), offline with
    nothing cached (refused without any whisper call). *)
Lemma C5_witness_three_branches :
  whisper_loads (snd (fst (Wisprtux._load_model tiny_cached_host
                             (Wisprtux.set_offline true Wisprtux.__init__))))
  = [(LocalFile "/opt/wisprtux/models/tiny.en.pt", cpu)]
  /\ whisper_loads (snd (fst (Wisprtux._load_model bare_host Wisprtux.__init__)))
     = [(ByName "tiny" "/opt/wisprtux/models", cpu)]
  /\ (whisper_loads (snd (fst (Wisprtux._load_model bare_host
                                 (Wisprtux.set_offline true listening)))) = []
      /\ snd (Wisprtux._load_model bare_host (Wisprtux.set_offline true listening))
         = false
      /\ fst (fst (Wisprtux._load_model bare_host (Wisprtux.set_offline true listening)))
         = Wisprtux.set_offline true listening
      /\ snd (fst (Wisprtux._load_model bare_host (Wisprtux.set_offline true listening)))
         = [StatusCb 1 "Loading model..."; StatusCb 1 "Model not available offline"]).
Proof.
  split; [| split].
  - exact (proj1 (proj1 (C5_load_policy tiny_cached_host
                           (Wisprtux.set_offline true Wisprtux.__init__))
                    false eq_refl)).
  - exact (proj1 (proj1 (C5_load_policy bare_host Wisprtux.__init__) false eq_refl)).
  - exact (proj1 (C5_load_policy bare_host (Wisprtux.set_offline true listening))
             false eq_refl).
Defined.

Lemma unknown_model_lookup (name : string) :
  name ∉ known_models -> Wisprtux.MODEL_FILES !! name = None.
Proof.
  unfold known_models. rewrite !not_elem_of_cons.
  intros (H1 & H2 & H3 & H4 & H5 & _).
  unfold Wisprtux.MODEL_FILES.
  rewrite !lookup_insert_ne by done. by rewrite lookup_singleton_ne.
Qed.

Lemma known_model_lookup (name : string) :
  name ∈ known_models <-> is_Some (Wisprtux.MODEL_FILES !! name).
Proof.
  split.
  - unfold known_models. rewrite !elem_of_cons.
    intros [-> | [-> | [-> | [-> | [-> | H]]]]]; try (by eexists).
    by apply elem_of_nil in H.
  - intros [f Hf]. destruct (decide (name ∈ known_models)) as [| Hno]; [done |].
    rewrite unknown_model_lookup in Hf by done. discriminate.
Qed.

(** C9.  The known model names are the keys of [MODEL_FILES].  For a model
    name that is none of them the local weights path is the path of
    [tiny.en.pt] in the models directory, the one of the model "tiny.en";
    so when that file exists (and torch and whisper do not raise),
    [_load_model] loads the tiny.en weights from it, stores the model,
    reports "Loading model..." and "Model loaded" and returns [True]. *)
Theorem C9_unknown_model_loads_tiny (h : Host) (e : Wisprtux.Engine)
    (cuda_available : bool) :
  Wisprtux._model_name e ∉ known_models ->
  let tiny_path := Py.join (Wisprtux.MODELS_DIR h) "tiny.en.pt" in
  let tiny := {| model_weights := LocalFile tiny_path;
                 model_device := device_of cuda_available |} in
  (forall name, name ∈ known_models <-> is_Some (Wisprtux.MODEL_FILES !! name))
  /\ local_weights_path h (Wisprtux._model_name e) = tiny_path
  /\ local_weights_path h "tiny.en" = tiny_path
  /\ (path_exists h tiny_path = true ->
      torch_cuda h = inr cuda_available ->
      whisper_load h (LocalFile tiny_path) (device_of cuda_available) = None ->
      Wisprtux._load_model h e
      = (Wisprtux.with_model (Some tiny) e,
         Wisprtux._emit_status e "Loading model..."
           ++ [WhisperLoad (LocalFile tiny_path) (device_of cuda_available)]
           ++ Wisprtux._emit_status e "Model loaded",
         true)).
Proof.
  intros Hname tiny_path tiny.
  split; [exact known_model_lookup |].
  assert (local_weights_path h (Wisprtux._model_name e) = tiny_path) as Hpath
    by (unfold local_weights_path; by rewrite unknown_model_lookup).
  split; [exact Hpath |]. split; [reflexivity |].
  intros Hex Hcuda Hload. unfold Wisprtux._load_model.
  fold (local_weights_path h (Wisprtux._model_name e)).
  rewrite Hpath, Hcuda, Hex. fold (device_of cuda_available). by rewrite Hload.
Qed.

(** C9 for the model name "huge" with tiny.en cached. *)
Lemma C9_witness_huge :
  ("huge" ∉ known_models)
  /\ Wisprtux._load_model tiny_cached_host (Wisprtux.set_model "huge" listening)
     = (Wisprtux.with_model
          (Some {| model_weights := LocalFile "/opt/wisprtux/models/tiny.en.pt";
                   model_device := cpu |})
          (Wisprtux.set_model "huge" listening),
        [StatusCb 1 "Loading model...";
         WhisperLoad (LocalFile "/opt/wisprtux/models/tiny.en.pt") cpu;
         StatusCb 1 "Model loaded"],
        true).
Proof.
  assert ("huge" ∉ known_models) as Hno.
  { unfold known_models. rewrite !not_elem_of_cons.
    repeat split; try discriminate. apply not_elem_of_nil. }
  split; [exact Hno |].
  exact (proj2 (proj2 (proj2
           (C9_unknown_model_loads_tiny tiny_cached_host
              (Wisprtux.set_model "huge" listening) false Hno)))
           eq_refl eq_refl eq_refl).
Defined.

(** ** Errors inside the loop *)

(** C6.  A frame read that raises leaves the locals as they are, calls no
    listener, and the loop goes on with the next read.  An inference call
    that raises makes the text of its cycle empty: the listeners only get
    the two status texts "Transcribing..." and "Recording...", no
    transcript event is emitted, the window keeps every frame including
    the new one, [prev_text] and the repeat counter are untouched, and the
    loop goes on with the next read.  In both cases the body ends at the
    next test of the stop event, not by an exception. *)
Theorem C6_read_and_inference_errors_absorbed (h : Host) (e : Wisprtux.Engine)
    (s : Locals) :
  Wisprtux.loop_body h e s ReadRaises = ([], Next s)
  /\ (forall rest,
        Wisprtux.run_loop h e s (ReadRaises :: rest) = Wisprtux.run_loop h e s rest)
  /\ (forall data samples,
        7 <= chunk_count s + 1 ->
        Py.frombuffer_int16 (concat (window s ++ [data])) = Some samples ->
        transcribe h (cycles s) (Py.normalize samples) = InferRaises ->
        let tr := Wisprtux._emit_status e "Transcribing..."
                  ++ [Transcribe (Py.normalize samples)]
                  ++ Wisprtux._emit_status e "Recording..." in
        heard h s samples = ""
        /\ Wisprtux.loop_body h e s (ReadOk data) = (tr, Next (at_cycle s data))
        /\ forall rest,
             Wisprtux.run_loop h e s (ReadOk data :: rest)
             = (tr ++ fst (Wisprtux.run_loop h e (at_cycle s data) rest),
                snd (Wisprtux.run_loop h e (at_cycle s data) rest))).
Proof.
  split; [reflexivity |]. split.
  { intros rest. simpl. by destruct (Wisprtux.run_loop h e s rest). }
  intros data samples Hge Hbuf Hraise tr.
  assert (heard h s samples = "") as Hheard by (unfold heard; by rewrite Hraise).
  assert (Wisprtux.loop_body h e s (ReadOk data) = (tr, Next (at_cycle s data)))
    as Hbody.
  { rewrite (loop_body_cycle h e s data samples Hge Hbuf), Hheard. done. }
  split; [exact Hheard |]. split; [exact Hbody |].
  intros rest. cbn [Wisprtux.run_loop]. rewrite Hbody.
  by destruct (Wisprtux.run_loop h e (at_cycle s data) rest).
Qed.

(** C6 at the seventh frame of a session whose model raises. *)
Lemma C6_witness_deaf_model :
  Wisprtux.loop_body deaf_host listening six_frames_in (ReadOk frame)
  = ([StatusCb 1 "Transcribing...";
      Transcribe (Py.normalize (concat (replicate 7 [1; -1]%Z)));
      StatusCb 1 "Recording..."],
     Next (at_cycle six_frames_in frame))
  /\ window (at_cycle six_frames_in frame) = replicate 7 frame.
Proof.
  split; [| reflexivity].
  exact (proj1 (proj2
           (proj2 (proj2 (C6_read_and_inference_errors_absorbed
                            deaf_host listening six_frames_in))
              frame (concat (replicate 7 [1; -1]%Z))
              (le_n 7) eq_refl eq_refl))).
Defined.

(** ** Output routing *)

(** Whatever [focus_window] returns, [_route_final_text] goes on to
    [type_text]. *)
Lemma route_types_whatever_focus (h : Host) (e : Wisprtux.Engine)
    (w : WindowTracker.WindowSnapshot) (text : string) :
  text <> "" ->
  Wisprtux._auto_type e = true ->
  Wisprtux._origin_window e = Some w ->
  WindowTracker.valid w = true ->
  nul_id (WindowTracker.window_id w) = false ->
  type_call text ∈ snd (Wisprtux._route_final_text h e text).
Proof.
  intros Ht Hty Hw Hv Hid. apply truthy_true in Ht.
  rewrite route_calls. unfold types_text. rewrite Ht, Hty, Hw, Hv, Hid. simpl.
  rewrite !elem_of_app. right. right. apply list_elem_of_here.
Qed.

(** C7 fails on the code.  With [auto_type] set and a valid captured window
    whose focus cannot be restored, [focus_window] returns [False] and
    [_route_final_text] types the text all the same, into whatever window
    has the focus; [WindowSnapshot.restore_and_type] stops after the failed
    focus. *)
Theorem C7_types_although_focus_failed :
  WindowTracker.valid editor_window = true
  /\ fst (WindowTracker.focus_window closed_window_host (Some "123"))
     = Py.Returns false
  /\ Wisprtux._route_final_text closed_window_host (routing_engine false true) "hi"
     = (Py.Returns tt, [focus_call "123"; type_call "hi"])
  /\ fst (WindowTracker.type_text closed_window_host "hi") = Py.Returns true
  /\ WindowTracker.restore_and_type closed_window_host editor_window "hi"
     = (Py.Returns false, [focus_call "123"]).
Proof. repeat split. Qed.

Lemma set_clipboard_from_calls (h : Host) (text : string) (cmds : list (list string)) :
  forall a, a ∈ snd (WindowTracker.set_clipboard_from h cmds text) ->
            exists cmd, cmd ∈ cmds /\ a = Subprocess cmd (Some text).
Proof.
  induction cmds as [| cmd rest IH]; simpl; intros a Ha.
  { by apply elem_of_nil in Ha. }
  assert (forall b, b ∈ snd (WindowTracker.set_clipboard_from h rest text) ->
                    exists c, c ∈ cmd :: rest /\ b = Subprocess c (Some text)) as IH'.
  { intros b Hb. destruct (IH b Hb) as (c & Hc & ->).
    exists c. split; [by apply list_elem_of_further | done]. }
  assert (exists c, c ∈ cmd :: rest /\ Subprocess cmd (Some text) = Subprocess c (Some text))
    as Hhere by (exists cmd; split; [apply list_elem_of_here | done]).
  unfold WindowTracker.try_clipboard_tool in Ha.
  destruct (which h _).
  - destruct (subprocess_run h cmd (Some text)) as [[| rc | rc] out |];
      destruct (WindowTracker.set_clipboard_from h rest text) as [b tr'];
      simpl in *;
      repeat match goal with
             | H : _ ∈ _ :: _ |- _ => apply elem_of_cons in H as [-> | H]
             | H : _ ∈ [] |- _ => by apply elem_of_nil in H
             end; auto.
  - destruct (WindowTracker.set_clipboard_from h rest text) as [b tr']. auto.
Qed.

Lemma set_clipboard_from_ext (h h' : Host) (text : string) (cmds : list (list string)) :
  (forall tool, which h' tool = which h tool) ->
  (forall cmd, subprocess_run h' cmd (Some text) = subprocess_run h cmd (Some text)) ->
  WindowTracker.set_clipboard_from h' cmds text
  = WindowTracker.set_clipboard_from h cmds text.
Proof.
  intros Hwhich Hrun. induction cmds as [| cmd rest IH]; simpl; [done |].
  unfold WindowTracker.try_clipboard_tool. by rewrite Hwhich, Hrun, IH.
Qed.

Lemma clipboard_is_not_typing (text : string) (a : action) :
  is_clipboard text a -> is_typing a = false.
Proof.
  intros (cmd & Hcmd & ->). unfold clipboard_tools in Hcmd.
  rewrite !elem_of_cons in Hcmd.
  destruct Hcmd as [-> | [-> | H]]; [done | done | by apply elem_of_nil in H].
Qed.

(** C8.  With [auto_clipboard] set and [auto_type] clear, routing a text
    does what [set_clipboard] does and nothing else, and returns: every
    call is a clipboard tool fed the text, none is an [xdotool] call,
    whatever window was captured.  In general the calls of
    [_route_final_text] are those it makes with typing switched off
    followed by those it makes with the clipboard switched off; the former
    are clipboard calls and depend on the host only through the clipboard
    tools, the latter are [xdotool] calls and are, as is the way the
    typing path ends, the same on every host.  So neither switching one
    path off nor any failure of its tools changes what the other path
    does. *)
Theorem C8_clipboard_and_typing_independent (h : Host) (e : Wisprtux.Engine)
    (text : string) :
  (Wisprtux._auto_clipboard e = true -> Wisprtux._auto_type e = false ->
   Wisprtux._route_final_text h e text
   = (Py.Returns tt,
      if Py.truthy text then snd (WindowTracker.set_clipboard h text) else [])
   /\ forall a, a ∈ snd (Wisprtux._route_final_text h e text) ->
                is_typing a = false /\ is_clipboard text a)
  /\ snd (Wisprtux._route_final_text h e text)
     = snd (Wisprtux._route_final_text h (Wisprtux.set_auto_type false e) text)
       ++ snd (Wisprtux._route_final_text h (Wisprtux.set_auto_clipboard false e) text)
  /\ (forall a,
        a ∈ snd (Wisprtux._route_final_text h (Wisprtux.set_auto_type false e) text) ->
        is_clipboard text a)
  /\ (forall a,
        a ∈ snd (Wisprtux._route_final_text h (Wisprtux.set_auto_clipboard false e)
                   text) ->
        is_typing a = true)
  /\ (forall h',
        Wisprtux._route_final_text h' (Wisprtux.set_auto_clipboard false e) text
        = Wisprtux._route_final_text h (Wisprtux.set_auto_clipboard false e) text)
  /\ (forall h',
        (forall tool, which h' tool = which h tool) ->
        (forall cmd, subprocess_run h' cmd (Some text)
                     = subprocess_run h cmd (Some text)) ->
        Wisprtux._route_final_text h' (Wisprtux.set_auto_type false e) text
        = Wisprtux._route_final_text h (Wisprtux.set_auto_type false e) text).
Proof.
  assert (forall h0 e0,
            Wisprtux._route_final_text h0 e0 text
            = (fst (Wisprtux._route_final_text h0 e0 text),
               snd (Wisprtux._route_final_text h0 e0 text))) as Hpair
    by (intros; apply surjective_pairing).
  assert (forall h0 e0, Wisprtux._auto_type e0 = false ->
            Wisprtux._route_final_text h0 e0 text
            = (Py.Returns tt,
               if Py.truthy text && Wisprtux._auto_clipboard e0
               then snd (WindowTracker.set_clipboard h0 text) else [])) as Hoff.
  { intros h0 e0 Hty. rewrite (Hpair h0 e0), route_end, route_calls.
    unfold route_raises, types_text. rewrite Hty.
    destruct (Wisprtux._origin_window e0); rewrite ?andb_false_r;
      by rewrite app_nil_r. }
  assert (forall a,
            a ∈ snd (Wisprtux._route_final_text h (Wisprtux.set_auto_type false e) text) ->
            is_clipboard text a) as Hclip.
  { intros a. rewrite (Hoff h (Wisprtux.set_auto_type false e) eq_refl). cbn [snd].
    destruct (_ && _); [apply set_clipboard_from_calls |].
    intros Ha. by apply elem_of_nil in Ha. }
  split; [| split; [| split; [exact Hclip | split; [| split]]]].
  - intros Hcl Hty. split.
    + rewrite (Hoff h e Hty), Hcl. by rewrite andb_true_r.
    + intros a Ha.
      assert (is_clipboard text a) as Hc.
      { apply Hclip. rewrite (Hoff h (Wisprtux.set_auto_type false e) eq_refl).
        by rewrite (Hoff h e Hty) in Ha. }
      split; [by eapply clipboard_is_not_typing | done].
  - rewrite (Hoff h (Wisprtux.set_auto_type false e) eq_refl). cbn [snd].
    rewrite !route_calls. unfold types_text. simpl.
    by rewrite andb_false_r.
  - intros a. rewrite route_calls. unfold types_text. simpl.
    rewrite andb_false_r. simpl.
    destruct (Wisprtux._origin_window e) as [w |];
      [| intros Ha; by apply elem_of_nil in Ha].
    destruct (Py.truthy text && _) eqn:Hty;
      [| intros Ha; by apply elem_of_nil in Ha].
    rewrite focus_window_trace.
    destruct (WindowTracker.window_id w) as [wid |]; [destruct (Py.truthy wid) |];
      destruct (nul_id _); simpl; intros Ha;
      repeat match goal with
             | H : _ ∈ _ :: _ |- _ => apply elem_of_cons in H as [-> | H]
             | H : _ ∈ [] |- _ => by apply elem_of_nil in H
             end; done.
  - intros h'. rewrite (Hpair h'), (Hpair h), !route_end, !route_calls.
    f_equal. simpl. rewrite !andb_false_r. simpl.
    destruct (Wisprtux._origin_window e) as [w |]; [| done].
    by rewrite !focus_window_trace.
  - intros h' Hwhich Hrun.
    rewrite (Hoff h' (Wisprtux.set_auto_type false e) eq_refl),
      (Hoff h (Wisprtux.set_auto_type false e) eq_refl).
    unfold WindowTracker.set_clipboard.
    by rewrite (set_clipboard_from_ext h h' text _ Hwhich Hrun).
Qed.

(** C8 on an engine that captured a valid window, with only the clipboard
    switched on: [xclip] is missing, [xsel] gets the text, nothing is typed. *)
Lemma C8_witness_clipboard_only :
  Wisprtux._route_final_text closed_window_host (routing_engine true false) "hi"
  = (Py.Returns tt, [Subprocess ["xsel"; "--clipboard"; "--input"] (Some "hi")])
  /\ (forall a,
        a ∈ snd (Wisprtux._route_final_text closed_window_host
                   (routing_engine true false) "hi") ->
        is_typing a = false /\ is_clipboard "hi" a)
  /\ snd (Wisprtux._route_final_text closed_window_host (routing_engine true true) "hi")
     = [Subprocess ["xsel"; "--clipboard"; "--input"] (Some "hi");
        focus_call "123"; type_call "hi"].
Proof.
  pose proof (C8_clipboard_and_typing_independent closed_window_host
                (routing_engine true false) "hi") as (Hfirst & _).
  destruct (Hfirst eq_refl eq_refl) as (Heq & Hall).
  split; [exact Heq |]. split; [exact Hall |].
  exact (proj1 (proj2 (C8_clipboard_and_typing_independent closed_window_host
                         (routing_engine true true) "hi"))).
Defined.

(** ** The two engine versions *)

Lemma forget_emit_status (e : Wisprtux.Engine) (text : string) :
  Whisperflow._emit_status (forget e) text = Wisprtux._emit_status e text.
Proof. reflexivity. Qed.

Lemma forget_emit_transcript (e : Wisprtux.Engine) (ev : TranscriptEvent) :
  Whisperflow._emit_transcript (forget e) ev = Wisprtux._emit_transcript e ev.
Proof. reflexivity. Qed.

Lemma without_routing_app (a b : list action) :
  without_routing (a ++ b) = without_routing a ++ without_routing b.
Proof. apply filter_app. Qed.

Lemma without_routing_status (e : Wisprtux.Engine) (text : string) :
  without_routing (Wisprtux._emit_status e text) = Wisprtux._emit_status e text.
Proof. unfold Wisprtux._emit_status. by destruct (Wisprtux._status_cb e). Qed.

Lemma without_routing_transcript (e : Wisprtux.Engine) (ev : TranscriptEvent) :
  without_routing (Wisprtux._emit_transcript e ev) = Wisprtux._emit_transcript e ev.
Proof. unfold Wisprtux._emit_transcript. by destruct (Wisprtux._transcript_cb e). Qed.

Lemma without_routing_routing (tr : list action) :
  Forall (fun a => is_routing a = true) tr -> without_routing tr = [].
Proof.
  induction 1 as [| a tr Ha _ IH]; [done |].
  unfold without_routing. rewrite filter_cons_False by congruence. exact IH.
Qed.

Ltac drop_routing :=
  repeat (progress (rewrite ?without_routing_app, ?without_routing_status,
                      ?without_routing_transcript; simpl)).

(** An iteration of the two versions on the same read: either they record
    the same but for the routing calls and end the same way, or the
    routing of a final text raises, which leaves the [wisprtux] loop where
    the [whisperflow] loop sets the status back and goes on. *)
Lemma loop_body_agrees (h : Host) (e : Wisprtux.Engine) (s : Locals)
    (r : read_result) :
  Whisperflow.loop_body h (forget e) s r
  = (without_routing (fst (Wisprtux.loop_body h e s r)),
     snd (Wisprtux.loop_body h e s r))
  \/ exists n arr s',
       fst (Wisprtux._route_final_text h e (cycle_text (transcribe h n arr)))
       <> Py.Returns tt
       /\ snd (Wisprtux.loop_body h e s r) = Raised "embedded null byte"
       /\ Whisperflow.loop_body h (forget e) s r
          = (without_routing (fst (Wisprtux.loop_body h e s r))
               ++ Wisprtux._emit_status e "Recording...",
             Next s').
Proof.
  destruct r as [data |]; [| by left].
  unfold Whisperflow.loop_body, Wisprtux.loop_body.
  change Whisperflow.chunks_per_interval with Wisprtux.chunks_per_interval.
  change Whisperflow.classify with Wisprtux.classify.
  rewrite !forget_emit_status.
  destruct (_ && _); [| by left].
  destruct (Py.frombuffer_int16 _) as [samples |]; cbn [fst snd];
    [| left; by rewrite without_routing_status].
  remember (cycle_text (transcribe h (cycles s) (Py.normalize samples))) as text
    eqn:Htext.
  destruct (Wisprtux.classify _ text) as [s2 [ev |]]; cbn [fst snd].
  - rewrite forget_emit_transcript. destruct (is_partial ev).
    + left. cbn [fst snd]. by drop_routing.
    + pose proof (route_routing h e text) as Hroute.
      pose proof (route_end h e text) as Hend.
      destruct (Wisprtux._route_final_text h e text) as [[[] | exc] tr_route] eqn:Hr;
        cbn [fst snd] in *.
      * left. drop_routing. by rewrite (without_routing_routing _ Hroute).
      * right. exists (cycles s), (Py.normalize samples), s2.
        rewrite <- Htext, Hr. cbn [fst snd]. split; [done |].
        split; [destruct (route_raises e text); congruence |].
        drop_routing. rewrite (without_routing_routing _ Hroute), app_nil_r.
        by rewrite <- !app_assoc.
  - left. by drop_routing.
Qed.

(** A session of the two versions on the same reads: what [wisprtux]
    records, its routing calls apart, [whisperflow] records too, first;
    and they record the same and end the same way when no routing
    raises. *)
Lemma run_loop_agrees (h : Host) (e : Wisprtux.Engine) (reads : list read_result) :
  forall s,
    without_routing (fst (Wisprtux.run_loop h e s reads))
      `prefix_of` fst (Whisperflow.run_loop h (forget e) s reads)
    /\ (routes_quietly h e ->
        Whisperflow.run_loop h (forget e) s reads
        = (without_routing (fst (Wisprtux.run_loop h e s reads)),
           snd (Wisprtux.run_loop h e s reads))).
Proof.
  induction reads as [| r rest IH]; intros s; [by split |].
  cbn [Whisperflow.run_loop Wisprtux.run_loop].
  destruct (loop_body_agrees h e s r) as [-> | (n & arr & s' & Hraise & Hend & ->)].
  - destruct (Wisprtux.loop_body h e s r) as [tr [s1 | exc]]; cbn [fst snd];
      [| by split].
    destruct (IH s1) as (Hpre & Heq).
    destruct (Wisprtux.run_loop h e s1 rest) as [tr' fin].
    destruct (Whisperflow.run_loop h (forget e) s1 rest) as [tr'' fin'].
    cbn [fst snd] in *. rewrite without_routing_app. split.
    + by apply prefix_app.
    + intros Hquiet. specialize (Heq Hquiet). by inversion Heq.
  - destruct (Wisprtux.loop_body h e s r) as [tr [s1 | exc]]; cbn [fst snd] in *;
      [discriminate |].
    destruct (Whisperflow.run_loop h (forget e) s' rest) as [tr'' fin']. cbn [fst].
    split.
    + rewrite <- app_assoc. by apply prefix_app_r.
    + intros Hquiet. by specialize (Hquiet n arr).
Qed.

Lemma load_model_agrees (h : Host) (e : Wisprtux.Engine) :
  Whisperflow._load_model h (forget e)
  = (forget (fst (fst (Wisprtux._load_model h e))),
     snd (fst (Wisprtux._load_model h e)),
     snd (Wisprtux._load_model h e)).
Proof.
  unfold Whisperflow._load_model, Wisprtux._load_model.
  change Whisperflow.MODEL_FILES with Wisprtux.MODEL_FILES.
  change (Whisperflow.MODELS_DIR h) with (Wisprtux.MODELS_DIR h).
  rewrite !forget_emit_status.
  change (Whisperflow._model_name (forget e)) with (Wisprtux._model_name e).
  change (Whisperflow._offline (forget e)) with (Wisprtux._offline e).
  destruct (torch_cuda h) as [exc | c]; [reflexivity |].
  destruct (path_exists h _).
  - destruct (whisper_load h _ _); reflexivity.
  - destruct (Wisprtux._offline e); simpl; [reflexivity |].
    destruct (whisper_load h _ _); reflexivity.
Qed.

Lemma load_model_keeps (h : Host) (e : Wisprtux.Engine) :
  let e1 := fst (fst (Wisprtux._load_model h e)) in
  Wisprtux._status_cb e1 = Wisprtux._status_cb e
  /\ Wisprtux._transcript_cb e1 = Wisprtux._transcript_cb e
  /\ (forall text, Wisprtux._route_final_text h e1 text
                   = Wisprtux._route_final_text h e text).
Proof.
  unfold Wisprtux._load_model.
  destruct (torch_cuda h) as [exc | c]; [done |].
  destruct (path_exists h _).
  - destruct (whisper_load h _ _); done.
  - destruct (Wisprtux._offline e); simpl; [done |].
    destruct (whisper_load h _ _); done.
Qed.

Lemma load_model_trace (h : Host) (e : Wisprtux.Engine) :
  let tr := snd (fst (Wisprtux._load_model h e)) in
  without_routing tr = tr /\ routing_only tr = [] /\ final_texts tr = [].
Proof.
  unfold Wisprtux._load_model, Wisprtux._emit_status.
  destruct (Wisprtux._status_cb e);
    (destruct (torch_cuda h) as [exc | c]; [done |]);
    (destruct (path_exists h _);
     [destruct (whisper_load h _ _); done |]);
    (destruct (Wisprtux._offline e); simpl; [done |]);
    destruct (whisper_load h _ _); done.
Qed.

Lemma routing_only_app (a b : list action) :
  routing_only (a ++ b) = routing_only a ++ routing_only b.
Proof. apply filter_app. Qed.

Lemma routing_only_status (e : Wisprtux.Engine) (text : string) :
  routing_only (Wisprtux._emit_status e text) = [].
Proof. unfold Wisprtux._emit_status. by destruct (Wisprtux._status_cb e). Qed.

Lemma routing_only_transcript (e : Wisprtux.Engine) (ev : TranscriptEvent) :
  routing_only (Wisprtux._emit_transcript e ev) = [].
Proof. unfold Wisprtux._emit_transcript. by destruct (Wisprtux._transcript_cb e). Qed.

Lemma routing_only_routing (tr : list action) :
  Forall (fun a => is_routing a = true) tr -> routing_only tr = tr.
Proof.
  induction 1 as [| a tr Ha _ IH]; [done |].
  unfold routing_only. rewrite filter_cons_True by done. f_equal. exact IH.
Qed.

Lemma routing_only_without (tr : list action) :
  routing_only (without_routing tr) = [].
Proof.
  induction tr as [| a tr IH]; [done |].
  unfold without_routing. destruct (is_routing a) eqn:Ha.
  - rewrite filter_cons_False by congruence. exact IH.
  - rewrite filter_cons_True by done. unfold routing_only.
    rewrite filter_cons_False by congruence. exact IH.
Qed.

Lemma transcript_events_app (a b : list action) :
  transcript_events (a ++ b) = transcript_events a ++ transcript_events b.
Proof. apply omap_app. Qed.

Lemma transcript_events_status (e : Wisprtux.Engine) (text : string) :
  transcript_events (Wisprtux._emit_status e text) = [].
Proof. unfold Wisprtux._emit_status. by destruct (Wisprtux._status_cb e). Qed.

Lemma transcript_events_without (tr : list action) :
  transcript_events (without_routing tr) = transcript_events tr.
Proof.
  induction tr as [| a tr IH]; [done |].
  unfold without_routing. destruct (is_routing a) eqn:Ha.
  - rewrite filter_cons_False by congruence.
    destruct a; try discriminate. exact IH.
  - rewrite filter_cons_True by done.
    destruct a; simpl; try exact IH. f_equal. exact IH.
Qed.

(** With a transcript listener connected, the routing calls of an
    iteration are those of [_route_final_text] on the final text it
    emitted, if any. *)
Lemma loop_body_routes_finals (h : Host) (e : Wisprtux.Engine) (cb : listener)
    (s : Locals) (r : read_result) :
  Wisprtux._transcript_cb e = Some cb ->
  routing_only (fst (Wisprtux.loop_body h e s r))
  = concat (map (fun text => snd (Wisprtux._route_final_text h e text))
              (final_texts (fst (Wisprtux.loop_body h e s r)))).
Proof.
  intros Hcb. destruct r as [data |]; [| reflexivity].
  destruct (decide (7 <= chunk_count s + 1)) as [Hge | Hlt];
    [| by rewrite loop_body_accumulates by lia].
  destruct (Py.frombuffer_int16 (concat (window s ++ [data])))
    as [samples |] eqn:Hbuf.
  - rewrite (final_texts_cycle h e cb s data samples Hcb Hge Hbuf).
    rewrite (loop_body_cycle_trace h e s data samples Hge Hbuf).
    generalize (heard h s samples) as text. intros text.
    assert (forall b : bool,
              routing_only (if b then [] else Wisprtux._emit_status e "Recording...")
              = []) as Htail
      by (intros []; [done | apply routing_only_status]).
    rewrite !routing_only_app, routing_only_status, Htail, app_nil_r. cbn [app].
    unfold routing_only at 1. rewrite filter_cons_False by done. simpl.
    destruct (decide (text = "")) as [Ht | Ht]; [by rewrite Ht |].
    destruct (classify_cases (at_cycle s data) text Ht)
      as [(_ & ->) | [(_ & _ & ->) | (_ & _ & ->)]]; simpl;
      rewrite ?routing_only_app, ?routing_only_transcript; simpl; try done.
    rewrite app_nil_r. apply routing_only_routing, route_routing.
  - rewrite loop_body_bad_buffer by done. simpl.
    by rewrite routing_only_status, final_texts_status.
Qed.

Lemma run_loop_routes_finals (h : Host) (e : Wisprtux.Engine) (cb : listener)
    (reads : list read_result) :
  Wisprtux._transcript_cb e = Some cb ->
  forall s,
    routing_only (fst (Wisprtux.run_loop h e s reads))
    = concat (map (fun text => snd (Wisprtux._route_final_text h e text))
                (final_texts (fst (Wisprtux.run_loop h e s reads)))).
Proof.
  intros Hcb. induction reads as [| r rest IH]; intros s; [reflexivity |].
  cbn [Wisprtux.run_loop].
  pose proof (loop_body_routes_finals h e cb s r Hcb) as Hbody.
  destruct (Wisprtux.loop_body h e s r) as [tr [s1 | exc]]; simpl in *; [| done].
  specialize (IH s1). destruct (Wisprtux.run_loop h e s1 rest) as [tr' fin].
  simpl in *.
  by rewrite routing_only_app, final_texts_app, map_app, concat_app, Hbody, IH.
Qed.

Lemma capture_agrees (h : Host) (reads : list read_result) (e : Wisprtux.Engine) :
  let new := Wisprtux.capture h reads e in
  let old := Whisperflow.capture h reads (forget e) in
  fst (fst old) = forget (fst (fst new))
  /\ transcript_events (snd (fst new)) `prefix_of` transcript_events (snd (fst old))
  /\ (routes_quietly h e ->
      old = (forget (fst (fst new)), without_routing (snd (fst new)), snd new)).
Proof.
  unfold Whisperflow.capture, Wisprtux.capture.
  rewrite !forget_emit_status.
  destruct (pyaudio_import h); cbn [negb fst snd].
  - destruct (audio_open h) as [exc |]; cbn [fst snd].
    + split; [done |]. split; [done |]. intros _. by drop_routing.
    + destruct (run_loop_agrees h e reads fresh_locals) as (Hpre & Heq).
      destruct (Wisprtux.run_loop h e fresh_locals reads) as [tr_loop fin].
      destruct (Whisperflow.run_loop h (forget e) fresh_locals reads)
        as [tr_old fin_old].
      cbn [fst snd] in *. split; [done |]. split.
      * destruct Hpre as [more ->].
        rewrite !transcript_events_app, !transcript_events_status,
          transcript_events_without.
        cbn. rewrite !app_nil_r. by apply prefix_app_r.
      * intros Hquiet. specialize (Heq Hquiet). inversion Heq. by drop_routing.
  - split; [done |]. split; [done |]. intros _. by drop_routing.
Qed.

Ltac split_trace :=
  repeat (progress (rewrite ?routing_only_app, ?routing_only_status,
                      ?final_texts_app, ?final_texts_status; simpl)).

Lemma capture_routes_finals (h : Host) (e : Wisprtux.Engine) (cb : listener)
    (reads : list read_result) :
  Wisprtux._transcript_cb e = Some cb ->
  routing_only (snd (fst (Wisprtux.capture h reads e)))
  = concat (map (fun text => snd (Wisprtux._route_final_text h e text))
              (final_texts (snd (fst (Wisprtux.capture h reads e))))).
Proof.
  intros Hcb. unfold Wisprtux.capture.
  destruct (pyaudio_import h); cbn [negb fst snd]; [| by split_trace].
  destruct (audio_open h) as [exc |]; cbn [fst snd]; [by split_trace |].
  pose proof (run_loop_routes_finals h e cb reads Hcb fresh_locals) as Hloop.
  destruct (Wisprtux.run_loop h e fresh_locals reads) as [tr_loop fin].
  cbn [fst snd] in *. split_trace.
  change (PyAudioInit :: AudioOpen :: tr_loop
            ++ [StreamStop; StreamClose; AudioTerminate]
            ++ Wisprtux._emit_status e "Ready")
    with ([PyAudioInit; AudioOpen] ++ tr_loop
            ++ [StreamStop; StreamClose; AudioTerminate]
            ++ Wisprtux._emit_status e "Ready").
  split_trace. by rewrite !app_nil_r.
Qed.

Lemma worker_loop_agrees (h : Host) (reads : list read_result) (e : Wisprtux.Engine) :
  let new := Wisprtux._worker_loop h reads e in
  let old := Whisperflow._worker_loop h reads (forget e) in
  fst (fst old) = forget (fst (fst new))
  /\ transcript_events (snd (fst new)) `prefix_of` transcript_events (snd (fst old))
  /\ (routes_quietly h e ->
      old = (forget (fst (fst new)), without_routing (snd (fst new)), snd new)).
Proof.
  unfold Whisperflow._worker_loop, Wisprtux._worker_loop.
  change (Whisperflow._model (forget e)) with (Wisprtux._model e).
  destruct (Wisprtux._model e) as [m |]; [apply capture_agrees |].
  rewrite load_model_agrees.
  pose proof (load_model_trace h e) as (Htrl & _).
  pose proof (load_model_keeps h e) as (_ & _ & Hroute).
  destruct (Wisprtux._load_model h e) as [[e1 trl] ok]. cbn [fst snd] in *.
  destruct ok; cbn [negb fst snd]; [| by rewrite Htrl].
  destruct (capture_agrees h reads e1) as (Heng & Hpre & Heq).
  destruct (Wisprtux.capture h reads e1) as [[e2 tr] fin].
  destruct (Whisperflow.capture h reads (forget e1)) as [[e2' tr'] fin'].
  cbn [fst snd] in *. split; [done |]. split.
  - rewrite !transcript_events_app. by apply prefix_app.
  - intros Hquiet.
    assert (routes_quietly h e1) as Hquiet1
      by (intros n arr; rewrite Hroute; apply Hquiet).
    specialize (Heq Hquiet1). inversion Heq.
    by rewrite without_routing_app, Htrl.
Qed.

Lemma worker_routes_finals (h : Host) (reads : list read_result)
    (e : Wisprtux.Engine) (cb : listener) :
  Wisprtux._transcript_cb e = Some cb ->
  routing_only (snd (fst (Wisprtux._worker_loop h reads e)))
  = concat (map (fun text => snd (Wisprtux._route_final_text h e text))
              (final_texts (snd (fst (Wisprtux._worker_loop h reads e))))).
Proof.
  intros Hcb. unfold Wisprtux._worker_loop.
  destruct (Wisprtux._model e) as [m |]; [by apply (capture_routes_finals h e cb) |].
  pose proof (load_model_trace h e) as (_ & Hro & Hfin).
  pose proof (load_model_keeps h e) as (_ & Hcb1 & Hroute).
  destruct (Wisprtux._load_model h e) as [[e1 trl] ok]. cbn [fst snd] in *.
  destruct ok; cbn [negb fst snd]; [| by rewrite Hro, Hfin].
  rewrite Hcb in Hcb1.
  pose proof (capture_routes_finals h e1 cb reads Hcb1) as Hcap.
  destruct (Wisprtux.capture h reads e1) as [[e2 tr] fin]. cbn [fst snd] in *.
  rewrite routing_only_app, final_texts_app, Hro, Hfin, Hcap. simpl.
  f_equal. apply map_ext. intros text. by rewrite Hroute.
Qed.

(** C10 fails on the code.  When the text of a final event holds a NUL and
    the engine types into a window it captured, [type_text] raises, and as
    the call of [_route_final_text] sits in no [try] block the exception
    leaves the [while] loop of [wisprtux]: the worker ends after the final
    event, leaving the engine marked as recording, while the [whisperflow]
    worker, fed the same frames and hearing the same texts, goes on and
    emits the partial event of the fourth cycle. *)
Theorem C10_nul_text_ends_wisprtux_worker :
  let e := routing_engine false true in
  let new := Wisprtux._worker_loop nul_host (frames 28) e in
  let old := Whisperflow._worker_loop nul_host (frames 28) (forget e) in
  transcript_events (snd (fst old))
  = [partial_event hi_nul; partial_event hi_nul; final_event hi_nul;
     partial_event hi_nul]
  /\ snd old = Returned
  /\ transcript_events (snd (fst new))
     = [partial_event hi_nul; partial_event hi_nul; final_event hi_nul]
  /\ snd new = Uncaught "embedded null byte"
  /\ routing_only (snd (fst new)) = [focus_call "123"; type_call hi_nul]
  /\ WindowTracker.type_text nul_host hi_nul
     = (Py.Raises "embedded null byte", [type_call hi_nul])
  /\ Wisprtux._recording (fst (fst new)) = true.
Proof. repeat split; vm_compute; reflexivity. Qed.

(** * Further properties of the engine *)

(** ** What a worker records *)

Lemma filter_none {A} (P : A -> Prop) `{forall x, Decision (P x)} (l : list A) :
  Forall (fun x => ~ P x) l -> filter P l = [].
Proof.
  induction 1 as [| x l Hx _ IH]; [done |].
  by rewrite filter_cons_False.
Qed.

Lemma omap_none {A B} (f : A -> option B) (l : list A) :
  Forall (fun x => f x = None) l -> omap f l = [].
Proof.
  induction 1 as [| x l Hx _ IH]; [done |]. simpl. by rewrite Hx.
Qed.

Lemma emit_status_loop_action (e : Wisprtux.Engine) (text : string) :
  Forall (fun a => is_loop_action a = true) (Wisprtux._emit_status e text).
Proof.
  unfold Wisprtux._emit_status. destruct (Wisprtux._status_cb e); repeat constructor.
Qed.

Lemma emit_transcript_loop_action (e : Wisprtux.Engine) (ev : TranscriptEvent) :
  Forall (fun a => is_loop_action a = true) (Wisprtux._emit_transcript e ev).
Proof.
  unfold Wisprtux._emit_transcript.
  destruct (Wisprtux._transcript_cb e); repeat constructor.
Qed.

Lemma routing_loop_action (tr : list action) :
  Forall (fun a => is_routing a = true) tr ->
  Forall (fun a => is_loop_action a = true) tr.
Proof.
  intros H. eapply Forall_impl; [exact H |]. intros a Ha. destruct a; done.
Qed.

Lemma loop_body_actions (h : Host) (e : Wisprtux.Engine) (s : Locals)
    (r : read_result) :
  Forall (fun a => is_loop_action a = true) (fst (Wisprtux.loop_body h e s r)).
Proof.
  destruct r as [data |]; [| constructor].
  destruct (decide (7 <= chunk_count s + 1)) as [Hge | Hlt];
    [| rewrite loop_body_accumulates by lia; constructor].
  destruct (Py.frombuffer_int16 (concat (window s ++ [data])))
    as [samples |] eqn:Hbuf.
  - rewrite (loop_body_cycle_trace h e s data samples Hge Hbuf).
    repeat apply Forall_app_2; try apply emit_status_loop_action.
    + repeat constructor.
    + destruct (snd (Wisprtux.classify _ _)) as [ev |]; [| constructor].
      apply Forall_app_2; [apply emit_transcript_loop_action |].
      destruct (is_partial ev); [constructor |].
      apply routing_loop_action, route_routing.
    + destruct (cycle_fails e _ _); [constructor | apply emit_status_loop_action].
  - rewrite loop_body_bad_buffer by done. apply emit_status_loop_action.
Qed.

Lemma run_loop_actions (h : Host) (e : Wisprtux.Engine) (reads : list read_result) :
  forall s, Forall (fun a => is_loop_action a = true)
              (fst (Wisprtux.run_loop h e s reads)).
Proof.
  induction reads as [| r rest IH]; intros s; [constructor |].
  cbn [Wisprtux.run_loop].
  pose proof (loop_body_actions h e s r) as Hbody.
  destruct (Wisprtux.loop_body h e s r) as [tr [s1 | exc]]; [| exact Hbody].
  specialize (IH s1). destruct (Wisprtux.run_loop h e s1 rest) as [tr' fin].
  by apply Forall_app_2.
Qed.

Lemma audio_actions_app (a b : list action) :
  audio_actions (a ++ b) = audio_actions a ++ audio_actions b.
Proof. apply filter_app. Qed.

Lemma audio_actions_loop (tr : list action) :
  Forall (fun a => is_loop_action a = true) tr -> audio_actions tr = [].
Proof.
  intros H. apply filter_none. eapply Forall_impl; [exact H |].
  intros a Ha. destruct a; done.
Qed.

Lemma audio_actions_status (e : Wisprtux.Engine) (text : string) :
  audio_actions (Wisprtux._emit_status e text) = [].
Proof. apply audio_actions_loop, emit_status_loop_action. Qed.

Lemma load_model_no_audio (h : Host) (e : Wisprtux.Engine) :
  let tr := snd (fst (Wisprtux._load_model h e)) in
  audio_actions tr = [] /\ transcribed tr = [] /\ transcript_events tr = [].
Proof.
  unfold Wisprtux._load_model, Wisprtux._emit_status.
  destruct (Wisprtux._status_cb e);
    (destruct (torch_cuda h) as [exc | c]; [done |]);
    (destruct (path_exists h _);
     [destruct (whisper_load h _ _); done |]);
    (destruct (Wisprtux._offline e); simpl; [done |]);
    destruct (whisper_load h _ _); done.
Qed.

Ltac audio_of_trace :=
  repeat (progress (rewrite ?audio_actions_app, ?audio_actions_status; simpl)).

Lemma capture_audio (h : Host) (reads : list read_result) (e : Wisprtux.Engine) :
  audio_actions (snd (fst (Wisprtux.capture h reads e)))
  = if pyaudio_import h then
      match audio_open h with
      | None => [PyAudioInit; AudioOpen; StreamStop; StreamClose; AudioTerminate]
      | Some _ => [PyAudioInit; AudioOpen; AudioTerminate]
      end
    else [].
Proof.
  unfold Wisprtux.capture.
  destruct (pyaudio_import h); cbn [negb fst snd]; [| by audio_of_trace].
  destruct (audio_open h) as [exc |]; cbn [fst snd].
  - rewrite !audio_actions_app, !audio_actions_status. done.
  - pose proof (run_loop_actions h e reads fresh_locals) as Hloop.
    apply audio_actions_loop in Hloop.
    destruct (Wisprtux.run_loop h e fresh_locals reads) as [tr_loop fin].
    cbn [fst snd] in *.
    rewrite !audio_actions_app, !audio_actions_status, Hloop. done.
Qed.

(** X1.  The PyAudio calls of a worker are balanced.  A worker that has no
    model or no PyAudio makes none; one whose [audio.open] raises makes
    [PyAudio()], [open], [terminate]; every other worker makes [PyAudio()],
    [open], [stop_stream], [close], [terminate], in this order and once
    each, however its loop ends, by reaching the stop event or by an
    exception leaving it. *)
Theorem worker_audio_calls_balanced (h : Host) (reads : list read_result)
    (e : Wisprtux.Engine) :
  audio_actions (snd (fst (Wisprtux._worker_loop h reads e)))
  = if opens_audio h e then
      match audio_open h with
      | None => [PyAudioInit; AudioOpen; StreamStop; StreamClose; AudioTerminate]
      | Some _ => [PyAudioInit; AudioOpen; AudioTerminate]
      end
    else [].
Proof.
  unfold Wisprtux._worker_loop, opens_audio, has_model.
  destruct (Wisprtux._model e) as [m |]; [apply capture_audio |].
  pose proof (load_model_no_audio h e) as (Hload & _).
  destruct (Wisprtux._load_model h e) as [[e1 trl] ok]. cbn [fst snd] in *.
  destruct ok; cbn [negb andb fst snd]; [| exact Hload].
  pose proof (capture_audio h reads e1) as Hcap.
  destruct (Wisprtux.capture h reads e1) as [[e2 tr] fin]. cbn [fst snd] in *.
  by rewrite audio_actions_app, Hload, Hcap.
Qed.

Lemma whisper_loads_loop (tr : list action) :
  Forall (fun a => is_loop_action a = true) tr -> whisper_loads tr = [].
Proof.
  intros H. apply omap_none. eapply Forall_impl; [exact H |].
  intros a Ha. destruct a; done.
Qed.

Lemma capture_engine (h : Host) (reads : list read_result) (e : Wisprtux.Engine) :
  fst (fst (Wisprtux.capture h reads e))
  = if pyaudio_import h && bool_decide (audio_open h = None) then e
    else Wisprtux.with_recording false e.
Proof.
  unfold Wisprtux.capture.
  destruct (pyaudio_import h); cbn [negb andb]; [| done].
  destruct (audio_open h) as [exc |]; [done |].
  by destruct (Wisprtux.run_loop h e fresh_locals reads).
Qed.

Lemma capture_quiet_without_loop (h : Host) (reads : list read_result)
    (e : Wisprtux.Engine) :
  pyaudio_import h && bool_decide (audio_open h = None) = false ->
  let w := Wisprtux.capture h reads e in
  transcribed (snd (fst w)) = [] /\ transcript_events (snd (fst w)) = []
  /\ snd w = Returned.
Proof.
  unfold Wisprtux.capture, Wisprtux._emit_status.
  destruct (pyaudio_import h); cbn [negb andb].
  - destruct (audio_open h) as [exc |]; [| done].
    intros _. by destruct (Wisprtux._status_cb e).
  - intros _. by destruct (Wisprtux._status_cb e).
Qed.

Lemma capture_no_loads (h : Host) (reads : list read_result) (e : Wisprtux.Engine) :
  whisper_loads (snd (fst (Wisprtux.capture h reads e))) = [].
Proof.
  unfold Wisprtux.capture.
  destruct (pyaudio_import h); cbn [negb fst snd]; [| by loads_of_trace].
  destruct (audio_open h) as [exc |]; cbn [fst snd]; [by loads_of_trace |].
  pose proof (run_loop_actions h e reads fresh_locals) as Hloop.
  apply whisper_loads_loop in Hloop.
  destruct (Wisprtux.run_loop h e fresh_locals reads) as [tr_loop fin].
  cbn [fst snd] in *. rewrite !whisper_loads_app, !whisper_loads_status, Hloop.
  done.
Qed.

Lemma load_model_engine (h : Host) (e : Wisprtux.Engine) :
  let e1 := fst (fst (Wisprtux._load_model h e)) in
  (if snd (Wisprtux._load_model h e)
   then exists m, e1 = Wisprtux.with_model (Some m) e
   else e1 = e)
  /\ length (whisper_loads (snd (fst (Wisprtux._load_model h e)))) <= 1.
Proof.
  unfold Wisprtux._load_model.
  destruct (torch_cuda h) as [exc | c]; cbn [fst snd].
  { split; [done |]. loads_of_trace. lia. }
  destruct (path_exists h _).
  - destruct (whisper_load h _ _); cbn [fst snd];
      (split; [by eauto |]); loads_of_trace; lia.
  - destruct (Wisprtux._offline e); cbn [negb fst snd].
    { split; [done |]. loads_of_trace. lia. }
    destruct (whisper_load h _ _); cbn [fst snd];
      (split; [by eauto |]); loads_of_trace; lia.
Qed.

Ltac same_fields e :=
  unfold Wisprtux.with_model, Wisprtux.with_recording;
  destruct e; simpl in *; congruence.

(** X2.  A worker changes no field of the engine but [_model] and
    [_recording].  It leaves [_recording] as it found it when it entered the
    [while] loop, also when an exception ended that loop, and clears it
    otherwise, that is when the model could not be loaded, PyAudio is
    missing or the input stream could not be opened; in these cases it
    returns without any inference call and without any transcript event. *)
Theorem worker_clears_recording_unless_looped (h : Host) (reads : list read_result)
    (e : Wisprtux.Engine) :
  let w := Wisprtux._worker_loop h reads e in
  let e' := fst (fst w) in
  Wisprtux.with_model (Wisprtux._model e)
    (Wisprtux.with_recording (Wisprtux._recording e) e') = e
  /\ Wisprtux._recording e'
     = (if enters_loop h e then Wisprtux._recording e else false)
  /\ (enters_loop h e = false ->
      transcribed (snd (fst w)) = [] /\ transcript_events (snd (fst w)) = []
      /\ snd w = Returned).
Proof.
  unfold Wisprtux._worker_loop, enters_loop, opens_audio, has_model. cbv zeta.
  destruct (Wisprtux._model e) as [m |] eqn:Hm.
  - rewrite capture_engine. cbn [andb].
    destruct (pyaudio_import h && bool_decide (audio_open h = None)) eqn:Hloop.
    + split; [same_fields e |]. split; [done | done].
    + split; [same_fields e |]. split; [done |].
      intros _. by apply capture_quiet_without_loop.
  - pose proof (load_model_engine h e) as (He1 & _).
    pose proof (load_model_no_audio h e) as (_ & Htr & Hev).
    destruct (Wisprtux._load_model h e) as [[e1 trl] ok]. cbn [fst snd] in *.
    destruct ok; cbn [negb andb fst snd].
    + destruct He1 as [m ->].
      pose proof (capture_engine h reads (Wisprtux.with_model (Some m) e)) as Hcap.
      pose proof (capture_quiet_without_loop h reads (Wisprtux.with_model (Some m) e))
        as Hquiet.
      destruct (Wisprtux.capture h reads _) as [[e2 tr] fin]. cbn [fst snd] in *.
      subst e2.
      destruct (pyaudio_import h && bool_decide (audio_open h = None)) eqn:Hloop.
      * split; [same_fields e |]. split; [done | done].
      * split; [same_fields e |]. split; [done |].
        intros _. destruct (Hquiet eq_refl) as (H1 & H2 & H3).
        unfold transcribed, transcript_events in *.
        rewrite !omap_app, H1, H2, Htr, Hev. done.
    + subst e1. split; [same_fields e |]. split; [done |].
      intros _. done.
Qed.

(** X2 on a machine without PyAudio: the worker of a recording engine
    fetches the model, reports and gives up. *)
Lemma worker_without_pyaudio_witness :
  let h := {| module_file := module_file bare_host;
              path_exists := path_exists bare_host;
              torch_cuda := torch_cuda bare_host;
              whisper_load := whisper_load bare_host;
              pyaudio_import := false;
              audio_open := None;
              transcribe := transcribe bare_host;
              which := which bare_host;
              subprocess_run := subprocess_run bare_host;
              title_error := title_error bare_host |} in
  let w := Wisprtux._worker_loop h (frames 21) (routing_engine true true) in
  enters_loop h (routing_engine true true) = false
  /\ Wisprtux._recording (fst (fst w)) = false
  /\ snd (fst w)
     = [StatusCb 1 "Loading model..."; WhisperLoad (ByName "tiny" "/opt/wisprtux/models") cpu;
        StatusCb 1 "Model loaded"; StatusCb 1 "Recording...";
        StatusCb 1 "PyAudio not installed"]
  /\ transcribed (snd (fst w)) = [] /\ transcript_events (snd (fst w)) = []
  /\ snd w = Returned.
Proof.
  intros h w.
  pose proof (worker_clears_recording_unless_looped h (frames 21)
                (routing_engine true true)) as (_ & Hrec & Hquiet).
  split; [reflexivity |]. split; [exact Hrec |]. split; [reflexivity |].
  exact (Hquiet eq_refl).
Defined.

(** X3.  A worker calls [whisper.load_model] at most once, and not at all
    when the engine holds a model, which it then keeps.  It leaves a model
    in the engine exactly when it got past the loading block, so a worker
    started on an engine left by such a worker loads nothing. *)
Theorem worker_reuses_loaded_model (h : Host) (reads : list read_result)
    (e : Wisprtux.Engine) :
  let w := Wisprtux._worker_loop h reads e in
  let e' := fst (fst w) in
  length (whisper_loads (snd (fst w))) <= 1
  /\ (forall m, Wisprtux._model e = Some m ->
        whisper_loads (snd (fst w)) = [] /\ Wisprtux._model e' = Some m)
  /\ (has_model h e = true <-> Wisprtux._model e' <> None)
  /\ (forall h2 reads2,
        has_model h e = true ->
        whisper_loads (snd (fst (Wisprtux._worker_loop h2 reads2 e'))) = []).
Proof.
  assert (forall h0 reads0 e0 m,
            Wisprtux._model e0 = Some m ->
            whisper_loads (snd (fst (Wisprtux._worker_loop h0 reads0 e0))) = []
            /\ Wisprtux._model (fst (fst (Wisprtux._worker_loop h0 reads0 e0))) = Some m)
    as Hcached.
  { intros h0 reads0 e0 m Hm. unfold Wisprtux._worker_loop. rewrite Hm.
    split; [apply capture_no_loads |]. rewrite capture_engine.
    by destruct (_ && _). }
  assert (has_model h e = true
          <-> Wisprtux._model (fst (fst (Wisprtux._worker_loop h reads e))) <> None)
    as Hiff.
  { unfold has_model. destruct (Wisprtux._model e) as [m |] eqn:Hm.
    - destruct (Hcached h reads e m Hm) as (_ & ->). done.
    - unfold Wisprtux._worker_loop. rewrite Hm.
      pose proof (load_model_engine h e) as (He1 & _).
      destruct (Wisprtux._load_model h e) as [[e1 trl] ok]. cbn [fst snd] in *.
      destruct ok; cbn [negb fst snd].
      + destruct He1 as [m ->].
        pose proof (capture_engine h reads (Wisprtux.with_model (Some m) e)) as Hcap.
        destruct (Wisprtux.capture h reads _) as [[e2 tr] fin]. cbn [fst snd] in *.
        subst e2. by destruct (_ && _).
      + subst e1. simpl. rewrite Hm. split; [discriminate | done]. }
  intros w e'. subst w e'. split; [| split; [| split]].
  - unfold Wisprtux._worker_loop.
    destruct (Wisprtux._model e) as [m |]; [rewrite capture_no_loads; simpl; lia |].
    pose proof (load_model_engine h e) as (_ & Hlen).
    destruct (Wisprtux._load_model h e) as [[e1 trl] ok]. cbn [fst snd] in *.
    destruct ok; cbn [negb fst snd]; [| exact Hlen].
    pose proof (capture_no_loads h reads e1) as Hcap.
    destruct (Wisprtux.capture h reads e1) as [[e2 tr] fin]. cbn [fst snd] in *.
    by rewrite whisper_loads_app, Hcap, app_nil_r.
  - intros m Hm. by apply Hcached.
  - exact Hiff.
  - intros h2 reads2 Hhas. apply Hiff in Hhas.
    destruct (Wisprtux._model (fst (fst (Wisprtux._worker_loop h reads e))))
      as [m |] eqn:Hm; [| done].
    by destruct (Hcached h2 reads2 _ m Hm).
Qed.

(** X3 on two sessions in a row: the first fetches the model, the second,
    on a host where nothing could be fetched, reuses it. *)
Lemma worker_reuses_model_witness :
  let e1 := fst (fst (Wisprtux._worker_loop bare_host (frames 7) listening)) in
  whisper_loads (snd (fst (Wisprtux._worker_loop bare_host (frames 7) listening)))
  = [(ByName "tiny" "/opt/wisprtux/models", cpu)]
  /\ has_model bare_host listening = true
  /\ whisper_loads (snd (fst (Wisprtux._worker_loop deaf_host (frames 7) e1))) = [].
Proof.
  intros e1. split; [reflexivity |]. split; [reflexivity |].
  exact (proj2 (proj2 (proj2 (worker_reuses_loaded_model bare_host (frames 7) listening)))
           deaf_host (frames 7) eq_refl).
Defined.

(** ** The loop over a whole session *)

Lemma list_pair_ind {A} (P : list A -> Prop) :
  P [] -> (forall a, P [a]) -> (forall a b l, P l -> P (a :: b :: l)) ->
  forall l, P l.
Proof.
  intros Hnil Hone Hstep l.
  assert (P l /\ forall a, P (a :: l)) as [H _]; [| exact H].
  induction l as [| b l [IH1 IH2]]; [by split |].
  split; [apply IH2 | intros a; by apply Hstep].
Qed.

Lemma frombuffer_length (buf : list Byte.byte) :
  forall samples,
    Py.frombuffer_int16 buf = Some samples -> 2 * length samples = length buf.
Proof.
  induction buf as [| a | lo hi rest IH] using list_pair_ind;
    intros samples Hbuf; simpl in Hbuf.
  - by inversion Hbuf.
  - discriminate.
  - destruct (Py.frombuffer_int16 rest) as [tail |]; [| discriminate].
    inversion Hbuf. simpl. rewrite <- (IH tail eq_refl). lia.
Qed.

Lemma frombuffer_whole (buf : list Byte.byte) :
  is_Some (Py.frombuffer_int16 buf) <-> whole_samples buf.
Proof.
  unfold whole_samples.
  induction buf as [| a | lo hi rest IH] using list_pair_ind; simpl.
  - split; [done | by eexists].
  - split; [by intros [? ?] | done].
  - rewrite <- IH. destruct (Py.frombuffer_int16 rest); simpl;
      split; intros [? ?]; (by eexists) || done.
Qed.

Lemma whole_samples_concat (w : list (list Byte.byte)) :
  Forall whole_samples w -> whole_samples (concat w).
Proof.
  unfold whole_samples. induction 1 as [| d w Hd _ IH]; [done |].
  simpl. rewrite length_app, Nat.even_add, Hd, IH. done.
Qed.

Lemma classify_frame (s : Locals) (t : string) :
  let s' := fst (Wisprtux.classify s t) in
  chunk_count s' = chunk_count s /\ cycles s' = cycles s
  /\ (window s' = window s \/ window s' = []).
Proof.
  destruct (decide (t = "")) as [-> | Ht]; [simpl; auto |].
  destruct (classify_cases s t Ht)
    as [(_ & ->) | [(_ & _ & ->) | (_ & _ & ->)]]; simpl; auto.
Qed.

Lemma transcribed_cycle (h : Host) (e : Wisprtux.Engine) (s : Locals)
    (data : list Byte.byte) (samples : list Z) :
  7 <= chunk_count s + 1 ->
  Py.frombuffer_int16 (concat (window s ++ [data])) = Some samples ->
  transcribed (fst (Wisprtux.loop_body h e s (ReadOk data)))
  = [Py.normalize samples].
Proof.
  intros Hge Hbuf. rewrite (loop_body_cycle_trace h e s data samples Hge Hbuf).
  assert (forall b : bool,
            transcribed (if b then [] else Wisprtux._emit_status e "Recording...")
            = []) as Htail
    by (intros []; [done | apply transcribed_status]).
  rewrite !transcribed_app, transcribed_status, Htail. simpl. f_equal.
  rewrite app_nil_r. apply omap_none.
  destruct (snd (Wisprtux.classify _ _)) as [ev |]; [| constructor].
  apply Forall_app_2.
  - unfold Wisprtux._emit_transcript.
    destruct (Wisprtux._transcript_cb e); repeat constructor.
  - destruct (is_partial ev); [constructor |].
    eapply Forall_impl; [apply route_routing |]. intros a Ha. by destruct a.
Qed.

#[local] Arguments Nat.div : simpl never.
#[local] Arguments Nat.modulo : simpl never.

(** When no routing raises, no cycle is left by the routing. *)
Lemma quiet_cycle (h : Host) (e : Wisprtux.Engine) :
  routes_quietly h e ->
  forall s0 s samples, cycle_fails e s0 (heard h s samples) = false.
Proof.
  intros Hquiet s0 s samples. unfold cycle_fails, heard.
  specialize (Hquiet (cycles s) (Py.normalize samples)).
  rewrite route_end in Hquiet.
  destruct (route_raises e _); [discriminate | by rewrite andb_false_r].
Qed.

Lemma session_cycles (h : Host) (e : Wisprtux.Engine) (reads : list read_result) :
  forall s tr s',
    chunk_count s < 7 ->
    Wisprtux.run_loop h e s reads = (tr, Next s') ->
    length (transcribed tr) = (chunk_count s + length (ok_data reads)) / 7
    /\ chunk_count s' = (chunk_count s + length (ok_data reads)) mod 7
    /\ cycles s' = cycles s + (chunk_count s + length (ok_data reads)) / 7.
Proof.
  induction reads as [| r rest IH]; intros s tr s' Hc Hrun.
  { simpl in Hrun. inversion Hrun. subst. simpl.
    rewrite Nat.add_0_r, Nat.div_small, Nat.mod_small by lia.
    repeat split; lia. }
  cbn [Wisprtux.run_loop] in Hrun.
  destruct (Wisprtux.loop_body h e s r) as [tr1 [s1 | exc]] eqn:Hbody;
    [| discriminate].
  destruct (Wisprtux.run_loop h e s1 rest) as [tr2 fin] eqn:Hrest.
  inversion Hrun. subst tr fin. clear Hrun.
  assert (tr1 = fst (Wisprtux.loop_body h e s r)) as Htr1 by (by rewrite Hbody).
  apply loop_body_Next in Hbody
    as [(-> & -> & _) | [(data & -> & Hlt & -> & _) | (data & samples & -> & Hge & Hbuf & ->)]].
  - simpl in Htr1. subst tr1. apply (IH s tr2 s' Hc Hrest).
  - rewrite loop_body_accumulates in Htr1 by done. subst tr1.
    destruct (IH (accumulated s data) tr2 s') as (Hlen & Hmod & Hcyc);
      [simpl; lia | exact Hrest |].
    simpl in *.
    replace (chunk_count s + S (length (ok_data rest)))
      with (chunk_count s + 1 + length (ok_data rest)) by lia.
    done.
  - rewrite Htr1, transcribed_app, (transcribed_cycle h e s data samples Hge Hbuf).
    destruct (classify_frame (at_cycle s data) (heard h s samples))
      as (Hcc & Hcy & _).
    set (s1 := fst (Wisprtux.classify (at_cycle s data) (heard h s samples))) in *.
    destruct (IH s1 tr2 s') as (Hlen & Hmod & Hcyc);
      [rewrite Hcc; simpl; lia | exact Hrest |].
    rewrite Hcc in *. rewrite Hcy in *. simpl in *.
    assert (chunk_count s = 6) as -> by lia.
    replace (6 + S (length (ok_data rest)))
      with (length (ok_data rest) + 1 * 7) by lia.
    rewrite Nat.div_add, Nat.Div0.mod_add by lia.
    repeat split; [lia | done | lia].
Qed.

(** With frames of whole samples and a routing that does not raise, no
    iteration of a session is left by an exception. *)
Lemma session_completes (h : Host) (e : Wisprtux.Engine) (reads : list read_result) :
  routes_quietly h e ->
  forall s,
    Forall whole_samples (window s) ->
    Forall whole_samples (ok_data reads) ->
    exists s', snd (Wisprtux.run_loop h e s reads) = Next s'.
Proof.
  intros Hquiet. induction reads as [| r rest IH]; intros s Hw Hreads.
  { by exists s. }
  cbn [Wisprtux.run_loop]. destruct r as [data |].
  - simpl in Hreads. apply Forall_cons in Hreads as [Hdata Hrest].
    assert (Forall whole_samples (window s ++ [data])) as Hw'
      by (apply Forall_app_2; [done | by constructor]).
    destruct (decide (7 <= chunk_count s + 1)) as [Hge | Hlt].
    + destruct (proj2 (frombuffer_whole (concat (window s ++ [data])))
                  (whole_samples_concat _ Hw')) as [samples Hbuf].
      rewrite (loop_body_cycle_Next h e s data samples Hge Hbuf)
        by apply (quiet_cycle h e Hquiet).
      destruct (classify_frame (at_cycle s data) (heard h s samples))
        as (_ & _ & Hwin).
      set (s1 := fst (Wisprtux.classify (at_cycle s data) (heard h s samples))) in *.
      destruct (IH s1) as (s' & Hend); [| exact Hrest |].
      * destruct Hwin as [-> | ->]; [exact Hw' | constructor].
      * exists s'. by destruct (Wisprtux.run_loop h e s1 rest).
    + rewrite loop_body_accumulates by lia.
      destruct (IH (accumulated s data) Hw' Hrest) as (s' & Hend).
      exists s'. by destruct (Wisprtux.run_loop h e (accumulated s data) rest).
  - simpl in Hreads. destruct (IH s Hw Hreads) as (s' & Hend).
    exists s'. simpl. by destruct (Wisprtux.run_loop h e s rest).
Qed.

(** X4.  A session makes one inference call per seven successful reads:
    when its loop stands at the test of the stop event after reads of
    which n did not raise, it has made n / 7 calls (rounded down) and
    counts n mod 7 frames towards the next one; reads that raise count for
    nothing.  The loop does get there, rather than being left by an
    exception, when the frames hold whole samples and no text the model
    returns makes the routing raise, as when typing is switched off. *)
Theorem inference_call_every_seventh_read (h : Host) (e : Wisprtux.Engine)
    (reads : list read_result) :
  (forall s',
     snd (Wisprtux.run_loop h e fresh_locals reads) = Next s' ->
     length (transcribed (fst (Wisprtux.run_loop h e fresh_locals reads)))
     = length (ok_data reads) / 7
     /\ chunk_count s' = length (ok_data reads) mod 7
     /\ cycles s' = length (ok_data reads) / 7)
  /\ (Forall whole_samples (ok_data reads) -> routes_quietly h e ->
      exists s', snd (Wisprtux.run_loop h e fresh_locals reads) = Next s')
  /\ (Wisprtux._auto_type e = false -> routes_quietly h e).
Proof.
  split; [| split].
  - intros s' Hend.
    destruct (session_cycles h e reads fresh_locals
                (fst (Wisprtux.run_loop h e fresh_locals reads)) s')
      as (H1 & H2 & H3); [simpl; lia | | by simpl in *].
    rewrite <- Hend. apply surjective_pairing.
  - intros Hreads Hquiet.
    apply (session_completes h e reads Hquiet fresh_locals); [constructor | done].
  - intros Hty n arr. by rewrite route_without_typing.
Qed.

(** X4 on 23 reads, three of them raising, with clipboard and typing
    switched on and a model that hears "hi": 20 frames, two inference
    calls, six frames counted towards the third. *)
Lemma inference_call_count_witness :
  let reads := frames 9 ++ [ReadRaises; ReadRaises] ++ frames 11 ++ [ReadRaises] in
  let e := routing_engine true true in
  length (ok_data reads) = 20
  /\ exists s',
       snd (Wisprtux.run_loop bare_host e fresh_locals reads) = Next s'
       /\ length (transcribed
                    (fst (Wisprtux.run_loop bare_host e fresh_locals reads)))
          = 2
       /\ chunk_count s' = 6.
Proof.
  intros reads e. split; [reflexivity |].
  destruct (inference_call_every_seventh_read bare_host e reads)
    as (Hcount & Hends & Hoff).
  destruct Hends as (s' & Hend).
  - vm_compute. repeat constructor.
  - intros n arr. reflexivity.
  - exists s'. destruct (Hcount s' Hend) as (H1 & H2 & _).
    split; [exact Hend |]. split; [exact H1 | exact H2].
Defined.

Lemma loop_body_window (h : Host) (e : Wisprtux.Engine) (s s' : Locals)
    (r : read_result) (tr : list action) :
  Wisprtux.loop_body h e s r = (tr, Next s') ->
  window s' = window s ++ ok_data [r] \/ window s' = [].
Proof.
  intros Hbody. apply loop_body_Next in Hbody
    as [(-> & -> & _) | [(data & -> & _ & -> & _) | (data & samples & -> & _ & _ & ->)]].
  - left. simpl. by rewrite app_nil_r.
  - by left.
  - destruct (classify_frame (at_cycle s data) (heard h s samples))
      as (_ & _ & [-> | ->]); [by left | by right].
Qed.

Lemma loop_body_window_kept (h : Host) (e : Wisprtux.Engine) (cb : listener)
    (s s' : Locals) (r : read_result) (tr : list action) :
  Wisprtux._transcript_cb e = Some cb ->
  Wisprtux.loop_body h e s r = (tr, Next s') ->
  final_texts tr = [] ->
  window s' = window s ++ ok_data [r].
Proof.
  intros Hcb Hbody Hfin.
  assert (tr = fst (Wisprtux.loop_body h e s r)) as Htr by (by rewrite Hbody).
  apply loop_body_Next in Hbody
    as [(-> & -> & _) | [(data & -> & _ & -> & _) | (data & samples & -> & Hge & Hbuf & ->)]].
  - simpl. by rewrite app_nil_r.
  - done.
  - rewrite Htr, (final_texts_cycle h e cb s data samples Hcb Hge Hbuf) in Hfin.
    revert Hfin. generalize (heard h s samples) as text. intros text.
    destruct (decide (text = "")) as [-> | Ht]; [done |].
    destruct (classify_cases (at_cycle s data) text Ht)
      as [(_ & ->) | [(_ & _ & ->) | (_ & _ & ->)]]; simpl; done.
Qed.

Lemma ok_data_cons (r : read_result) (rest : list read_result) :
  ok_data (r :: rest) = ok_data [r] ++ ok_data rest.
Proof. by destruct r. Qed.

(** X5.  The window always holds the newest frames, in the order they
    were read: after any run of the loop it is what remains of the window
    before, followed by the frames of the reads that did not raise, once
    some number of the oldest frames is dropped.  With a transcript
    listener connected, a run that emits no final event drops none. *)
Theorem window_holds_newest_frames (h : Host) (e : Wisprtux.Engine)
    (reads : list read_result) (s s' : Locals) (tr : list action) :
  Wisprtux.run_loop h e s reads = (tr, Next s') ->
  (exists dropped, window s ++ ok_data reads = dropped ++ window s')
  /\ (forall cb, Wisprtux._transcript_cb e = Some cb -> final_texts tr = [] ->
        window s' = window s ++ ok_data reads).
Proof.
  revert s tr. induction reads as [| r rest IH]; intros s tr Hrun.
  { simpl in Hrun. inversion Hrun. subst. simpl. rewrite app_nil_r.
    split; [by exists [] | done]. }
  cbn [Wisprtux.run_loop] in Hrun.
  destruct (Wisprtux.loop_body h e s r) as [tr1 [s1 | exc]] eqn:Hbody;
    [| discriminate].
  destruct (Wisprtux.run_loop h e s1 rest) as [tr2 fin] eqn:Hrest.
  inversion Hrun. subst tr fin. clear Hrun.
  destruct (IH s1 tr2 Hrest) as ((dropped & Hdrop) & Hkept).
  rewrite ok_data_cons. split.
  - destruct (loop_body_window h e s s1 r tr1 Hbody) as [Hw | Hw].
    + exists dropped. by rewrite app_assoc, <- Hw.
    + rewrite Hw in Hdrop. simpl in Hdrop.
      exists (window s ++ ok_data [r] ++ dropped).
      by rewrite Hdrop, <- !app_assoc.
  - intros cb Hcb Hfin. rewrite final_texts_app in Hfin.
    apply app_eq_nil in Hfin as [Hf1 Hf2].
    rewrite (Hkept cb Hcb Hf2), (loop_body_window_kept h e cb s s1 r tr1 Hcb Hbody Hf1).
    by rewrite app_assoc.
Qed.

(** X5 on 20 frames and a failed read: nothing is final yet, the window
    holds all 20 frames. *)
Lemma window_holds_frames_witness :
  let reads := frames 13 ++ [ReadRaises] ++ frames 7 in
  window (locals_after bare_host listening reads) = replicate 20 frame.
Proof.
  intros reads.
  destruct (window_holds_newest_frames bare_host listening reads fresh_locals
              (locals_after bare_host listening reads)
              (fst (Wisprtux.run_loop bare_host listening fresh_locals reads)))
    as (_ & Hkept).
  - vm_compute. reflexivity.
  - rewrite (Hkept 2 eq_refl); [reflexivity |]. vm_compute. reflexivity.
Defined.

(** X6.  At every test of the stop event the locals are in bounds: fewer
    than seven frames are counted towards the next cycle and the window
    holds at least that many; the repeat counter is 0 or 1, and it is 1
    only while a text is remembered; a remembered text means a non-empty
    window. *)
Theorem loop_locals_in_bounds (h : Host) (e : Wisprtux.Engine) (s : Locals) :
  reachable h e s ->
  chunk_count s < 7
  /\ chunk_count s <= length (window s)
  /\ stable_cycles s <= 1
  /\ (prev_text s = "" -> stable_cycles s = 0)
  /\ (prev_text s <> "" -> window s <> []).
Proof.
  intros Hreach. split; [| split; [| split; [| split]]];
    [| | | | by apply (reachable_window h e)].
  all: induction Hreach as [| s r tr s' _ IH Hbody]; [simpl; lia || done |].
  all: apply loop_body_Next in Hbody
      as [(_ & -> & _) | [(data & _ & Hlt & -> & _) | (data & samples & _ & _ & _ & ->)]];
    [exact IH | simpl; rewrite ?length_app; simpl; try lia; try done | ].
  all: generalize (heard h s samples) as text; intros text.
  all: destruct (decide (text = "")) as [-> | Ht];
    [simpl; rewrite ?length_app; simpl; try lia; try done |].
  all: destruct (classify_cases (at_cycle s data) text Ht)
      as [(_ & ->) | [(_ & _ & ->) | (_ & _ & ->)]]; simpl; try lia; try done.
Qed.

(** X6 on the locals after 20 frames. *)
Lemma loop_locals_in_bounds_witness :
  let s := locals_after bare_host listening (frames 20) in
  (chunk_count s = 6 /\ length (window s) = 20 /\ stable_cycles s = 1
   /\ prev_text s = "hi")
  /\ chunk_count s < 7 /\ stable_cycles s <= 1.
Proof.
  intros s. split; [vm_compute; done |].
  destruct (loop_locals_in_bounds bare_host listening s) as (H1 & _ & H3 & _).
  - apply (run_loop_reachable bare_host listening (frames 20) fresh_locals
             (fst (Wisprtux.run_loop bare_host listening fresh_locals (frames 20))));
      [apply reach_fresh | vm_compute; reflexivity].
  - split; [exact H1 | exact H3].
Defined.

(** ** What the listeners and the model are handed *)

Lemma transcript_events_routing (tr : list action) :
  Forall (fun a => is_routing a = true) tr -> transcript_events tr = [].
Proof.
  intros H. apply omap_none. eapply Forall_impl; [exact H |].
  intros a Ha. by destruct a.
Qed.

Ltac events_of_trace :=
  repeat (progress (rewrite ?transcript_events_app, ?transcript_events_status;
                    simpl)).

Lemma classify_ignores_frame (s1 s2 : Locals) (t : string) :
  prev_text s1 = prev_text s2 -> stable_cycles s1 = stable_cycles s2 ->
  prev_text (fst (Wisprtux.classify s1 t)) = prev_text (fst (Wisprtux.classify s2 t))
  /\ stable_cycles (fst (Wisprtux.classify s1 t))
     = stable_cycles (fst (Wisprtux.classify s2 t))
  /\ snd (Wisprtux.classify s1 t) = snd (Wisprtux.classify s2 t).
Proof.
  intros Hp Hs. unfold Wisprtux.classify. rewrite Hp, Hs.
  destruct (Py.truthy t); [| done].
  by destruct (2 <=? _).
Qed.

(** What an iteration hands the transcript listener is what [classify]
    decides for the text of its cycle, if it has one; and so is what it
    does to the remembered text, when it is run to its end. *)
Lemma transcript_events_body (h : Host) (e : Wisprtux.Engine) (cb : listener)
    (s : Locals) (r : read_result) :
  Wisprtux._transcript_cb e = Some cb ->
  exists t,
    transcript_events (fst (Wisprtux.loop_body h e s r))
    = match snd (Wisprtux.classify s t) with Some ev => [ev] | None => [] end
    /\ forall s',
         snd (Wisprtux.loop_body h e s r) = Next s' ->
         prev_text s' = prev_text (fst (Wisprtux.classify s t))
         /\ stable_cycles s' = stable_cycles (fst (Wisprtux.classify s t)).
Proof.
  intros Hcb. destruct r as [data |].
  2: { exists "". split; [done |]. intros s' Hs. by inversion Hs. }
  destruct (decide (7 <= chunk_count s + 1)) as [Hge | Hlt].
  2: { exists "". rewrite loop_body_accumulates by lia.
       split; [done |]. intros s' Hs. by inversion Hs. }
  destruct (Py.frombuffer_int16 (concat (window s ++ [data])))
    as [samples |] eqn:Hbuf.
  2: { exists "". rewrite loop_body_bad_buffer by done. cbn [fst snd].
       split; [by rewrite transcript_events_status | discriminate]. }
  exists (heard h s samples).
  destruct (classify_ignores_frame (at_cycle s data) s (heard h s samples)
              eq_refl eq_refl) as (Hp & Hs & Hev).
  rewrite <- Hev, <- Hp, <- Hs. split.
  - rewrite (loop_body_cycle_trace h e s data samples Hge Hbuf).
    assert (forall b : bool,
              transcript_events
                (if b then [] else Wisprtux._emit_status e "Recording...") = [])
      as Htail by (intros []; [done | apply transcript_events_status]).
    rewrite !transcript_events_app, transcript_events_status, Htail. cbn.
    rewrite app_nil_r.
    destruct (snd (Wisprtux.classify (at_cycle s data) (heard h s samples)))
      as [ev |]; [| done].
    unfold Wisprtux._emit_transcript. rewrite Hcb. events_of_trace.
    destruct (is_partial ev); [done |].
    rewrite transcript_events_routing by apply route_routing. done.
  - intros s'. rewrite (loop_body_cycle h e s data samples Hge Hbuf).
    destruct (cycle_fails e _ _); cbn [snd]; [discriminate |].
    intros Hs'. by inversion Hs'.
Qed.

Lemma announced_partial (evs : list TranscriptEvent) (t : string) :
  announced evs -> announced (evs ++ [partial_event t]).
Proof.
  intros Hev pre t' post Heq.
  destruct (decide (post = [])) as [-> | Hpost].
  { apply app_inj_tail in Heq as [_ Heq]. discriminate. }
  destruct (exists_last Hpost) as (post' & a & ->).
  change (pre ++ final_event t' :: post' ++ [a])
    with (pre ++ (final_event t' :: post') ++ [a]) in Heq.
  rewrite app_assoc in Heq. apply app_inj_tail in Heq as [Heq _].
  by apply (Hev pre t' post').
Qed.

Lemma announced_final (evs : list TranscriptEvent) (t : string) :
  announced evs -> t <> "" ->
  (exists p, evs = p ++ [partial_event t; partial_event t]) ->
  announced (evs ++ [final_event t]).
Proof.
  intros Hev Ht Hp pre t' post Heq.
  destruct (decide (post = [])) as [-> | Hpost].
  { apply app_inj_tail in Heq as [<- Heq]. inversion Heq. by subst. }
  destruct (exists_last Hpost) as (post' & a & ->).
  change (pre ++ final_event t' :: post' ++ [a])
    with (pre ++ (final_event t' :: post') ++ [a]) in Heq.
  rewrite app_assoc in Heq. apply app_inj_tail in Heq as [Heq _].
  by apply (Hev pre t' post').
Qed.

Lemma classify_announces (s : Locals) (evs : list TranscriptEvent) (t : string) :
  announced evs -> follows s evs ->
  let evs' := evs ++ match snd (Wisprtux.classify s t) with
                     | Some ev => [ev]
                     | None => []
                     end in
  announced evs' /\ follows (fst (Wisprtux.classify s t)) evs'.
Proof.
  intros Hev Hfol. destruct (decide (t = "")) as [-> | Ht].
  { simpl. by rewrite app_nil_r. }
  destruct (classify_cases s t Ht)
    as [(Hne & ->) | [(Heq & Hst & ->) | (Heq & Hst & ->)]]; cbn [fst snd].
  - split; [by apply announced_partial |].
    right. left. simpl. split; [done |]. split; [done |]. by exists evs.
  - split; [by apply announced_partial |].
    right. right. simpl. split; [done |]. split; [done |].
    destruct Hfol as [(Hp & _) | [(_ & _ & p & ->) | (_ & Hs1 & _)]];
      [congruence | | lia].
    exists p. rewrite <- Heq, <- app_assoc. done.
  - assert (exists p, evs = p ++ [partial_event t; partial_event t]) as Hp.
    { destruct Hfol as [(_ & Hs0) | [(_ & Hs0 & _) | (_ & _ & p & ->)]];
        [lia | lia |]. exists p. by rewrite <- Heq. }
    split; [by apply announced_final |]. left. done.
Qed.

Lemma run_loop_announces (h : Host) (e : Wisprtux.Engine) (cb : listener)
    (reads : list read_result) :
  Wisprtux._transcript_cb e = Some cb ->
  forall s evs,
    announced evs -> follows s evs ->
    announced (evs ++ transcript_events (fst (Wisprtux.run_loop h e s reads))).
Proof.
  intros Hcb. induction reads as [| r rest IH]; intros s evs Hev Hfol.
  { simpl. by rewrite app_nil_r. }
  cbn [Wisprtux.run_loop].
  destruct (transcript_events_body h e cb s r Hcb) as (t & Htr & Hnext).
  destruct (classify_announces s evs t Hev Hfol) as (Hev' & Hfol').
  rewrite <- Htr in Hev', Hfol'.
  destruct (Wisprtux.loop_body h e s r) as [tr [s1 | exc]]; cbn [fst snd] in *;
    [| exact Hev'].
  destruct (Hnext s1 eq_refl) as (Hp & Hs).
  assert (follows s1 (evs ++ transcript_events tr)) as Hfol1.
  { unfold follows in *. by rewrite Hp, Hs. }
  specialize (IH s1 _ Hev' Hfol1).
  destruct (Wisprtux.run_loop h e s1 rest) as [tr' fin]. cbn [fst] in *.
  by rewrite transcript_events_app, app_assoc.
Qed.

Lemma capture_events (h : Host) (reads : list read_result) (e : Wisprtux.Engine) :
  transcript_events (snd (fst (Wisprtux.capture h reads e)))
  = if pyaudio_import h && bool_decide (audio_open h = None)
    then transcript_events (fst (Wisprtux.run_loop h e fresh_locals reads))
    else [].
Proof.
  unfold Wisprtux.capture.
  destruct (pyaudio_import h); cbn [negb andb fst snd]; [| by events_of_trace].
  destruct (audio_open h) as [exc |]; cbn [fst snd]; [by events_of_trace |].
  destruct (Wisprtux.run_loop h e fresh_locals reads) as [tr_loop fin].
  cbn [fst snd]. rewrite !transcript_events_app, !transcript_events_status.
  simpl. by rewrite app_nil_r.
Qed.

(** X7.  In the transcript events a worker hands the listener, every final
    event has a non-empty text and comes right after two partial events
    with that same text. *)
Theorem final_event_follows_two_partials (h : Host) (reads : list read_result)
    (e : Wisprtux.Engine) (cb : listener) :
  Wisprtux._transcript_cb e = Some cb ->
  announced (transcript_events (snd (fst (Wisprtux._worker_loop h reads e)))).
Proof.
  intros Hcb.
  assert (announced []) as Hnil by (intros pre t post Heq; by destruct pre).
  assert (follows fresh_locals []) as Hfresh by (by left).
  assert (forall e1, Wisprtux._transcript_cb e1 = Some cb ->
            announced (transcript_events (snd (fst (Wisprtux.capture h reads e1)))))
    as Hcap.
  { intros e1 Hcb1. rewrite capture_events. destruct (_ && _); [| exact Hnil].
    apply (run_loop_announces h e1 cb reads Hcb1 fresh_locals [] Hnil Hfresh). }
  unfold Wisprtux._worker_loop.
  destruct (Wisprtux._model e) as [m |]; [by apply Hcap |].
  pose proof (load_model_no_audio h e) as (_ & _ & Hload).
  pose proof (load_model_keeps h e) as (_ & Hcb1 & _).
  destruct (Wisprtux._load_model h e) as [[e1 trl] ok]. cbn [fst snd] in *.
  destruct ok; cbn [negb fst snd]; [| by rewrite Hload].
  rewrite Hcb in Hcb1. specialize (Hcap e1 Hcb1).
  destruct (Wisprtux.capture h reads e1) as [[e2 tr] fin]. cbn [fst snd] in *.
  by rewrite transcript_events_app, Hload.
Qed.

(** X7 on a session of 28 frames hearing "hi" in each of its four cycles. *)
Lemma final_event_follows_two_partials_witness :
  transcript_events (snd (fst (Wisprtux._worker_loop bare_host (frames 28) listening)))
  = [partial_event "hi"; partial_event "hi"; final_event "hi"; partial_event "hi"]
  /\ announced
       (transcript_events
          (snd (fst (Wisprtux._worker_loop bare_host (frames 28) listening)))).
Proof.
  split; [vm_compute; reflexivity |].
  exact (final_event_follows_two_partials bare_host (frames 28) listening 2 eq_refl).
Defined.

Lemma int16_range (lo hi : Byte.byte) :
  (-32768 <= Py.int16_of_bytes lo hi <= 32767)%Z.
Proof.
  unfold Py.int16_of_bytes.
  pose proof (Byte.to_N_bounded lo). pose proof (Byte.to_N_bounded hi).
  destruct (_ <=? _)%Z eqn:Hcmp; [apply Z.leb_le in Hcmp | apply Z.leb_gt in Hcmp];
    lia.
Qed.

Lemma frombuffer_range (buf : list Byte.byte) :
  forall samples,
    Py.frombuffer_int16 buf = Some samples ->
    Forall (fun z => (-32768 <= z <= 32767)%Z) samples.
Proof.
  induction buf as [| a | lo hi rest IH] using list_pair_ind;
    intros samples Hbuf; simpl in Hbuf.
  - inversion Hbuf. constructor.
  - discriminate.
  - destruct (Py.frombuffer_int16 rest) as [tail |]; [| discriminate].
    inversion Hbuf. constructor; [apply int16_range | by apply IH].
Qed.

Lemma normalize_range (samples : list Z) :
  Forall (fun z => (-32768 <= z <= 32767)%Z) samples ->
  Forall in_unit_range (Py.normalize samples).
Proof.
  unfold Py.normalize. induction 1 as [| z l Hz _ IH]; [constructor |].
  rewrite map_cons. constructor; [| exact IH].
  unfold in_unit_range, Qle, Qlt. simpl. lia.
Qed.

Lemma frombuffer_lookup (buf : list Byte.byte) :
  forall samples i lo hi,
    Py.frombuffer_int16 buf = Some samples ->
    buf !! (2 * i) = Some lo -> buf !! (2 * i + 1) = Some hi ->
    samples !! i = Some (Py.int16_of_bytes lo hi).
Proof.
  induction buf as [| a | b0 b1 rest IH] using list_pair_ind;
    intros samples i lo hi Hbuf Hlo Hhi; simpl in Hbuf.
  - done.
  - discriminate.
  - destruct (Py.frombuffer_int16 rest) as [tail |] eqn:Hrest; [| discriminate].
    inversion Hbuf. subst samples. destruct i as [| i].
    + simpl in Hlo, Hhi. inversion Hlo. inversion Hhi. done.
    + replace (2 * S i) with (S (S (2 * i))) in Hlo by lia.
      replace (2 * S i + 1) with (S (S (2 * i + 1))) in Hhi by lia.
      simpl in Hlo, Hhi. simpl. by apply (IH tail i lo hi).
Qed.

Lemma normalize_lookup (samples : list Z) :
  forall i z, samples !! i = Some z ->
              Py.normalize samples !! i = Some (Qmake z 32768).
Proof.
  unfold Py.normalize. induction samples as [| x l IH]; intros i z Hz; [done |].
  destruct i as [| i]; simpl in *; [by inversion Hz | by apply IH].
Qed.

(** A sample is the 16-bit two's complement number its two bytes spell,
    low byte first. *)
Lemma int16_of_bytes_value (lo hi : Byte.byte) :
  (Py.int16_of_bytes lo hi mod 65536
   = Z.of_N (Byte.to_N lo) + 256 * Z.of_N (Byte.to_N hi))%Z.
Proof.
  unfold Py.int16_of_bytes.
  pose proof (Byte.to_N_bounded lo). pose proof (Byte.to_N_bounded hi).
  destruct (_ <=? _)%Z eqn:Hcmp; [apply Z.leb_le in Hcmp | apply Z.leb_gt in Hcmp].
  - symmetry. apply (Z.mod_unique_pos _ _ (-1)); lia.
  - apply Z.mod_small. lia.
Qed.

(** X8.  Every array an iteration hands to the model holds the samples of
    the whole window with the new frame, in order: one sample per two
    bytes, the i-th being the 16-bit two's complement number that the
    bytes 2i (low) and 2i+1 (high) spell, divided by 32768, so that each
    lies in the range from -1 (included) to 1 (excluded). *)
Theorem inference_input_is_whole_window (h : Host) (e : Wisprtux.Engine)
    (s : Locals) (data : list Byte.byte) (arr : list Q) :
  arr ∈ transcribed (fst (Wisprtux.loop_body h e s (ReadOk data))) ->
  2 * length arr = length (concat (window s)) + length data
  /\ Forall in_unit_range arr
  /\ forall i lo hi,
       (concat (window s) ++ data) !! (2 * i) = Some lo ->
       (concat (window s) ++ data) !! (2 * i + 1) = Some hi ->
       exists z,
         arr !! i = Some (Qmake z 32768)
         /\ (-32768 <= z <= 32767)%Z
         /\ (z mod 65536
             = Z.of_N (Byte.to_N lo) + 256 * Z.of_N (Byte.to_N hi))%Z.
Proof.
  intros Harr.
  destruct (decide (7 <= chunk_count s + 1)) as [Hge | Hlt];
    [| rewrite loop_body_accumulates in Harr by lia; by apply elem_of_nil in Harr].
  destruct (Py.frombuffer_int16 (concat (window s ++ [data])))
    as [samples |] eqn:Hbuf.
  - rewrite (transcribed_cycle h e s data samples Hge Hbuf) in Harr.
    apply list_elem_of_singleton in Harr as ->. split; [| split].
    + unfold Py.normalize. rewrite length_map, (frombuffer_length _ _ Hbuf).
      rewrite concat_app, length_app. simpl. rewrite app_nil_r. done.
    + by apply normalize_range, (frombuffer_range _ _ Hbuf).
    + intros i lo hi Hlo Hhi.
      rewrite concat_app in Hbuf. simpl in Hbuf. rewrite app_nil_r in Hbuf.
      exists (Py.int16_of_bytes lo hi).
      split; [| split; [apply int16_range | apply int16_of_bytes_value]].
      apply normalize_lookup. by apply (frombuffer_lookup _ _ _ _ _ Hbuf).
  - rewrite loop_body_bad_buffer in Harr by done. cbn [fst] in Harr.
    rewrite transcribed_status in Harr. by apply elem_of_nil in Harr.
Qed.

(** X8 at the seventh frame of a session: 14 samples for 28 bytes, the
    second of them -1/32768 for the bytes ff ff. *)
Lemma inference_input_witness :
  let arr := Py.normalize (concat (replicate 7 [1; -1]%Z)) in
  transcribed (fst (Wisprtux.loop_body bare_host listening six_frames_in (ReadOk frame)))
  = [arr]
  /\ 2 * length arr = length (concat (window six_frames_in)) + length frame
  /\ Forall in_unit_range arr
  /\ arr !! 1 = Some (Qmake (-1) 32768)
  /\ exists z, arr !! 1 = Some (Qmake z 32768) /\ (z mod 65536 = 65535)%Z.
Proof.
  intros arr. split; [vm_compute; reflexivity |].
  destruct (inference_input_is_whole_window bare_host listening six_frames_in
              frame arr) as (Hlen & Hrange & Hsample).
  { vm_compute. apply list_elem_of_here. }
  split; [exact Hlen |]. split; [exact Hrange |]. split; [reflexivity |].
  destruct (Hsample 1 Byte.xff Byte.xff eq_refl eq_refl) as (z & Hz & _ & Hmod).
  exists z. split; [exact Hz | exact Hmod].
Defined.

(** ** The two versions of the worker *)

Lemma whisperflow_body_quiet (h : Host) (e : Whisperflow.Engine) (s : Locals)
    (r : read_result) :
  Forall (fun a => is_routing a = false) (fst (Whisperflow.loop_body h e s r)).
Proof.
  unfold Whisperflow.loop_body, Whisperflow._emit_status,
    Whisperflow._emit_transcript.
  destruct r as [data |]; [| constructor].
  destruct (_ && _); [| constructor].
  destruct (Py.frombuffer_int16 _) as [samples |]; cbn [fst].
  - destruct (Whisperflow.classify _ _) as [s2 [ev |]]; cbn [fst];
      destruct (Whisperflow._status_cb e); destruct (Whisperflow._transcript_cb e);
      repeat constructor.
  - destruct (Whisperflow._status_cb e); repeat constructor.
Qed.

Lemma whisperflow_loop_quiet (h : Host) (e : Whisperflow.Engine)
    (reads : list read_result) :
  forall s,
    Forall (fun a => is_routing a = false) (fst (Whisperflow.run_loop h e s reads)).
Proof.
  induction reads as [| r rest IH]; intros s; [constructor |].
  cbn [Whisperflow.run_loop].
  pose proof (whisperflow_body_quiet h e s r) as Hbody.
  destruct (Whisperflow.loop_body h e s r) as [tr [s1 | exc]]; [| exact Hbody].
  specialize (IH s1). destruct (Whisperflow.run_loop h e s1 rest) as [tr' fin].
  by apply Forall_app_2.
Qed.

(** The [whisperflow] worker runs no subprocess. *)
Lemma whisperflow_worker_quiet (h : Host) (reads : list read_result)
    (e : Whisperflow.Engine) :
  routing_only (snd (fst (Whisperflow._worker_loop h reads e))) = [].
Proof.
  apply filter_none.
  assert (forall e1 text,
            Forall (fun a => ~ is_routing a = true) (Whisperflow._emit_status e1 text))
    as Hstatus.
  { intros e1 text. unfold Whisperflow._emit_status.
    destruct (Whisperflow._status_cb e1); repeat constructor. discriminate. }
  assert (forall e1,
            Forall (fun a => ~ is_routing a = true)
              (snd (fst (Whisperflow.capture h reads e1)))) as Hcap.
  { intros e1. unfold Whisperflow.capture.
    destruct (pyaudio_import h); cbn [negb fst snd];
      [| apply Forall_app_2; apply Hstatus].
    destruct (audio_open h) as [exc |]; cbn [fst snd].
    - repeat apply Forall_app_2; try apply Hstatus;
        repeat constructor; discriminate.
    - pose proof (whisperflow_loop_quiet h e1 reads fresh_locals) as Hloop.
      destruct (Whisperflow.run_loop h e1 fresh_locals reads) as [tr_loop fin].
      cbn [fst snd] in *.
      repeat apply Forall_app_2; try apply Hstatus;
        try (repeat constructor; discriminate).
      eapply Forall_impl; [exact Hloop |]. intros a Ha. congruence. }
  unfold Whisperflow._worker_loop.
  destruct (Whisperflow._model e) as [m |]; [apply Hcap |].
  assert (Forall (fun a => ~ is_routing a = true)
            (snd (fst (Whisperflow._load_model h e)))) as Hload.
  { unfold Whisperflow._load_model.
    destruct (torch_cuda h) as [exc | c]; cbn [fst snd];
      [apply Forall_app_2; apply Hstatus |].
    destruct (path_exists h _).
    - destruct (whisper_load h _ _); cbn [fst snd];
        repeat apply Forall_app_2; try apply Hstatus;
        repeat constructor; discriminate.
    - destruct (Whisperflow._offline e); cbn [negb fst snd];
        [apply Forall_app_2; apply Hstatus |].
      destruct (whisper_load h _ _); cbn [fst snd];
        repeat apply Forall_app_2; try apply Hstatus;
        repeat constructor; discriminate. }
  destruct (Whisperflow._load_model h e) as [[e1 trl] ok]. cbn [fst snd] in *.
  destruct ok; cbn [negb fst snd]; [| exact Hload].
  specialize (Hcap e1).
  destruct (Whisperflow.capture h reads e1) as [[e2 tr] fin]. cbn [fst snd] in *.
  by apply Forall_app_2.
Qed.

(** X19.  Fed the same frame reads on the same host, the [wisprtux] worker
    hands its transcript listener a prefix of the events the [whisperflow]
    worker hands its own, and leaves the shared engine fields as
    [whisperflow] does; its subprocess calls are those of
    [_route_final_text] on the final texts, in order.  When no text the
    model returns makes the routing raise, the two workers hand over the
    same events and end the same way, and the [whisperflow] trace is the
    [wisprtux] trace without the subprocess calls. *)
Theorem workers_agree_unless_routing_raises (h : Host) (reads : list read_result)
    (e : Wisprtux.Engine) :
  let new := Wisprtux._worker_loop h reads e in
  let old := Whisperflow._worker_loop h reads (forget e) in
  transcript_events (snd (fst new)) `prefix_of` transcript_events (snd (fst old))
  /\ forget (fst (fst new)) = fst (fst old)
  /\ routing_only (snd (fst old)) = []
  /\ (forall cb, Wisprtux._transcript_cb e = Some cb ->
        routing_only (snd (fst new))
        = concat (map (fun text => snd (Wisprtux._route_final_text h e text))
                    (final_texts (snd (fst new)))))
  /\ (routes_quietly h e ->
      transcript_events (snd (fst new)) = transcript_events (snd (fst old))
      /\ without_routing (snd (fst new)) = snd (fst old)
      /\ snd new = snd old).
Proof.
  intros new old.
  destruct (worker_loop_agrees h reads e) as (Heng & Hpre & Heq).
  fold new in Heng, Hpre, Heq. fold old in Heng, Hpre, Heq.
  split; [exact Hpre |]. split; [done |]. split; [| split].
  - apply whisperflow_worker_quiet.
  - intros cb Hcb. by apply (worker_routes_finals h reads e cb).
  - intros Hquiet. specialize (Heq Hquiet). rewrite Heq. cbn [fst snd].
    split; [by rewrite transcript_events_without | done].
Qed.

(** X19 on a session of 21 frames hearing "hi" in each of its three
    cycles, with both routing paths switched on. *)
Lemma workers_agree_witness :
  let e := Wisprtux.set_auto_clipboard true (routing_engine false true) in
  routes_quietly closed_window_host e
  /\ transcript_events
       (snd (fst (Whisperflow._worker_loop closed_window_host (frames 21) (forget e))))
     = [partial_event "hi"; partial_event "hi"; final_event "hi"]
  /\ transcript_events
       (snd (fst (Wisprtux._worker_loop closed_window_host (frames 21) e)))
     = [partial_event "hi"; partial_event "hi"; final_event "hi"]
  /\ routing_only (snd (fst (Wisprtux._worker_loop closed_window_host (frames 21) e)))
     = [Subprocess ["xsel"; "--clipboard"; "--input"] (Some "hi");
        focus_call "123"; type_call "hi"].
Proof.
  intros e.
  assert (routes_quietly closed_window_host e) as Hquiet
    by (intros n arr; reflexivity).
  pose proof (workers_agree_unless_routing_raises closed_window_host (frames 21) e)
    as (_ & _ & _ & Hroute & Hsame).
  destruct (Hsame Hquiet) as (Hev & _).
  split; [exact Hquiet |]. split; [reflexivity |]. split; [rewrite Hev; reflexivity |].
  rewrite (Hroute 2 eq_refl). reflexivity.
Defined.

(** * Properties of [window_tracker] *)


(** X10.  [set_clipboard] stops at the first tool that works: it returns
    [True] exactly when [xclip] or [xsel] is installed and exits with 0 on
    the text; it runs [xclip] exactly when it is installed, and [xsel]
    exactly when it is installed and [xclip] did not work; with neither
    installed it runs nothing and returns [False]. *)
Theorem set_clipboard_first_working_tool (h : Host) (text : string) :
  fst (WindowTracker.set_clipboard h text)
  = tool_works h xclip text || tool_works h xsel text
  /\ snd (WindowTracker.set_clipboard h text)
     = (if which h "xclip" then [Subprocess xclip (Some text)] else [])
       ++ (if negb (tool_works h xclip text) && which h "xsel"
           then [Subprocess xsel (Some text)] else []).
Proof.
  unfold WindowTracker.set_clipboard, tool_works, xclip, xsel.
  cbn [WindowTracker.set_clipboard_from].
  unfold WindowTracker.try_clipboard_tool. simpl.
  destruct (which h "xclip"); simpl.
  - destruct (subprocess_run h ["xclip"; "-selection"; "clipboard"] (Some text))
      as [[| rc | rc] out |]; simpl; [done | | |].
    all: destruct (which h "xsel"); simpl; [| done].
    all: by destruct (subprocess_run h ["xsel"; "--clipboard"; "--input"] (Some text))
           as [[| rc' | rc'] out' |].
  - destruct (which h "xsel"); simpl; [| done].
    by destruct (subprocess_run h ["xsel"; "--clipboard"; "--input"] (Some text))
         as [[| rc' | rc'] out' |].
Qed.

Lemma snapshot_cases (h : Host) :
  WindowTracker.WindowSnapshot_init h
  = let cmd := Subprocess ["xdotool"; "getactivewindow"] None in
    let name_cmd :=
      Subprocess ["xdotool"; "getactivewindow"; "getwindowname"] None in
    match subprocess_run h ["xdotool"; "getactivewindow"] None with
    | Exited 0 out =>
        let w := Py.strip out in
        if Py.truthy w then
          match title_fails h with
          | Some exc => (Py.Raises exc, [cmd; name_cmd])
          | None =>
              let calls :=
                [cmd; name_cmd; Subprocess ["xdotool"; "getwindowpid"; w] None] in
              if Py.has_nul w then (Py.Raises "embedded null byte", calls)
              else
                (Py.Returns
                   {| WindowTracker.window_id := Some w;
                      WindowTracker.window_name :=
                        stdout_of (subprocess_run h
                                     ["xdotool"; "getactivewindow"; "getwindowname"]
                                     None);
                      WindowTracker.window_pid :=
                        stdout_of (subprocess_run h ["xdotool"; "getwindowpid"; w]
                                     None) |},
                 calls)
          end
        else
          (Py.Returns {| WindowTracker.window_id := Some w;
                         WindowTracker.window_name := None;
                         WindowTracker.window_pid := None |}, [cmd])
    | _ =>
        (Py.Returns {| WindowTracker.window_id := None;
                       WindowTracker.window_name := None;
                       WindowTracker.window_pid := None |}, [cmd])
    end.
Proof.
  unfold WindowTracker.WindowSnapshot_init, WindowTracker.get_active_window,
    WindowTracker.get_window_name, WindowTracker.get_window_pid,
    WindowTracker.truthy_id, WindowTracker._run, stdout_of, title_fails.
  cbn [existsb Py.has_nul orb Ascii.eqb Bool.eqb Ascii.zero
       WindowTracker.prints_title String.eqb andb].
  destruct (subprocess_run h ["xdotool"; "getactivewindow"] None)
    as [[| rc | rc] out |]; cbn; try done.
  destruct (Py.truthy (Py.strip out)); cbn; [| done].
  rewrite orb_false_r.
  destruct (subprocess_run h ["xdotool"; "getactivewindow"; "getwindowname"] None)
    as [[| rc | rc] title |]; cbn;
    destruct (title_error h); cbn; try done;
    destruct (Py.has_nul (Py.strip out)); cbn; try done;
    by destruct (subprocess_run h ["xdotool"; "getwindowpid"; Py.strip out] None)
         as [[| rc' | rc'] pid |].
Qed.

(** X11.  A [WindowSnapshot] that was made is valid exactly when [xdotool
    getactivewindow] exited with 0.  When that call gave no window id, be
    it by failing or by printing nothing, no other command was run, name
    and pid are [None], and [focus_window] on the id returns [False]
    without running anything, also for the valid snapshot with the empty
    id.  When it gave an id, the name and the pid were asked for next, the
    pid for that id.  When [xdotool getactivewindow] does not exit with 0,
    the snapshot is made all the same, invalid, after that one call.  But
    when there is a window and its title cannot be decoded, no snapshot is
    made: the [UnicodeDecodeError] leaves [WindowSnapshot()] after the
    query of the name; an id with a NUL makes it raise, too.  And when
    [WindowSnapshot()] raises, [start_recording] raises: nothing is
    assigned, no thread is started. *)
Theorem window_snapshot_capture (h : Host) :
  (forall snap tr,
     WindowTracker.WindowSnapshot_init h = (Py.Returns snap, tr) ->
     let wid := WindowTracker.window_id snap in
     (WindowTracker.valid snap = true
      <-> exists out,
            subprocess_run h ["xdotool"; "getactivewindow"] None = Exited 0 out)
     /\ (WindowTracker.truthy_id wid = false ->
         tr = [Subprocess ["xdotool"; "getactivewindow"] None]
         /\ WindowTracker.window_name snap = None
         /\ WindowTracker.window_pid snap = None
         /\ WindowTracker.focus_window h wid = (Py.Returns false, []))
     /\ (forall w, wid = Some w -> w <> "" ->
         tr = [Subprocess ["xdotool"; "getactivewindow"] None;
               Subprocess ["xdotool"; "getactivewindow"; "getwindowname"] None;
               Subprocess ["xdotool"; "getwindowpid"; w] None]))
  /\ (exits_ok (subprocess_run h ["xdotool"; "getactivewindow"] None) = false ->
      WindowTracker.WindowSnapshot_init h
      = (Py.Returns {| WindowTracker.window_id := None;
                       WindowTracker.window_name := None;
                       WindowTracker.window_pid := None |},
         [Subprocess ["xdotool"; "getactivewindow"] None]))
  /\ (forall out exc,
        subprocess_run h ["xdotool"; "getactivewindow"] None = Exited 0 out ->
        Py.strip out <> "" ->
        title_fails h = Some exc ->
        WindowTracker.WindowSnapshot_init h
        = (Py.Raises exc,
           [Subprocess ["xdotool"; "getactivewindow"] None;
            Subprocess ["xdotool"; "getactivewindow"; "getwindowname"] None]))
  /\ (forall out,
        subprocess_run h ["xdotool"; "getactivewindow"] None = Exited 0 out ->
        Py.has_nul (Py.strip out) = true ->
        exists exc tr,
          WindowTracker.WindowSnapshot_init h = (Py.Raises exc, tr))
  /\ (forall exc tr tid qid e,
        WindowTracker.WindowSnapshot_init h = (Py.Raises exc, tr) ->
        Wisprtux._recording e = false ->
        Wisprtux.start_recording h tid qid e = (Py.Raises exc, tr)
        /\ ThreadStart tid ∉ tr).
Proof.
  split; [| split; [| split; [| split]]].
  - intros snap tr. rewrite snapshot_cases. cbv zeta.
    destruct (subprocess_run h ["xdotool"; "getactivewindow"] None)
      as [[| rc | rc] out |].
    + destruct (Py.truthy (Py.strip out)) eqn:Hid.
      * destruct (title_fails h); [discriminate |].
        destruct (Py.has_nul (Py.strip out)); [discriminate |].
        intros Hsnap. inversion Hsnap. subst snap tr. cbn.
        split; [split; [by eexists | done] |]. split.
        -- rewrite Hid. discriminate.
        -- intros w Hw _. by inversion Hw.
      * intros Hsnap. inversion Hsnap. subst snap tr. cbn.
        split; [split; [by eexists | done] |]. split.
        -- intros _. unfold WindowTracker.focus_window. by rewrite Hid.
        -- intros w Hw Hne. inversion Hw. subst w.
           apply truthy_true in Hne. congruence.
    + intros Hsnap. inversion Hsnap. subst snap tr. cbn.
      split; [split; [done | by intros [? ?]] |]. split; [done | done].
    + intros Hsnap. inversion Hsnap. subst snap tr. cbn.
      split; [split; [done | by intros [? ?]] |]. split; [done | done].
    + intros Hsnap. inversion Hsnap. subst snap tr. cbn.
      split; [split; [done | by intros [? ?]] |]. split; [done | done].
  - rewrite snapshot_cases. cbv zeta.
    by destruct (subprocess_run h ["xdotool"; "getactivewindow"] None)
         as [[| rc | rc] out |].
  - intros out exc Hout Hid Hfails. rewrite snapshot_cases, Hout. cbv zeta.
    apply truthy_true in Hid. by rewrite Hid, Hfails.
  - intros out Hout Hnul. rewrite snapshot_cases, Hout. cbv zeta.
    rewrite Hnul.
    destruct (Py.truthy (Py.strip out)) eqn:Hid.
    + destruct (title_fails h); by do 2 eexists.
    + rewrite has_nul_empty in Hnul by done. discriminate.
  - intros exc tr tid qid e Hsnap Hrec. unfold Wisprtux.start_recording.
    rewrite Hrec, Hsnap. split; [done |].
    revert Hsnap. rewrite snapshot_cases. cbv zeta.
    destruct (subprocess_run h ["xdotool"; "getactivewindow"] None)
      as [[| rc | rc] out |]; try discriminate.
    destruct (Py.truthy (Py.strip out)); [| discriminate].
    destruct (title_fails h).
    + intros Hsnap. inversion Hsnap. subst.
      rewrite !not_elem_of_cons. repeat split; try discriminate.
      apply not_elem_of_nil.
    + destruct (Py.has_nul (Py.strip out)); [| discriminate].
      intros Hsnap. inversion Hsnap. subst.
      rewrite !not_elem_of_cons. repeat split; try discriminate.
      apply not_elem_of_nil.
Qed.

(** X11 on a desktop whose focused window is "77", with a title that
    decodes and with one that does not, and on a host without [xdotool]. *)
Lemma window_snapshot_witness :
  let snap := {| WindowTracker.window_id := Some "77";
                 WindowTracker.window_name := Some "editor";
                 WindowTracker.window_pid := Some "4242" |} in
  let tr := [Subprocess ["xdotool"; "getactivewindow"] None;
             Subprocess ["xdotool"; "getactivewindow"; "getwindowname"] None;
             Subprocess ["xdotool"; "getwindowpid"; "77"] None] in
  WindowTracker.WindowSnapshot_init desktop_host = (Py.Returns snap, tr)
  /\ WindowTracker.valid snap = true
  /\ fst (WindowTracker.WindowSnapshot_init bare_host)
     = Py.Returns {| WindowTracker.window_id := None;
                     WindowTracker.window_name := None;
                     WindowTracker.window_pid := None |}
  /\ Wisprtux.start_recording latin_title_host 7 1 Wisprtux.__init__
     = (Py.Raises latin_title,
        [Subprocess ["xdotool"; "getactivewindow"] None;
         Subprocess ["xdotool"; "getactivewindow"; "getwindowname"] None]).
Proof.
  intros snap tr.
  assert (WindowTracker.WindowSnapshot_init desktop_host = (Py.Returns snap, tr))
    as Hsnap by reflexivity.
  split; [exact Hsnap |].
  destruct (window_snapshot_capture desktop_host) as (Hmade & _).
  destruct (Hmade snap tr Hsnap) as (Hvalid & _).
  split; [apply Hvalid; by eexists |].
  destruct (window_snapshot_capture bare_host) as (_ & Hfails & _).
  split; [by rewrite (Hfails eq_refl) |].
  destruct (window_snapshot_capture latin_title_host)
    as (_ & _ & Htitle & _ & Hstart).
  assert (Py.strip "77
" <> "") as Hid by discriminate.
  exact (proj1 (Hstart _ _ 7 1 Wisprtux.__init__
                  (Htitle _ latin_title eq_refl Hid eq_refl) eq_refl)).
Defined.

(** X10 on that desktop, where only [xclip] is installed and fails. *)
Lemma set_clipboard_witness :
  WindowTracker.set_clipboard desktop_host "hi"
  = (false, [Subprocess xclip (Some "hi")]).
Proof.
  destruct (set_clipboard_first_working_tool desktop_host "hi") as (H1 & H2).
  destruct (WindowTracker.set_clipboard desktop_host "hi") as [b tr].
  cbn [fst snd] in *. by rewrite H1, H2.
Defined.


(** * Properties of the global hotkey *)

Lemma special_key_names_long (name attr : string) :
  GlobalHotkey._SPECIAL_KEYS !! name = Some attr -> 2 <= String.length name.
Proof.
  intros Hlook. apply elem_of_list_to_map_2 in Hlook.
  assert (Forall (fun p => 2 <= String.length (fst p)) GlobalHotkey.special_keys)
    as Hall by (repeat constructor; simpl; lia).
  rewrite Forall_forall in Hall. exact (Hall _ Hlook).
Qed.

Lemma gdk_name_of_char (kb : GlobalHotkey.Keyboard) (name : string) :
  GlobalHotkey.PYNPUT_AVAILABLE kb = true -> String.length name = 1 ->
  GlobalHotkey._gdk_name_to_pynput kb name
  = Some (GlobalHotkey.KeyCode (Some (GlobalHotkey.lower name))).
Proof.
  unfold GlobalHotkey._gdk_name_to_pynput. intros -> Hlen. cbn [negb].
  destruct (GlobalHotkey._SPECIAL_KEYS !! name) as [attr |] eqn:Hlook.
  - apply special_key_names_long in Hlook. lia.
  - by rewrite Hlen.
Qed.

(** X12.  [_gdk_name_to_pynput] gives no key without [pynput]; with it,
    every name of one character is mapped to the [KeyCode] of that
    character in lower case, a name of the table to the [Key] member of its
    entry if the platform has it, and every other name, the empty one
    included, to no key. *)
Theorem gdk_name_mapping (kb : GlobalHotkey.Keyboard) (name : string) :
  (GlobalHotkey.PYNPUT_AVAILABLE kb = false ->
   GlobalHotkey._gdk_name_to_pynput kb name = None)
  /\ (GlobalHotkey.PYNPUT_AVAILABLE kb = true ->
      (String.length name = 1 ->
       GlobalHotkey._gdk_name_to_pynput kb name
       = Some (GlobalHotkey.KeyCode (Some (GlobalHotkey.lower name))))
      /\ (forall attr,
            GlobalHotkey._gdk_name_to_pynput kb name = Some (GlobalHotkey.Key attr)
            <-> GlobalHotkey._SPECIAL_KEYS !! name = Some attr
                /\ GlobalHotkey.key_has kb attr = true)
      /\ (GlobalHotkey._SPECIAL_KEYS !! name = None ->
          String.length name <> 1 ->
          GlobalHotkey._gdk_name_to_pynput kb name = None)).
Proof.
  unfold GlobalHotkey._gdk_name_to_pynput. split; [by intros -> |].
  intros ->. cbn [negb]. split; [| split].
  - intros Hlen.
    destruct (GlobalHotkey._SPECIAL_KEYS !! name) as [attr |] eqn:Hlook.
    + apply special_key_names_long in Hlook. lia.
    + by rewrite Hlen.
  - intros attr. destruct (GlobalHotkey._SPECIAL_KEYS !! name) as [attr' |].
    + destruct (GlobalHotkey.key_has kb attr') eqn:Hhas.
      * split; [intros H; inversion H; by subst |].
        intros [H _]. by inversion H.
      * split; [discriminate |]. intros [H Hhas']. inversion H. congruence.
    + split; [| by intros [? _]]. by destruct (_ =? _).
  - intros -> Hlen. apply Nat.eqb_neq in Hlen. by rewrite Hlen.
Qed.

(** X12 on the names "A", "F9" and "Left". *)
Lemma gdk_name_mapping_witness :
  GlobalHotkey._gdk_name_to_pynput xorg_keyboard "A"
  = Some (GlobalHotkey.KeyCode (Some "a"))
  /\ GlobalHotkey._gdk_name_to_pynput xorg_keyboard "F9"
     = Some (GlobalHotkey.Key "f9")
  /\ GlobalHotkey._gdk_name_to_pynput xorg_keyboard "Left" = None.
Proof.
  destruct (proj2 (gdk_name_mapping xorg_keyboard "A") eq_refl) as (Hchar & _).
  destruct (proj2 (gdk_name_mapping xorg_keyboard "F9") eq_refl) as (_ & Hkey & _).
  destruct (proj2 (gdk_name_mapping xorg_keyboard "Left") eq_refl) as (_ & _ & Hno).
  split; [exact (Hchar eq_refl) |]. split.
  - apply Hkey. split; reflexivity.
  - apply Hno; [reflexivity | discriminate].
Defined.

Lemma lower_nonempty (name : string) :
  String.length name = 1 -> Py.truthy (GlobalHotkey.lower name) = true.
Proof. destruct name; [discriminate | done]. Qed.

Lemma set_hotkey_fields (kb : GlobalHotkey.Keyboard) (name : string)
    (cb : option nat) (lid : nat) (g : GlobalHotkey.Hotkey) :
  let g' := fst (GlobalHotkey.set_hotkey kb name cb lid g) in
  GlobalHotkey._target_key g' = GlobalHotkey._gdk_name_to_pynput kb name
  /\ GlobalHotkey._callback g' = cb
  /\ GlobalHotkey._listener g'
     = if GlobalHotkey.PYNPUT_AVAILABLE kb then Some lid else None.
Proof.
  unfold GlobalHotkey.set_hotkey, GlobalHotkey.stop, GlobalHotkey.start.
  destruct (GlobalHotkey._listener g); cbn;
    destruct (GlobalHotkey.PYNPUT_AVAILABLE kb); done.
Qed.

Lemma fires_iff (b : bool) (cb : nat) :
  (if b then [GlobalHotkey.Callback cb] else []) = [GlobalHotkey.Callback cb]
  <-> b = true.
Proof. by destruct b. Qed.

(** X13.  After [set_hotkey] with a callback, a key press calls that
    callback once or not at all.  For a name of one character it calls it
    exactly on the [KeyCode] whose [char] is that character in lower case,
    so the names "A" and "a" set the same hotkey and the press of the
    upper-case character never fires; for a name mapped to a [Key] member,
    exactly on that member; for a name mapped to no key, never. *)
Theorem hotkey_fires_only_on_its_key (kb : GlobalHotkey.Keyboard) (name : string)
    (cb lid : nat) (g : GlobalHotkey.Hotkey)
    (key : option GlobalHotkey.pynput_key) :
  let g' := fst (GlobalHotkey.set_hotkey kb name (Some cb) lid g) in
  let fires := GlobalHotkey._on_press g' key = [GlobalHotkey.Callback cb] in
  (fires \/ GlobalHotkey._on_press g' key = [])
  /\ (GlobalHotkey.PYNPUT_AVAILABLE kb = true -> String.length name = 1 ->
      (fires <-> key = Some (GlobalHotkey.KeyCode (Some (GlobalHotkey.lower name)))))
  /\ (forall attr,
        GlobalHotkey._gdk_name_to_pynput kb name = Some (GlobalHotkey.Key attr) ->
        (fires <-> key = Some (GlobalHotkey.Key attr)))
  /\ (GlobalHotkey._gdk_name_to_pynput kb name = None ->
      GlobalHotkey._on_press g' key = []).
Proof.
  intros g' fires. subst fires.
  destruct (set_hotkey_fields kb name (Some cb) lid g) as (Htarget & Hcb & _).
  fold g' in Htarget, Hcb. unfold GlobalHotkey._on_press. rewrite Htarget, Hcb.
  split; [| split; [| split]].
  - destruct (GlobalHotkey._gdk_name_to_pynput kb name) as [t |]; [| by right].
    destruct (GlobalHotkey.key_matches t key); [by left | by right].
  - intros Hav Hlen.
    rewrite (gdk_name_of_char kb name Hav Hlen), fires_iff.
    unfold GlobalHotkey.key_matches.
    destruct key as [[b | [c |]] |];
      [split; [discriminate | intros H; by inversion H] |
       | split; [discriminate | intros H; by inversion H]
       | split; [discriminate | intros H; by inversion H]].
    destruct (Py.truthy c) eqn:Hc.
    + rewrite bool_decide_eq_true. split; intros H; by inversion H.
    + split; [discriminate |]. intros H. inversion H. subst c.
      rewrite lower_nonempty in Hc by done. discriminate.
  - intros attr ->. rewrite fires_iff. unfold GlobalHotkey.key_matches.
    destruct key as [[b | c] |];
      [| split; [discriminate | intros H; by inversion H]
       | split; [discriminate | intros H; by inversion H]].
    rewrite String.eqb_eq. split; intros H; by inversion H.
  - by intros ->.
Qed.

(** X13 on the hotkey "A": the press of "a" fires, the press of "A" does
    not. *)
Lemma hotkey_upper_case_witness :
  let g := fst (GlobalHotkey.set_hotkey xorg_keyboard "A" (Some 5) 1
                  GlobalHotkey.__init__) in
  GlobalHotkey._on_press g (Some (GlobalHotkey.KeyCode (Some "a")))
  = [GlobalHotkey.Callback 5]
  /\ GlobalHotkey._on_press g (Some (GlobalHotkey.KeyCode (Some "A")))
     <> [GlobalHotkey.Callback 5].
Proof.
  intros g. split.
  - apply (proj1 (proj2 (hotkey_fires_only_on_its_key xorg_keyboard "A" 5 1
                           GlobalHotkey.__init__
                           (Some (GlobalHotkey.KeyCode (Some "a"))))) eq_refl eq_refl).
    reflexivity.
  - intros Hfires.
    apply (proj1 (proj2 (hotkey_fires_only_on_its_key xorg_keyboard "A" 5 1
                           GlobalHotkey.__init__
                           (Some (GlobalHotkey.KeyCode (Some "A"))))) eq_refl eq_refl)
      in Hfires.
    discriminate.
Defined.

Lemma running_after_app (cur mid : option nat) (a b : list GlobalHotkey.hk_action) :
  GlobalHotkey.running_after cur a = Some mid ->
  GlobalHotkey.running_after cur (a ++ b) = GlobalHotkey.running_after mid b.
Proof.
  revert cur. induction a as [| x a IH]; intros cur Ha; simpl in *.
  { by inversion Ha. }
  destruct x as [l | l | cb].
  - destruct cur; [discriminate | by apply IH].
  - destruct cur as [l' |]; [| discriminate].
    destruct (l =? l'); [by apply IH | discriminate].
  - by apply IH.
Qed.

Lemma run_op_running (kb : GlobalHotkey.Keyboard) (g : GlobalHotkey.Hotkey)
    (op : GlobalHotkey.hk_op) :
  GlobalHotkey.running_after (GlobalHotkey._listener g)
    (snd (GlobalHotkey.run_op kb g op))
  = Some (GlobalHotkey._listener (fst (GlobalHotkey.run_op kb g op))).
Proof.
  destruct op as [lid | | name cb lid]; simpl;
    unfold GlobalHotkey.set_hotkey, GlobalHotkey.start, GlobalHotkey.stop;
    destruct (GlobalHotkey._listener g) as [l |] eqn:Hl; cbn;
    destruct (GlobalHotkey.PYNPUT_AVAILABLE kb); cbn;
    rewrite ?Hl, ?Nat.eqb_refl; done.
Qed.

(** X14.  Whatever calls are made on a [GlobalHotkey] object, its listeners
    run one at a time: a listener is only started while none runs, only
    the running one is stopped, and [_listener] is the one that runs.
    After [set_hotkey] that is the new listener where [pynput] is
    available and none where it is not. *)
Theorem one_listener_at_a_time (kb : GlobalHotkey.Keyboard)
    (ops : list GlobalHotkey.hk_op) (g : GlobalHotkey.Hotkey) :
  GlobalHotkey.running_after (GlobalHotkey._listener g)
    (snd (GlobalHotkey.run_ops kb g ops))
  = Some (GlobalHotkey._listener (fst (GlobalHotkey.run_ops kb g ops)))
  /\ forall name cb lid,
       GlobalHotkey._listener
         (fst (GlobalHotkey.run_ops kb g (ops ++ [GlobalHotkey.OpSetHotkey name cb lid])))
       = if GlobalHotkey.PYNPUT_AVAILABLE kb then Some lid else None.
Proof.
  split.
  - revert g. induction ops as [| op rest IH]; intros g; [done |].
    cbn [GlobalHotkey.run_ops].
    pose proof (run_op_running kb g op) as Hop.
    destruct (GlobalHotkey.run_op kb g op) as [g1 tr1]. cbn [fst snd] in Hop.
    specialize (IH g1). destruct (GlobalHotkey.run_ops kb g1 rest) as [g2 tr2].
    cbn [fst snd] in *. by rewrite (running_after_app _ _ _ _ Hop).
  - intros name cb lid. revert g. induction ops as [| op rest IH]; intros g.
    + cbn [app GlobalHotkey.run_ops GlobalHotkey.run_op].
      pose proof (set_hotkey_fields kb name cb lid g) as (_ & _ & Hl).
      by destruct (GlobalHotkey.set_hotkey kb name cb lid g).
    + cbn [app GlobalHotkey.run_ops].
      destruct (GlobalHotkey.run_op kb g op) as [g1 tr1]. specialize (IH g1).
      by destruct (GlobalHotkey.run_ops kb g1 _).
Qed.

(** * Properties of the recording view *)

Lemma status_class_kind (status : string) :
  RecordingView.status_class status ∈ status_kinds.
Proof.
  unfold RecordingView.status_class, status_kinds.
  rewrite !elem_of_union, !elem_of_singleton.
  destruct (RecordingView.contains "recording" _); [tauto |].
  destruct (_ || _); tauto.
Qed.

Lemma set_status_shows (status : string) (v : RecordingView.View) (c : string) :
  c ∈ status_kinds ->
  (c ∈ RecordingView.status_classes (RecordingView.set_status status v)
   <-> c = RecordingView.status_class status).
Proof.
  unfold status_kinds. cbn.
  rewrite !elem_of_union, !elem_of_difference, !elem_of_singleton. tauto.
Qed.

Lemma whisperflow_capture_ends_ready (h : Host) (reads : list read_result)
    (e : Whisperflow.Engine) :
  pyaudio_import h = true -> audio_open h = None ->
  exists before,
    snd (fst (Whisperflow.capture h reads e))
    = before ++ Whisperflow._emit_status e "Ready".
Proof.
  intros Him Hop. unfold Whisperflow.capture. rewrite Him, Hop. cbn [negb].
  destruct (Whisperflow.run_loop h e fresh_locals reads) as [tr_loop fin].
  cbn [fst snd].
  exists (Whisperflow._emit_status e "Recording..." ++ [PyAudioInit; AudioOpen]
            ++ tr_loop ++ [StreamStop; StreamClose; AudioTerminate]).
  by rewrite <- !app_assoc.
Qed.

Lemma whisperflow_load_keeps_cb (h : Host) (e : Whisperflow.Engine) :
  Whisperflow._status_cb (fst (fst (Whisperflow._load_model h e)))
  = Whisperflow._status_cb e.
Proof.
  unfold Whisperflow._load_model.
  destruct (torch_cuda h) as [exc | c]; [done |].
  destruct (path_exists h _).
  - destruct (whisper_load h _ _); done.
  - destruct (Whisperflow._offline e); simpl; [done |].
    destruct (whisper_load h _ _); done.
Qed.

Lemma show_statuses_app (a b : list action) (v : RecordingView.View) :
  RecordingView.show_statuses (a ++ b) v
  = RecordingView.show_statuses b (RecordingView.show_statuses a v).
Proof. apply foldl_app. Qed.

(** X15.  After [set_status] the status icon carries exactly one of the
    three status classes, whatever it carried before: the recording class
    when the status holds "recording" in any case, else the processing
    class when it holds "processing" or "transcribing", else the idle
    class; and once the view has been shown every status of a worker that
    had a model and opened the input stream, the label reads "Ready" and
    the icon is idle, however the loop of that worker ended. *)
Theorem status_icon_has_one_kind (status : string) (v : RecordingView.View) :
  (forall c, c ∈ status_kinds ->
     (c ∈ RecordingView.status_classes (RecordingView.set_status status v)
      <-> c = RecordingView.status_class status))
  /\ (forall c, c ∉ status_kinds ->
        (c ∈ RecordingView.status_classes (RecordingView.set_status status v)
         <-> c ∈ RecordingView.status_classes v))
  /\ (forall h reads e cb,
        Whisperflow._model e <> None \/ snd (Whisperflow._load_model h e) = true ->
        Whisperflow._status_cb e = Some cb ->
        pyaudio_import h = true -> audio_open h = None ->
        let v' := RecordingView.show_statuses
                    (snd (fst (Whisperflow._worker_loop h reads e))) v in
        RecordingView.status_label v' = "Ready"
        /\ forall c, c ∈ status_kinds ->
             (c ∈ RecordingView.status_classes v' <-> c = "status-idle")).
Proof.
  split; [intros c; apply set_status_shows |]. split.
  - intros c Hc. pose proof (status_class_kind status) as Hkind.
    assert (c <> RecordingView.status_class status) as Hne by congruence.
    revert Hc. unfold status_kinds. cbn.
    rewrite !elem_of_union, !elem_of_difference, !elem_of_singleton. tauto.
  - intros h reads e cb Hm Hcb Him Hop v'. subst v'.
    assert (forall e1 before,
              Whisperflow._status_cb e1 = Some cb ->
              let v1 := RecordingView.show_statuses
                          (before ++ Whisperflow._emit_status e1 "Ready") v in
              RecordingView.status_label v1 = "Ready"
              /\ forall c, c ∈ status_kinds ->
                   (c ∈ RecordingView.status_classes v1 <-> c = "status-idle"))
      as Hready.
    { intros e1 before Hcb1 v1. subst v1.
      rewrite show_statuses_app. unfold Whisperflow._emit_status. rewrite Hcb1.
      cbn [RecordingView.show_statuses foldl].
      split; [done |]. intros c Hc. by rewrite set_status_shows. }
    unfold Whisperflow._worker_loop.
    destruct (Whisperflow._model e) as [m |].
    + destruct (whisperflow_capture_ends_ready h reads e Him Hop) as [before ->].
      exact (Hready e before Hcb).
    + destruct Hm as [Hm | Hload]; [done |].
      pose proof (whisperflow_load_keeps_cb h e) as Hcb1.
      destruct (Whisperflow._load_model h e) as [[e1 trl] ok].
      cbn [fst snd] in *. subst ok. cbn [negb].
      destruct (whisperflow_capture_ends_ready h reads e1 Him Hop) as [before Hcap].
      destruct (Whisperflow.capture h reads e1) as [[e2 tr] fin].
      cbn [fst snd] in *. subst tr. rewrite app_assoc.
      apply (Hready e1 (trl ++ before)). congruence.
Qed.

(** X15 on a session of seven frames shown to a fresh view. *)
Lemma status_icon_witness :
  let e := forget (Wisprtux.with_model
                     (Some {| model_weights := LocalFile "tiny.en.pt";
                              model_device := cpu |}) listening) in
  let v := RecordingView.show_statuses
             (snd (fst (Whisperflow._worker_loop bare_host (frames 7) e)))
             RecordingView.__init__ in
  RecordingView.status_label v = "Ready"
  /\ ("status-idle" ∈ RecordingView.status_classes v)
  /\ RecordingView.status_class "Recording..." = "status-recording"
  /\ RecordingView.status_class "Transcribing..." = "status-processing"
  /\ RecordingView.status_class "Audio error: recording device busy"
     = "status-recording".
Proof.
  intros e v.
  assert (Whisperflow._model e <> None
          \/ snd (Whisperflow._load_model bare_host e) = true) as Hm
    by (left; discriminate).
  assert (Whisperflow._status_cb e = Some 1) as Hcb by reflexivity.
  destruct (proj2 (proj2 (status_icon_has_one_kind "" RecordingView.__init__))
              bare_host (frames 7) e 1 Hm Hcb eq_refl eq_refl)
    as (Hlabel & Hidle).
  split; [exact Hlabel |]. split; [| by vm_compute].
  apply Hidle; [| done]. unfold status_kinds.
  rewrite !elem_of_union, !elem_of_singleton. tauto.
Defined.

Lemma toggle_button (tid qid : nat) (v : RecordingView.View) (e : Whisperflow.Engine) :
  let v' := fst (fst (RecordingView.toggle_recording tid qid v e)) in
  let b := RecordingView.record_button v' in
  RecordingView._is_recording v' = negb (RecordingView._is_recording v)
  /\ RecordingView.tooltip_text b
     = (if RecordingView._is_recording v' then "Stop recording" else "Start recording")
  /\ ("destructive-action" ∈ RecordingView.button_classes b
      <-> RecordingView._is_recording v' = true)
  /\ ("suggested-action" ∈ RecordingView.button_classes b
      <-> RecordingView._is_recording v' = false).
Proof.
  unfold RecordingView.toggle_recording, RecordingView._start_recording,
    RecordingView._stop_recording.
  destruct (RecordingView._is_recording v).
  - destruct (Whisperflow.stop_recording e) as [e' tr]. cbn.
    rewrite !elem_of_union, !elem_of_difference, !elem_of_singleton.
    repeat split; try done; intros; try tauto.
    destruct H as [[_ H] | H]; [done | discriminate].
  - destruct (Whisperflow.start_recording tid qid e) as [e' tr]. cbn.
    rewrite !elem_of_union, !elem_of_difference, !elem_of_singleton.
    repeat split; try done; intros; try tauto.
    destruct H as [[_ H] | H]; [done | discriminate].
Qed.

Lemma toggle_starts (tid qid : nat) (v : RecordingView.View)
    (e : Whisperflow.Engine) :
  RecordingView._is_recording v = false -> Whisperflow._recording e = false ->
  let r := RecordingView.toggle_recording tid qid v e in
  snd r = [ThreadStart tid]
  /\ RecordingView._is_recording (fst (fst r)) = true
  /\ Whisperflow._recording (snd (fst r)) = true.
Proof.
  intros Hv He. unfold RecordingView.toggle_recording,
    RecordingView._start_recording, Whisperflow.start_recording.
  by rewrite Hv, He.
Qed.

Lemma toggle_stops_nothing (tid qid : nat) (v : RecordingView.View)
    (e : Whisperflow.Engine) :
  RecordingView._is_recording v = true -> Whisperflow._recording e = false ->
  let r := RecordingView.toggle_recording tid qid v e in
  snd r = [] /\ snd (fst r) = e
  /\ RecordingView._is_recording (fst (fst r)) = false.
Proof.
  intros Hv He. unfold RecordingView.toggle_recording,
    RecordingView._stop_recording, Whisperflow.stop_recording.
  by rewrite Hv, He.
Qed.

(** X16.  Every toggle of the view flips its recording flag and leaves the
    record button showing it: tooltip, and exactly one of the classes
    "destructive-action" (recording) and "suggested-action" (not
    recording).  The flag is the view's own: when the worker of a session
    gave up and cleared the engine's [_recording], the view still counts
    as recording, so the next toggle only calls [stop_recording], which
    does nothing at all, and it takes one more toggle to start a worker
    again. *)
Theorem toggle_after_failed_start (h : Host) (reads : list read_result)
    (tid qid tid' qid' : nat) (v : RecordingView.View) (e : Whisperflow.Engine) :
  let first := RecordingView.toggle_recording tid qid v e in
  let e2 := fst (fst (Whisperflow._worker_loop h reads (snd (fst first)))) in
  let second := RecordingView.toggle_recording tid' qid' (fst (fst first)) e2 in
  let third :=
    RecordingView.toggle_recording tid' qid' (fst (fst second)) (snd (fst second)) in
  (forall tid0 qid0 v0 e0,
     let v' := fst (fst (RecordingView.toggle_recording tid0 qid0 v0 e0)) in
     let b := RecordingView.record_button v' in
     RecordingView._is_recording v' = negb (RecordingView._is_recording v0)
     /\ RecordingView.tooltip_text b
        = (if RecordingView._is_recording v' then "Stop recording"
           else "Start recording")
     /\ ("destructive-action" ∈ RecordingView.button_classes b
         <-> RecordingView._is_recording v' = true)
     /\ ("suggested-action" ∈ RecordingView.button_classes b
         <-> RecordingView._is_recording v' = false))
  /\ (RecordingView._is_recording v = false ->
      Whisperflow._recording e = false ->
      Whisperflow._recording e2 = false ->
      snd first = [ThreadStart tid]
      /\ RecordingView._is_recording (fst (fst first)) = true
      /\ snd second = []
      /\ snd (fst second) = e2
      /\ RecordingView._is_recording (fst (fst second)) = false
      /\ snd third = [ThreadStart tid']
      /\ Whisperflow._recording (snd (fst third)) = true).
Proof.
  intros first e2 second third. split; [apply toggle_button |].
  intros Hv He He2.
  destruct (toggle_starts tid qid v e Hv He) as (H1 & H2 & _).
  fold first in H1, H2.
  destruct (toggle_stops_nothing tid' qid' (fst (fst first)) e2 H2 He2)
    as (H3 & H4 & H5).
  fold second in H3, H4, H5.
  destruct (toggle_starts tid' qid' (fst (fst second)) (snd (fst second)) H5)
    as (H6 & _ & H7); [by rewrite H4 |].
  fold third in H6, H7. auto 10.
Qed.

(** X16 on an offline engine with nothing cached: the worker reports that
    the model is not available and gives up. *)
Lemma toggle_after_failed_start_witness :
  let e := Whisperflow.set_offline true (forget listening) in
  let first := RecordingView.toggle_recording 7 1 RecordingView.__init__ e in
  let w := Whisperflow._worker_loop bare_host (frames 21) (snd (fst first)) in
  let second := RecordingView.toggle_recording 8 2 (fst (fst first)) (fst (fst w)) in
  snd (fst w) = [StatusCb 1 "Loading model..."; StatusCb 1 "Model not available offline"]
  /\ Whisperflow._recording (fst (fst w)) = false
  /\ RecordingView._is_recording (fst (fst first)) = true
  /\ snd second = []
  /\ RecordingView._is_recording (fst (fst second)) = false.
Proof.
  intros e first w second.
  assert (Whisperflow._recording (fst (fst w)) = false) as Hgave_up
    by (vm_compute; reflexivity).
  destruct (proj2 (toggle_after_failed_start bare_host (frames 21) 7 1 8 2
                     RecordingView.__init__ e) eq_refl eq_refl Hgave_up)
    as (_ & H1 & H2 & _ & H3 & _).
  split; [vm_compute; reflexivity |]. split; [exact Hgave_up |].
  split; [exact H1 |]. split; [exact H2 | exact H3].
Defined.

(** * Properties of the settings *)

Lemma default_lookup (k : string) :
  is_Some (Settings.DEFAULT_SETTINGS !! k)
  <-> k ∈ ["hotkey"; "model"; "offline_mode"; "theme"; "auto_clipboard"; "auto_type"].
Proof.
  rewrite !elem_of_cons, elem_of_nil. split.
  - intros [v Hv]. apply elem_of_list_to_map_2 in Hv.
    unfold Settings.default_items in Hv. rewrite !elem_of_cons, elem_of_nil in Hv.
    repeat (destruct Hv as [Hv | Hv]; [inversion Hv; tauto |]). done.
  - intros H.
    repeat (destruct H as [-> | H]; [by eexists |]). done.
Qed.

Lemma load_has_defaults (f : Settings.config_file) (k : string) :
  is_Some (Settings.DEFAULT_SETTINGS !! k) ->
  is_Some (Settings._load_settings f !! k).
Proof.
  intros [d Hd]. destruct f as [| | saved]; simpl; try by eexists.
  destruct (saved !! k) as [v |] eqn:Hs.
  - exists v. by apply lookup_union_Some_l.
  - exists d. rewrite lookup_union_r by done. done.
Qed.

Lemma reload_same (s : gmap string Settings.jvalue) :
  (forall k, is_Some (Settings.DEFAULT_SETTINGS !! k) -> is_Some (s !! k)) ->
  Settings._load_settings (Settings.Holds s) = s.
Proof.
  intros Hkeys. simpl. apply map_eq. intros k.
  destruct (s !! k) as [v |] eqn:Hs.
  - by apply lookup_union_Some_l.
  - rewrite lookup_union_r by done.
    destruct (Settings.DEFAULT_SETTINGS !! k) as [d |] eqn:Hd; [| done].
    destruct (Hkeys k) as [v Hv]; [by eexists | congruence].
Qed.

(** X17.  [_load_settings] gives the defaults when the file is missing or
    cannot be decoded.  From a file with a JSON object every entry is
    taken over, also the ones with keys the defaults do not have, and the
    defaults fill in the keys that are missing; so all six keys of the
    defaults are always there.  Loading what was loaded, once it is saved,
    gives the same dict. *)
Theorem load_settings_merges_defaults (f : Settings.config_file)
    (saved : gmap string Settings.jvalue) (k : string) :
  Settings._load_settings Settings.Missing = Settings.DEFAULT_SETTINGS
  /\ Settings._load_settings Settings.Undecodable = Settings.DEFAULT_SETTINGS
  /\ Settings._load_settings (Settings.Holds saved) !! k
     = match saved !! k with
       | Some v => Some v
       | None => Settings.DEFAULT_SETTINGS !! k
       end
  /\ (k ∈ ["hotkey"; "model"; "offline_mode"; "theme"; "auto_clipboard"; "auto_type"]
      -> is_Some (Settings._load_settings f !! k))
  /\ Settings._load_settings (Settings.Holds (Settings._load_settings f))
     = Settings._load_settings f.
Proof.
  split; [done |]. split; [done |]. split; [| split].
  - simpl. destruct (saved !! k) as [v |] eqn:Hs.
    + by apply lookup_union_Some_l.
    + by rewrite lookup_union_r.
  - intros Hk. by apply load_has_defaults, default_lookup.
  - apply reload_same. intros k'. apply load_has_defaults.
Qed.

(** X17 on a file that sets the model and a key of its own. *)
Lemma load_settings_witness :
  let saved : gmap string Settings.jvalue :=
    {[ "model" := Settings.JStr "base.en"; "volume" := Settings.JNum 3 ]} in
  Settings._load_settings (Settings.Holds saved) !! "model"
  = Some (Settings.JStr "base.en")
  /\ Settings._load_settings (Settings.Holds saved) !! "volume"
     = Some (Settings.JNum 3)
  /\ Settings._load_settings (Settings.Holds saved) !! "hotkey"
     = Some (Settings.JStr "F9")
  /\ is_Some (Settings._load_settings (Settings.Holds saved) !! "offline_mode").
Proof.
  intros saved.
  pose proof (load_settings_merges_defaults (Settings.Holds saved) saved) as H.
  split; [exact (proj1 (proj2 (proj2 (H "model")))) |].
  split; [exact (proj1 (proj2 (proj2 (H "volume")))) |].
  split; [exact (proj1 (proj2 (proj2 (H "hotkey")))) |].
  apply (proj1 (proj2 (proj2 (proj2 (H "offline_mode"))))).
  rewrite !elem_of_cons. tauto.
Defined.

Lemma store_reloads (key : string) (value : Settings.jvalue) (p : Settings.Panel) :
  Settings._load_settings (Settings.disk p) = Settings.settings p ->
  Settings._load_settings (Settings.disk (Settings.store key value p))
  = Settings.settings (Settings.store key value p).
Proof.
  intros Hload. cbn [Settings.store Settings.disk Settings.settings].
  apply reload_same. intros k Hk.
  destruct (decide (key = k)) as [-> | Hne].
  - rewrite lookup_insert_eq. by eexists.
  - rewrite lookup_insert_ne by done. rewrite <- Hload. by apply load_has_defaults.
Qed.

Lemma handle_synced (p : Settings.Panel) (ev : Settings.event) :
  Settings.synced p -> Settings.synced (fst (Settings.handle p ev)).
Proof.
  intros (Hload & Hmodel & Hoff & Hclip & Htype).
  destruct ev as [idx | key_name | active | active | active model_id | active];
    cbn [Settings.handle].
  - unfold Settings._on_theme_changed.
    destruct (Settings.THEME_OPTIONS !! idx) as [[theme_id label] |];
      [| by repeat split].
    split; [by apply store_reloads |]. cbn.
    rewrite !lookup_insert_ne by done. done.
  - split; [by apply (store_reloads "hotkey") |]. cbn.
    rewrite !lookup_insert_ne by done. done.
  - split; [by apply (store_reloads "auto_clipboard") |]. cbn.
    rewrite lookup_insert_eq, !lookup_insert_ne by done. done.
  - split; [by apply (store_reloads "auto_type") |]. cbn.
    rewrite lookup_insert_eq, !lookup_insert_ne by done. done.
  - unfold Settings._on_model_toggled. destruct active; [| by repeat split].
    split; [by apply (store_reloads "model") |]. cbn.
    rewrite lookup_insert_eq, !lookup_insert_ne by done. done.
  - split; [by apply (store_reloads "offline_mode") |]. cbn.
    rewrite lookup_insert_eq, !lookup_insert_ne by done. done.
Qed.

(** X18.  The settings stay in step.  When the dict of the panel is what
    [_load_settings] reads from the file and holds the model name and the
    three flags of the engine, this is so again after any series of
    changes made in the panel: every handler stores the new value in the
    dict, saves the dict, and hands the same value to the engine. *)
Theorem settings_stay_synced (p : Settings.Panel) (evs : list Settings.event) :
  Settings.synced p -> Settings.synced (fst (Settings.handle_all p evs)).
Proof.
  revert p. induction evs as [| ev rest IH]; intros p Hp; [exact Hp |].
  cbn [Settings.handle_all].
  pose proof (handle_synced p ev Hp) as Hstep.
  destruct (Settings.handle p ev) as [p1 tr1]. cbn [fst] in Hstep.
  specialize (IH p1 Hstep). by destruct (Settings.handle_all p1 rest).
Qed.

(** X18 on a first start followed by four changes. *)
Lemma settings_stay_synced_witness :
  let evs := [Settings.OfflineToggled true; Settings.ModelToggled true "base.en";
              Settings.ThemeChanged 2; Settings.ModelToggled false "large"] in
  let p := fst (Settings.handle_all Settings.first_start evs) in
  Settings.synced Settings.first_start
  /\ Settings.synced p
  /\ Wisprtux._model_name (Settings.engine p) = "base.en"
  /\ Wisprtux._offline (Settings.engine p) = true
  /\ Settings.settings p !! "theme" = Some (Settings.JStr "dark").
Proof.
  intros evs p.
  assert (Settings.synced Settings.first_start) as Hfirst by (by repeat split).
  split; [exact Hfirst |].
  split; [exact (settings_stay_synced Settings.first_start evs Hfirst) |].
  split; [reflexivity |]. split; [reflexivity |]. by vm_compute.
Defined.
